(** * Rozetka catalogue crawler: fetch layer, pagination, scheduling

    A shallow embedding of [src/api/rozetka.py] (class [RozetkaAPI]),
    [src/core/rozetka_app.py] (class [ApplicationRozetka]) and the
    writers of [src/utils/data_exporters.py].

    Python values that come back from the remote API are dynamically
    typed, so they are embedded as a small universe [pyval] together with
    the handful of interpreter operations the source applies to them
    ([x in y], [y[x]], [y.get(x, d)], truthiness, iteration, hashing);
    each operation raises where Python raises.  Methods that talk to the
    network are computations in a writer-with-exceptions monad whose log
    records every call of [_make_request], every inter-page sleep and
    every entry into a pagination walk.

    What is left out: floating point (JSON numbers are integers, delays
    are symbolic), the text of log messages, and the bytes of the files
    that are written.  A string stands for the UTF-8 bytes of a Python
    [str].  The remote host is a function of the URL and of the attempt
    number within a call. *)

From Stdlib Require Import ZArith Lia Ascii String List Permutation.
From stdpp Require Import base tactics option list gmap strings pretty.

Set Warnings "-register-all".
Local Open Scope string_scope.
Local Open Scope list_scope.
Local Open Scope Z_scope.

(** ** Python values *)

Module Py.

(** JSON documents as [json.loads] builds them, and Python strings.
    Numbers are restricted to integers (floating point is not modelled);
    a [dict] keeps its insertion order and is looked up by first match. *)
Inductive pyval : Type :=
| PNone
| PBool (b : bool)
| PInt (n : Z)
| PStr (s : string)
| PList (l : list pyval)
| PDict (d : list (string * pyval)).

Inductive exn : Type :=
| TypeError
| KeyError
| AttributeError
| ValueError
| IndexError
| ZeroDivisionError
| OSError
| UnicodeEncodeError.

Inductive outcome (A : Type) : Type :=
| Ok (a : A)
| Raise (e : exn).
Arguments Ok {A} a.
Arguments Raise {A} e.

(** Hashable values, up to Python equality: [True == 1] and [False == 0]
    are one set element each. *)
Inductive hkey : Type :=
| HNone
| HInt (n : Z)
| HStr (s : string).

#[global] Instance hkey_eq_dec : EqDecision hkey.
Proof. solve_decision. Defined.

Definition hkey_to_sum (k : hkey) : unit + (Z + string) :=
  match k with
  | HNone => inl tt
  | HInt n => inr (inl n)
  | HStr s => inr (inr s)
  end.

Definition hkey_of_sum (x : unit + (Z + string)) : hkey :=
  match x with
  | inl _ => HNone
  | inr (inl n) => HInt n
  | inr (inr s) => HStr s
  end.

#[global] Instance hkey_countable : Countable hkey.
Proof.
  apply (inj_countable' hkey_to_sum hkey_of_sum).
  intros []; reflexivity.
Defined.

(** [bool(x)] *)
Definition truthy (x : pyval) : bool :=
  match x with
  | PNone => false
  | PBool b => b
  | PInt n => negb (n =? 0)
  | PStr s => negb (String.eqb s "")
  | PList l => match l with [] => false | _ => true end
  | PDict d => match d with [] => false | _ => true end
  end.

Fixpoint dict_lookup (d : list (string * pyval)) (k : string) : option pyval :=
  match d with
  | [] => None
  | (k', v) :: d' => if String.eqb k' k then Some v else dict_lookup d' k
  end.

(** [needle in hay] on two strings *)
Fixpoint str_contains (needle hay : string) : bool :=
  if String.prefix needle hay then true
  else match hay with
       | EmptyString => false
       | String _ hay' => str_contains needle hay'
       end.

Definition is_str (k : string) (x : pyval) : bool :=
  match x with
  | PStr s => String.eqb s k
  | _ => false
  end.

(** [k in x] for a string literal [k] *)
Definition contains (k : string) (x : pyval) : outcome bool :=
  match x with
  | PDict d => Ok (bool_decide (is_Some (dict_lookup d k)))
  | PStr s => Ok (str_contains k s)
  | PList l => Ok (existsb (is_str k) l)
  | PNone | PBool _ | PInt _ => Raise TypeError
  end.

(** [x[k]] for a string [k] *)
Definition getitem (x : pyval) (k : string) : outcome pyval :=
  match x with
  | PDict d => match dict_lookup d k with
               | Some v => Ok v
               | None => Raise KeyError
               end
  | _ => Raise TypeError
  end.

(** [x.get(k, default)] *)
Definition get (x : pyval) (k : string) (dflt : pyval) : outcome pyval :=
  match x with
  | PDict d => Ok (default dflt (dict_lookup d k))
  | _ => Raise AttributeError
  end.

(** [x.items()] *)
Definition items (x : pyval) : outcome (list (string * pyval)) :=
  match x with
  | PDict d => Ok d
  | _ => Raise AttributeError
  end.

Definition is_continuation_byte (c : ascii) : bool :=
  let n := Z.of_nat (nat_of_ascii c) in (128 <=? n) && (n <? 192).

Definition starts_with_continuation (s : string) : bool :=
  match s with
  | String c _ => is_continuation_byte c
  | EmptyString => false
  end.

(** The characters of a [str].  A string is kept as its UTF-8 bytes, so a
    character is a leading byte together with its continuation bytes. *)
Fixpoint str_chars (s : string) : list string :=
  match s with
  | EmptyString => []
  | String c s' =>
      match str_chars s' with
      | g :: gs => if starts_with_continuation g
                   then String c g :: gs
                   else String c EmptyString :: g :: gs
      | [] => [String c EmptyString]
      end
  end.

(** [for v in x]: the values the iteration yields *)
Definition iter (x : pyval) : outcome (list pyval) :=
  match x with
  | PList l => Ok l
  | PDict d => Ok (map (fun kv => PStr (fst kv)) d)
  | PStr s => Ok (map PStr (str_chars s))
  | PNone | PBool _ | PInt _ => Raise TypeError
  end.

(** [hash(x)]; lists and dicts are unhashable *)
Definition hash (x : pyval) : outcome hkey :=
  match x with
  | PNone => Ok HNone
  | PBool b => Ok (HInt (if b then 1 else 0))
  | PInt n => Ok (HInt n)
  | PStr s => Ok (HStr s)
  | PList _ | PDict _ => Raise TypeError
  end.

Fixpoint hash_all (l : list pyval) : outcome (list hkey) :=
  match l with
  | [] => Ok []
  | x :: l' =>
      match hash x with
      | Raise e => Raise e
      | Ok k => match hash_all l' with
                | Raise e => Raise e
                | Ok ks => Ok (k :: ks)
                end
      end
  end.

(** [s.update(x)] on a set [s] *)
Definition set_update (s : gset hkey) (x : pyval) : outcome (gset hkey) :=
  match iter x with
  | Raise e => Raise e
  | Ok l => match hash_all l with
            | Raise e => Raise e
            | Ok ks => Ok (s ∪ list_to_set ks)
            end
  end.

(** [x + 1] *)
Definition add_one (x : pyval) : outcome Z :=
  match x with
  | PInt n => Ok (n + 1)
  | PBool b => Ok ((if b then 1 else 0) + 1)
  | _ => Raise TypeError
  end.

(** [range(lo, hi)] *)
Definition range (lo hi : Z) : list Z :=
  map (fun i => lo + Z.of_nat i) (seq 0 (Z.to_nat (hi - lo))).

(** [range(lo, hi, step)]; a zero step is a [ValueError] *)
Definition range_step (lo hi step : Z) : outcome (list Z) :=
  if step =? 0 then Raise ValueError
  else if 0 <? step
       then Ok (map (fun i => lo + Z.of_nat i * step)
                    (seq 0 (Z.to_nat ((hi - lo + step - 1) / step))))
       else Ok (map (fun i => lo + Z.of_nat i * step)
                    (seq 0 (Z.to_nat ((lo - hi - step - 1) / - step)))).

(** [l[i:j]] with Python's clamping of both bounds *)
Definition slice {A} (l : list A) (i j : Z) : list A :=
  let len := Z.of_nat (length l) in
  let clamp k := if k <? 0 then Z.max 0 (k + len) else Z.min k len in
  let lo := clamp i in
  let hi := clamp j in
  firstn (Z.to_nat (hi - lo)) (skipn (Z.to_nat lo) l).

(** ASCII lower-casing; bytes outside [A-Z] are left alone, which never
    changes whether an ASCII needle occurs in the result. *)
Definition lower_ascii (c : ascii) : ascii :=
  let n := nat_of_ascii c in
  if ((65 <=? n) && (n <=? 90))%nat then ascii_of_nat (n + 32) else c.

Fixpoint lower (s : string) : string :=
  match s with
  | EmptyString => EmptyString
  | String c s' => String (lower_ascii c) (lower s')
  end.

Section Format.
(** [repr] of a list or dict is left to the interpreter. *)
Variable repr : pyval -> string.

(** [f"{x}"] *)
Definition format (x : pyval) : string :=
  match x with
  | PNone => "None"
  | PBool true => "True"
  | PBool false => "False"
  | PInt n => pretty n
  | PStr s => s
  | PList _ | PDict _ => repr x
  end.
End Format.

End Py.

Import Py.

(** ** Settings ([src/core/settings.py], class [RozenkaSettings])

    The timing fields ([request_timeout], [min_delay], [max_delay]) are
    floats; they only show up as the sleeps of a log. *)

Record RozenkaSettings := {
  max_workers : Z;
  filters : option (list string);
  sort_list : option (list string);
  default_parse : bool;
  batch_size : Z;
  save_data : string;
  max_retries : Z
}.

(** ** The resilient fetch executor: [RozetkaAPI._make_request] *)

(** What [requests] hands back for one [session.get]. [json] is [None]
    when [response.json()] raises [ValueError]. *)
Record Response := {
  status_code : Z;
  content_type : option string;   (* the Content-Type header, if any *)
  text : string;
  json : option pyval
}.

(** One attempt either yields a response or raises inside the [try]. *)
Inductive attempt_result : Type :=
| Responded (r : Response)
| RaisedTimeout
| RaisedConnectionError
| RaisedRequestException
| RaisedException.

(** A [RozetkaAPI] instance: its settings, and what its session answers
    to the [attempt]-th [get] of a call on [url].  The host is taken to
    answer a URL the same way whenever it is asked. *)
Record RozetkaAPI := {
  settings : RozenkaSettings;
  session_get : string -> Z -> attempt_result
}.

(** Observable steps of one call of [_make_request]. *)
Inductive io : Type :=
| SleepJitter                  (* time.sleep(random.uniform(min_delay, max_delay)) *)
| HttpGet (full_url : string)  (* self._session.get(url=full_url, ...) *)
| SleepRateLimit (seconds : Z) (* time.sleep(5 * (attempt + 1)) *)
| SleepBackoff (base : Z).     (* time.sleep(2 ** attempt + random.uniform(0, 1)) *)

(** How one iteration of the retry loop ends. *)
Inductive step : Type :=
| Return (v : pyval)
| NextAttempt.

Definition full_url_of (url : string) (page : option Z) : string :=
  match page with
  | Some p => if p =? 0 then url else url +:+ "?page=" +:+ pretty p +:+ "/"
  | None => url
  end.

(** The body of [for attempt in range(max_retries)]. *)
Definition attempt_body (self : RozetkaAPI) (full_url : string) (attempt : Z)
  : list io * step :=
  let max_retries := max_retries (settings self) in
  let last := attempt =? max_retries - 1 in
  let sent := [SleepJitter; HttpGet full_url] in
  (* the code after the try block *)
  let backoff :=
    if attempt <? max_retries - 1 then [SleepBackoff (2 ^ attempt)] else [] in
  let retry (before : list io) :=
    if last then (before, Return PNone) else (before ++ backoff, NextAttempt) in
  match session_get self full_url attempt with
  | Responded response =>
      if status_code response =? 200 then
        let ctype := lower (default "" (content_type response)) in
        if str_contains "application/json" ctype then
          match json response with
          | Some v => (sent, Return v)
          | None =>
              (* except ValueError: ... continue *)
              if last then (sent, Return PNone) else (sent, NextAttempt)
          end
        else if str_contains "text/html" ctype then
          (sent, Return (PStr (text response)))
        else
          (sent, Return (PStr (text response)))
      else if status_code response =? 403 then
        retry sent
      else if status_code response =? 429 then
        retry (sent ++ [SleepRateLimit (5 * (attempt + 1))])
      else if status_code response =? 404 then
        (sent, Return PNone)
      else if (500 <=? status_code response) && (status_code response <? 600) then
        retry sent
      else
        retry sent
  | RaisedTimeout => retry sent
  | RaisedConnectionError => retry sent
  | RaisedRequestException => retry sent
  | RaisedException => retry sent
  end.

Fixpoint run_attempts (self : RozetkaAPI) (full_url : string)
    (attempts : list Z) : list io * pyval :=
  match attempts with
  | [] => ([], PNone)       (* all attempts used up: log the error, return None *)
  | attempt :: rest =>
      match attempt_body self full_url attempt with
      | (t, Return v) => (t, v)
      | (t, NextAttempt) =>
          let '(t', v) := run_attempts self full_url rest in (t ++ t', v)
      end
  end.

Definition _make_request (self : RozetkaAPI) (url : string) (page : option Z)
  : list io * pyval :=
  run_attempts self (full_url_of url page)
    (range 0 (max_retries (settings self))).

(** What the attempts in [attempts] log when each of them runs. *)
Definition attempts_trace (self : RozetkaAPI) (full_url : string)
    (attempts : list Z) : list io :=
  concat (map (fun attempt => fst (attempt_body self full_url attempt)) attempts).

(** The log of a call that meets 429 on each of its [retries] attempts:
    the penalty sleep after every answer, then the backoff between
    attempts. *)
Definition rate_limited_trace (retries : Z) (full_url : string) : list io :=
  concat (map (fun attempt =>
                 [SleepJitter; HttpGet full_url;
                  SleepRateLimit (5 * (attempt + 1))]
                 ++ (if attempt <? retries - 1
                     then [SleepBackoff (2 ^ attempt)] else []))
              (range 0 retries)).

(** Number of [session.get] calls in a trace. *)
Definition is_get (e : io) : bool :=
  match e with HttpGet _ => true | _ => false end.

Definition attempts_made (t : list io) : nat :=
  length (List.filter is_get t).

(** What a 200 answer makes the call return: the decoded document when
    the content type announces JSON and the body decodes, the body text
    for any other content type. *)
Definition payload_of (response : Response) : option pyval :=
  if str_contains "application/json"
       (lower (default "" (content_type response)))
  then json response
  else Some (PStr (text response)).

(** Answers that only ask for another attempt: an exception inside the
    [try], or a status other than 200, 404 and 429. *)
Definition is_transient (result : attempt_result) : bool :=
  match result with
  | Responded response =>
      negb (status_code response =? 200) && negb (status_code response =? 404)
      && negb (status_code response =? 429)
  | _ => true
  end.

(** The log of a call all of whose [retries] attempts are transient
    failures: the backoff after every attempt but the last. *)
Definition exhausted_trace (retries : Z) (full_url : string) : list io :=
  concat (map (fun attempt =>
                 [SleepJitter; HttpGet full_url]
                 ++ (if attempt <? retries - 1
                     then [SleepBackoff (2 ^ attempt)] else []))
              (range 0 retries)).

(** ** Computations of the traversal engine *)

(** The four pagination walks of [RozetkaAPI], by their binding. *)
Inductive walk : Type :=
| SimplePagination
| WithSort (sort_value : string)
| SingleFilter (filter_id : string) (filter_value : pyval)
| FilterSortCombo (filter_id : string) (filter_value : pyval) (sort_value : string).

Inductive event : Type :=
| Request (url : string)   (* one call self._make_request(url) *)
| PageSleep                (* time.sleep(0.1) *)
| EnterWalk (w : walk)     (* a pagination walk starts *)
| EnterDefaultParsing.     (* _process_default_parsing starts *)

(** A computation logs events and returns or raises. *)
Definition M (A : Type) : Type := list event * outcome A.

Definition ret {A} (a : A) : M A := ([], Ok a).

Definition bind {A B} (c : M A) (k : A -> M B) : M B :=
  match c with
  | (t, Ok a) => let '(t', r) := k a in (t ++ t', r)
  | (t, Raise e) => (t, Raise e)
  end.

Definition lift {A} (o : outcome A) : M A := ([], o).

Definition emit (e : event) : M unit := ([e], Ok tt).

Definition obind {A B} (o : outcome A) (k : A -> outcome B) : outcome B :=
  match o with
  | Ok a => k a
  | Raise e => Raise e
  end.

Notation "'let*' x ':=' c 'in' k" := (bind c (fun x => k))
  (at level 10, x pattern, c at level 100, k at level 200).
Notation "c1 ;; c2" := (bind c1 (fun _ => c2))
  (at level 100, c2 at level 200, right associativity).
Notation "'let?' x ':=' c 'in' k" := (obind c (fun x => k))
  (at level 10, x pattern, c at level 100, k at level 200).

(** The walks a log shows to have started, and the URLs it requested. *)
Definition walks_entered (t : list event) : list walk :=
  omap (fun e => match e with EnterWalk w => Some w | _ => None end) t.

Definition requests_of (t : list event) : list string :=
  omap (fun e => match e with Request u => Some u | _ => None end) t.

(** Events of the page-by-page work: requests and inter-page sleeps. *)
Definition is_page_event (e : event) : bool :=
  match e with
  | Request _ | PageSleep => true
  | EnterWalk _ | EnterDefaultParsing => false
  end.

Definition is_not_default (e : event) : bool :=
  match e with
  | EnterDefaultParsing => false
  | _ => true
  end.

(** [for x in xs: acc = body(x, acc)] *)
Fixpoint for_each {A S} (xs : list A) (body : A -> S -> M S) (acc : S) : M S :=
  match xs with
  | [] => ret acc
  | x :: rest => let* acc' := body x acc in for_each rest body acc'
  end.

(** What [self._make_request(url)] returns. *)
Definition fetch (self : RozetkaAPI) (url : string) : pyval :=
  snd (_make_request self url None).

(** [self._make_request(url)], seen from the caller *)
Definition request (self : RozetkaAPI) (url : string) : M pyval :=
  emit (Request url) ;; ret (fetch self url).

(** [response and 'data' in response and key in response['data']], then
    [response['data'][key]] where the test holds. *)
Definition data_member (key : string) (response : pyval) : outcome (option pyval) :=
  if negb (truthy response) then Ok None
  else
    let? has_data := contains "data" response in
    if negb has_data then Ok None
    else
      let? data := getitem response "data" in
      let? has_key := contains key data in
      if negb has_key then Ok None
      else
        let? data' := getitem response "data" in
        let? member := getitem data' key in
        Ok (Some member).

(** [if 'ids' in goods_data: all_product_ids.update(goods_data['ids'])] *)
Definition add_ids (all_product_ids : gset hkey) (goods_data : pyval)
  : outcome (gset hkey) :=
  let? has_ids := contains "ids" goods_data in
  if has_ids then
    let? ids := getitem goods_data "ids" in
    set_update all_product_ids ids
  else Ok all_product_ids.

(** The ids one page response contributes to a walk. *)
Definition page_ids (response : pyval) : outcome (gset hkey) :=
  let? goods := data_member "goods" response in
  match goods with
  | Some goods_data => add_ids ∅ goods_data
  | None => Ok ∅
  end.

(** The first exception among results, if any. *)
Fixpoint first_raise {A} (results : list (outcome A)) : option exn :=
  match results with
  | [] => None
  | Ok _ :: rest => first_raise rest
  | Raise e :: _ => Some e
  end.

(** The set a computation returned; nothing if it raised. *)
Definition contribution (o : outcome (gset hkey)) : gset hkey :=
  match o with
  | Ok s => s
  | Raise _ => ∅
  end.

(** The body of [for page in range(2, total_pages + 1)]. *)
Definition page_body (self : RozetkaAPI) (url_of_page : Z -> string)
    (page : Z) (all_product_ids : gset hkey) : M (gset hkey) :=
  let* response := request self (url_of_page page) in
  let* goods := lift (data_member "goods" response) in
  let* all_product_ids' :=
    match goods with
    | Some goods_data => lift (add_ids all_product_ids goods_data)
    | None => ret all_product_ids
    end in
  emit PageSleep ;;
  ret all_product_ids'.

(** The walk shared, line for line, by [_process_simple_pagination],
    [_process_with_sort], [_process_single_filter] and
    [_process_filter_sort_combo]; they differ in the URL only. *)
Definition pagination_walk (self : RozetkaAPI) (url_of_page : Z -> string)
  : M (gset hkey) :=
  let* first_page_response := request self (url_of_page 1) in
  let* goods := lift (data_member "goods" first_page_response) in
  match goods with
  | None => ret ∅
  | Some goods_data =>
      let* all_product_ids := lift (add_ids ∅ goods_data) in
      let* total_pages := lift (get goods_data "total_pages" (PInt 1)) in
      let* stop := lift (add_one total_pages) in
      for_each (range 2 stop) (page_body self url_of_page) all_product_ids
  end.

Definition truthy_list {A} (l : option (list A)) : bool :=
  match l with
  | Some (_ :: _) => true
  | _ => false
  end.

Definition catalog : string :=
  "https://catalog-api.rozetka.com.ua/v0.1/api/category/catalog?country=UA&lang=ua&filters=page:".

Section API.
(** [repr] of a list or dict, as the interpreter prints it. *)
Variable repr : pyval -> string.

Definition _process_simple_pagination (self : RozetkaAPI)
    (brand_name : pyval) (category_id : Z) (products_quantity : pyval)
  : M (gset hkey) :=
  emit (EnterWalk SimplePagination) ;;
  pagination_walk self (fun page =>
    catalog +:+ pretty page +:+ ";producer:" +:+ format repr brand_name
      +:+ "&id=" +:+ pretty category_id).

Definition _process_with_sort (self : RozetkaAPI)
    (brand_name : pyval) (category_id : Z) (products_quantity : pyval)
    (sort_value : string) : M (gset hkey) :=
  emit (EnterWalk (WithSort sort_value)) ;;
  pagination_walk self (fun page =>
    catalog +:+ pretty page +:+ ";producer:" +:+ format repr brand_name
      +:+ ";sort:" +:+ sort_value +:+ "&id=" +:+ pretty category_id).

Definition _process_single_filter (self : RozetkaAPI)
    (brand_name : pyval) (category_id : Z) (filter_id : string)
    (filter_value : pyval) : M (gset hkey) :=
  emit (EnterWalk (SingleFilter filter_id filter_value)) ;;
  pagination_walk self (fun page =>
    catalog +:+ pretty page +:+ ";producer:" +:+ format repr brand_name
      +:+ ";" +:+ filter_id +:+ ":" +:+ format repr filter_value
      +:+ "&id=" +:+ pretty category_id).

Definition _process_filter_sort_combo (self : RozetkaAPI)
    (brand_name : pyval) (category_id : Z) (filter_id : string)
    (filter_value : pyval) (sort_value : string) : M (gset hkey) :=
  emit (EnterWalk (FilterSortCombo filter_id filter_value sort_value)) ;;
  pagination_walk self (fun page =>
    catalog +:+ pretty page +:+ ";producer:" +:+ format repr brand_name
      +:+ ";" +:+ filter_id +:+ ":" +:+ format repr filter_value
      +:+ ";sort:" +:+ sort_value +:+ "&id=" +:+ pretty category_id).

(** The first-page URL both filter lookups fetch. *)
Definition facet_url (brand_name : pyval) (category_id : Z) : string :=
  catalog +:+ "1;producer:" +:+ format repr brand_name
    +:+ "&id=" +:+ pretty category_id.

(** [for filter_id, filter_data in ...items(): if ... == filter_name:
    return filter_id] *)
Fixpoint find_filter_id (options : list (string * pyval)) (filter_name : string)
  : outcome (option string) :=
  match options with
  | [] => Ok None
  | (filter_id, filter_data) :: rest =>
      let? title := get filter_data "option_title" PNone in
      if is_str filter_name title then Ok (Some filter_id)
      else find_filter_id rest filter_name
  end.

Definition _get_filter_id_by_name (self : RozetkaAPI)
    (brand_name : pyval) (category_id : Z) (filter_name : string)
  : M (option string) :=
  let* response := request self (facet_url brand_name category_id) in
  let* filters := lift (data_member "filters" response) in
  match filters with
  | Some filters =>
      let* has_options := lift (contains "options" filters) in
      if has_options then
        lift (let? options := getitem filters "options" in
              let? options_items := items options in
              find_filter_id options_items filter_name)
      else ret None
  | None => ret None
  end.

Definition _get_filter_values (self : RozetkaAPI)
    (brand_name : pyval) (category_id : Z) (filter_id : string)
  : M pyval :=
  let* response := request self (facet_url brand_name category_id) in
  let* filters := lift (data_member "filters" response) in
  match filters with
  | Some filters =>
      let* has_options := lift (contains "options" filters) in
      if has_options then
        let* options := lift (getitem filters "options") in
        let* has_id := lift (contains filter_id options) in
        if has_id then
          lift (let? options' := getitem filters "options" in
                let? filter_data := getitem options' filter_id in
                get filter_data "option_values" (PList []))
        else ret (PList [])
      else ret (PList [])
  | None => ret (PList [])
  end.

(** [not filter_id] for an [Optional[str]] *)
Definition falsy_id (filter_id : option string) : bool :=
  match filter_id with
  | Some s => String.eqb s ""
  | None => true
  end.

Definition _process_with_filters_and_sort (self : RozetkaAPI)
    (brand_name : pyval) (category_id : Z) (products_quantity : pyval)
    (filter_name : string) (sort_list : option (list string))
  : M (gset hkey) :=
  let* filter_id := _get_filter_id_by_name self brand_name category_id filter_name in
  if falsy_id filter_id then ret ∅
  else
    let filter_id := default "" filter_id in
    let* filter_values := _get_filter_values self brand_name category_id filter_id in
    if negb (truthy filter_values) then ret ∅
    else
      let* values := lift (iter filter_values) in
      if truthy_list sort_list then
        for_each values (fun filter_value all_product_ids =>
          let* value_name := lift (getitem filter_value "option_value_name") in
          let* value_quantity := lift (getitem filter_value "products_quantity") in
          let* value_title := lift (getitem filter_value "option_value_title") in
          for_each (default [] sort_list) (fun sort_value all_product_ids =>
            let* ids_for_combo :=
              _process_filter_sort_combo self brand_name category_id
                filter_id value_name sort_value in
            ret (all_product_ids ∪ ids_for_combo)) all_product_ids) ∅
      else
        for_each values (fun filter_value all_product_ids =>
          let* value_name := lift (getitem filter_value "option_value_name") in
          let* value_quantity := lift (getitem filter_value "products_quantity") in
          let* value_title := lift (getitem filter_value "option_value_title") in
          let* ids_for_filter :=
            _process_single_filter self brand_name category_id
              filter_id value_name in
          ret (all_product_ids ∪ ids_for_filter)) ∅.

Definition _process_default_parsing (self : RozetkaAPI)
    (brand_name : pyval) (category_id : Z) (products_quantity : pyval)
    (sort_list : option (list string)) : M (gset hkey) :=
  emit EnterDefaultParsing ;;
  if truthy_list sort_list then
    for_each (default [] sort_list) (fun sort_value all_product_ids =>
      let* sort_ids :=
        _process_with_sort self brand_name category_id products_quantity
          sort_value in
      ret (all_product_ids ∪ sort_ids)) ∅
  else
    _process_simple_pagination self brand_name category_id products_quantity.

(** The loop [for filter_name in filters] of [get_product_ids_for_brand];
    the state is [(found_any_filter, all_product_ids)]. *)
Definition filter_step (self : RozetkaAPI) (brand_name : pyval)
    (category_id : Z) (products_quantity : pyval)
    (sort_list : option (list string)) (filter_name : string)
    (st : bool * gset hkey) : M (bool * gset hkey) :=
  let* filter_ids :=
    _process_with_filters_and_sort self brand_name category_id
      products_quantity filter_name sort_list in
  if bool_decide (filter_ids ≠ ∅)
  then ret (true, snd st ∪ filter_ids)
  else ret st.

(** What the filter loop logs and gathers when every filter returns. *)
Definition filter_phase_log (self : RozetkaAPI) (brand_name : pyval)
    (category_id : Z) (products_quantity : pyval)
    (sort_list : option (list string)) (filters : list string) : list event :=
  flat_map (fun filter_name =>
              fst (_process_with_filters_and_sort self brand_name category_id
                     products_quantity filter_name sort_list)) filters.

Definition filter_phase_ids (self : RozetkaAPI) (brand_name : pyval)
    (category_id : Z) (products_quantity : pyval)
    (sort_list : option (list string)) (filters : list string) : gset hkey :=
  ⋃ map (fun filter_name =>
           contribution
             (snd (_process_with_filters_and_sort self brand_name category_id
                     products_quantity filter_name sort_list))) filters.

Definition get_product_ids_for_brand (self : RozetkaAPI)
    (brand_data : pyval) (category_id : Z)
    (filters sort_list : option (list string)) (default_parse : bool)
  : M (gset hkey) :=
  let* brand_name := lift (getitem brand_data "option_value_name") in
  let* products_quantity := lift (getitem brand_data "products_quantity") in
  let* (found_any_filter, all_product_ids) :=
    (if truthy_list filters
     then for_each (default [] filters)
            (filter_step self brand_name category_id products_quantity sort_list)
            (false, ∅)
     else ret (false, ∅)) in
  if default_parse then
    let* default_ids :=
      _process_default_parsing self brand_name category_id
        products_quantity sort_list in
    ret (all_product_ids ∪ default_ids)
  else if truthy_list filters && negb found_any_filter && negb default_parse then
    let* fallback_ids :=
      _process_default_parsing self brand_name category_id
        products_quantity sort_list in
    ret (all_product_ids ∪ fallback_ids)
  else if negb (truthy_list filters) && negb (truthy_list sort_list)
          && negb default_parse then
    _process_simple_pagination self brand_name category_id products_quantity
  else
    ret all_product_ids.

(** [chr(n)], as UTF-8 bytes *)
Definition chr (n : Z) : string :=
  let byte k := String (ascii_of_nat (Z.to_nat k)) EmptyString in
  if n <? 128 then byte n
  else if n <? 2048 then byte (192 + n / 64) +:+ byte (128 + n mod 64)
  else if n <? 65536 then
    byte (224 + n / 4096) +:+ byte (128 + (n / 64) mod 64)
      +:+ byte (128 + n mod 64)
  else
    byte (240 + n / 262144) +:+ byte (128 + (n / 4096) mod 64)
      +:+ byte (128 + (n / 64) mod 64) +:+ byte (128 + n mod 64).

Definition all_letters : list string :=
  map chr (range 65 91) ++ map chr (range 1040 1072).

(** A [dict] keyed by brand name, in insertion order. *)
Definition brands := list (hkey * pyval).

Definition has_key (brands_data : brands) (k : hkey) : bool :=
  existsb (fun kv => bool_decide (fst kv = k)) brands_data.

(** The body of [for option in response['data']['options']]. *)
Definition add_option (option : pyval) (brands_data : brands) : outcome brands :=
  let? brand_name := get option "option_value_name" PNone in
  if negb (truthy brand_name) then Ok brands_data
  else
    let? key := hash brand_name in
    if has_key brands_data key then Ok brands_data
    else
      let? title := get option "option_value_title" (PStr "") in
      let? quantity := get option "products_quantity" (PInt 0) in
      let? value_id := get option "option_value_id" PNone in
      let? is_chosen := get option "is_chosen" (PBool false) in
      let? order := get option "order" (PInt 0) in
      let? is_value_show := get option "is_value_show" (PBool false) in
      let? image := get option "option_value_image" PNone in
      Ok (brands_data ++
          [(key, PDict [("option_value_name", brand_name);
                        ("option_value_title", title);
                        ("products_quantity", quantity);
                        ("option_value_id", value_id);
                        ("is_chosen", is_chosen);
                        ("order", order);
                        ("is_value_show", is_value_show);
                        ("option_value_image", image)])]).

Fixpoint add_options (options : list pyval) (brands_data : brands)
  : outcome brands :=
  match options with
  | [] => Ok brands_data
  | option :: rest =>
      let? brands_data' := add_option option brands_data in
      add_options rest brands_data'
  end.

Definition search_brands_for_category (self : RozetkaAPI) (category_id : Z)
  : M brands :=
  for_each all_letters (fun letter brands_data =>
    let* response :=
      request self
        ("https://catalog-api.rozetka.com.ua/v0.1/api/category/search-brands"
           +:+ "?country=UA&lang=ua&id=" +:+ pretty category_id
           +:+ "&idType=catalog&query=" +:+ letter) in
    let* options := lift (data_member "options" response) in
    match options with
    | Some options =>
        lift (let? options := iter options in add_options options brands_data)
    | None => ret brands_data
    end) [].

(** What [get_product_ids_for_brand] reads off a brand record. *)
Definition brand_record (brand : hkey * pyval) : Prop :=
  exists name quantity,
    getitem (snd brand) "option_value_name" = Ok name
    /\ getitem (snd brand) "products_quantity" = Ok quantity.

(** The sequential collector. *)
Definition get_all_product_ids_for_category (self : RozetkaAPI)
    (category_id : Z) (filters sort_list : option (list string))
    (default_parse : bool) : M (gset hkey) :=
  let* brands_data := search_brands_for_category self category_id in
  match brands_data with
  | [] => ret ∅
  | _ =>
      for_each brands_data (fun brand all_product_ids =>
        let* brand_product_ids :=
          get_product_ids_for_brand self (snd brand) category_id
            filters sort_list default_parse in
        ret (all_product_ids ∪ brand_product_ids)) ∅
  end.

End API.

(** ** The application ([ApplicationRozetka]) *)

(** The application: its settings, and the instance every [RozetkaAPI()]
    evaluates to.  All instances load the same settings and talk to the
    same host, so the constructor is one value. *)
Record ApplicationRozetka := {
  app_settings : RozenkaSettings;
  new_api : RozetkaAPI
}.

Definition create_api_workers (self : ApplicationRozetka) (num_workers : Z)
  : list RozetkaAPI :=
  map (fun _ => new_api self) (range 0 num_workers).

(** A submitted task: the brand it was keyed by, the worker slot it was
    given and what [future.result()] does.  The log of a task is not
    kept: tasks run on different threads and their requests interleave. *)
Record future := {
  future_brand : hkey;
  future_worker : Z;
  future_result : outcome (gset hkey)
}.

Section Scheduler.
Variable repr : pyval -> string.

(** [executor.submit(workers[i % len(workers)].get_product_ids_for_brand,
    brand_data, ...)] for the [i]-th brand *)
Definition submit (workers : list RozetkaAPI) (category_id : Z)
    (filters sort_list : option (list string)) (default_parse : bool)
    (i : Z) (brand : hkey * pyval) : outcome future :=
  let len := Z.of_nat (length workers) in
  if len =? 0 then Raise ZeroDivisionError    (* i % 0 *)
  else
    match workers !! Z.to_nat (i mod len) with
    | Some worker =>
        Ok {| future_brand := fst brand;
              future_worker := i mod len;
              future_result :=
                snd (get_product_ids_for_brand repr worker (snd brand)
                       category_id filters sort_list default_parse) |}
    | None => Raise IndexError
    end.

Fixpoint submit_all (workers : list RozetkaAPI) (category_id : Z)
    (filters sort_list : option (list string)) (default_parse : bool)
    (i : Z) (brands_data : brands) : outcome (list future) :=
  match brands_data with
  | [] => Ok []
  | brand :: rest =>
      let? f := submit workers category_id filters sort_list default_parse i brand in
      let? fs := submit_all workers category_id filters sort_list default_parse
                   (i + 1) rest in
      Ok (f :: fs)
  end.

(** [for future in as_completed(...)]: [try: all_product_ids.update(
    future.result()) except Exception: log] *)
Definition merge_completed (f : future) (all_product_ids : gset hkey)
  : gset hkey :=
  match future_result f with
  | Ok brand_product_ids => all_product_ids ∪ brand_product_ids
  | Raise _ => all_product_ids
  end.

(** [completion] is the order in which [as_completed] yields the
    futures, as positions in submission order; the thread pool picks
    it. *)
Definition collect_product_ids_with_workers (self : ApplicationRozetka)
    (completion : list nat) (category_id max_workers : Z)
    (filters sort_list : option (list string)) (default_parse : bool)
  : M (gset hkey) :=
  let api := new_api self in
  let* brands_data := search_brands_for_category api category_id in
  match brands_data with
  | [] => ret ∅
  | _ =>
      let workers := create_api_workers self max_workers in
      if max_workers <=? 0 then lift (Raise ValueError)  (* ThreadPoolExecutor *)
      else
        let* futures :=
          lift (submit_all workers category_id filters sort_list
                  default_parse 0 brands_data) in
        let completed := omap (fun i => futures !! i) completion in
        ret (fold_left (fun acc f => merge_completed f acc) completed ∅)
  end.

(** What one brand's task returns, on any instance [api]. *)
Definition brand_result (api : RozetkaAPI) (category_id : Z)
    (filters sort_list : option (list string)) (default_parse : bool)
    (brand : hkey * pyval) : outcome (gset hkey) :=
  snd (get_product_ids_for_brand repr api (snd brand) category_id
         filters sort_list default_parse).

(** The union of what the brands' tasks return, each taken alone; a
    task that raises has no set to give. *)
Definition merged (api : RozetkaAPI) (category_id : Z)
    (filters sort_list : option (list string)) (default_parse : bool)
    (brands_data : brands) : gset hkey :=
  ⋃ map (fun brand =>
           contribution (brand_result api category_id filters sort_list
                           default_parse brand)) brands_data.

Definition collect_product_ids (self : ApplicationRozetka)
    (completion : list nat) (category_id : Z) : M (gset hkey) :=
  collect_product_ids_with_workers self completion category_id
    (max_workers (app_settings self)) (filters (app_settings self))
    (sort_list (app_settings self)) (default_parse (app_settings self)).

End Scheduler.

(** The batches of [process_batches_with_workers]:
    [[product_ids_list[i:i + batch_size]
      for i in range(0, total_products, batch_size)]] *)
Definition batches_of {A} (product_ids_list : list A) (batch_size : Z)
  : outcome (list (list A)) :=
  let total_products := Z.of_nat (length product_ids_list) in
  let? starts := range_step 0 total_products batch_size in
  Ok (map (fun i => slice product_ids_list i (i + batch_size)) starts).

(** [math.ceil(m / s)] for a positive [s] *)
Definition ceil_div (m s : Z) : Z := (m + s - 1) / s.

(** *** The entry loop *)

Definition is_digit (c : ascii) : bool :=
  let n := nat_of_ascii c in ((48 <=? n) && (n <=? 57))%nat.

Definition is_slash (c : ascii) : bool := Ascii.eqb c "/"%char.

(** The longest prefix of [s] whose characters satisfy [p], and the rest. *)
Fixpoint span (p : ascii -> bool) (s : string) : string * string :=
  match s with
  | String c s' =>
      if p c then let '(a, b) := span p s' in (String c a, b)
      else (EmptyString, s)
  | EmptyString => (EmptyString, EmptyString)
  end.

Definition strip_prefix (p s : string) : option string :=
  if String.prefix p s
  then Some (String.substring (String.length p) (String.length s - String.length p) s)
  else None.

(** [/ua/([^/]+)/c(\d+)/] anchored at the start of [s] (ASCII digits). *)
Definition match_here (s : string) : option (string * string) :=
  s1 ← strip_prefix "/ua/" s;
  let '(slug, s2) := span (fun c => negb (is_slash c)) s1 in
  if String.eqb slug "" then None
  else
    s3 ← strip_prefix "/c" s2;
    let '(digits, s4) := span is_digit s3 in
    if String.eqb digits "" then None
    else if String.prefix "/" s4 then Some (slug, digits) else None.

(** [re.search(pattern, url)]: the leftmost match *)
Fixpoint re_search (url : string) : option (string * string) :=
  match match_here url with
  | Some m => Some m
  | None => match url with
            | String _ url' => re_search url'
            | EmptyString => None
            end
  end.

(** The value of a run of ASCII digits. *)
Definition digits_value (digits : string) : Z :=
  fold_left (fun acc c => 10 * acc + (Z.of_nat (nat_of_ascii c) - 48))
            (list_ascii_of_string digits) 0.

(** [int(digits)] for a run of ASCII digits: a run of more than 4300
    digits, leading zeros counted, is a [ValueError] (the interpreter's
    default limit on integer string conversion). *)
Definition int_of_digits (digits : string) : outcome Z :=
  if (4300 <? String.length digits)%nat then Raise ValueError
  else Ok (digits_value digits).

Definition is_upper (c : ascii) : bool :=
  let n := nat_of_ascii c in ((65 <=? n) && (n <=? 90))%nat.
Definition is_lower (c : ascii) : bool :=
  let n := nat_of_ascii c in ((97 <=? n) && (n <=? 122))%nat.
Definition upper_ascii (c : ascii) : ascii :=
  if is_lower c then ascii_of_nat (nat_of_ascii c - 32) else c.

(** [s.title()] on ASCII text: a letter that follows a letter is
    lower-cased, any other letter is upper-cased. *)
Fixpoint title_from (previous_is_cased : bool) (s : string) : string :=
  match s with
  | EmptyString => EmptyString
  | String c s' =>
      let cased := is_upper c || is_lower c in
      String (if previous_is_cased then lower_ascii c else upper_ascii c)
             (title_from cased s')
  end.

Fixpoint replace_underscores (s : string) : string :=
  match s with
  | EmptyString => EmptyString
  | String c s' =>
      String (if Ascii.eqb c "_"%char then " "%char else c) (replace_underscores s')
  end.

(** [(None, None)] is [None]; otherwise the name and the id.  The
    [except Exception] branch is met where [int] raises.

    The pattern and the string methods are embedded for ASCII text,
    where [\d] is [0-9] and [title] touches [a-z] and [A-Z] only;
    [is_ascii] below delimits the URLs for which this is the source's
    function. *)
Definition category_name_and_id (url : string) : option (string * Z) :=
  match re_search url with
  | None => None
  | Some (slug, digits) =>
      match int_of_digits digits with
      | Raise _ => None
      | Ok category_id =>
          Some (title_from false (replace_underscores slug), category_id)
      end
  end.

(** Every byte of [s] is below 128. *)
Definition is_ascii (s : string) : bool :=
  forallb (fun c => (nat_of_ascii c <? 128)%nat) (list_ascii_of_string s).

(** What the entry loop did with one category URL. *)
Inductive visit : Type :=
| Skipped (category_url : string)              (* no id: continue *)
| Completed (category_url : string) (name : string) (product_ids : gset hkey)
| Failed (category_url : string)               (* except Exception: log *)
| NoIds (category_url : string).               (* not product_ids: return *)

Section Start.
(** Stage 1, [self.collect_product_ids], and stages 2 to 4 (batches,
    saving, statistics), each returning or raising. *)
Variable collect : Z -> outcome (gset hkey).
Variable later_stages : string -> Z -> gset hkey -> outcome unit.

(** [for category_url in categories] *)
Fixpoint start_loop (categories : list string) : list visit :=
  match categories with
  | [] => []
  | category_url :: rest =>
      match category_name_and_id category_url with
      | None => Skipped category_url :: start_loop rest
      | Some (name, category_id) =>
          if category_id =? 0 then Skipped category_url :: start_loop rest
          else
            match collect category_id with
            | Raise _ => Failed category_url :: start_loop rest
            | Ok product_ids =>
                if bool_decide (product_ids = ∅) then [NoIds category_url]
                else
                  match later_stages name category_id product_ids with
                  | Raise _ => Failed category_url :: start_loop rest
                  | Ok _ =>
                      Completed category_url name product_ids :: start_loop rest
                  end
            end
      end
  end.

(** [categories] is what [read_txt] returned. *)
Definition start (categories : list string) : list visit :=
  match categories with
  | [] => []
  | _ => start_loop categories
  end.

Definition visited_url (v : visit) : string :=
  match v with
  | Skipped u | Completed u _ _ | Failed u | NoIds u => u
  end.
End Start.

(** A log asks for pages 1, 2, ... of [url_of_page] in that order, each
    once and without a gap, up to some page. *)
Definition in_page_order (url_of_page : Z -> string) (t : list event) : Prop :=
  exists last_page,
    1 <= last_page
    /\ requests_of t = map url_of_page (range 1 (last_page + 1)).

(** [filter_value['option_value_name']] where the value has it. *)
Definition value_name_of (filter_value : pyval) : pyval :=
  match getitem filter_value "option_value_name" with
  | Ok name => name
  | Raise _ => PNone
  end.

(** A filter value as [_process_with_filters_and_sort] reads it: the
    three entries it subscripts are there. *)
Definition filter_value_record (filter_value : pyval) : Prop :=
  (exists name, getitem filter_value "option_value_name" = Ok name)
  /\ (exists quantity, getitem filter_value "products_quantity" = Ok quantity)
  /\ (exists title, getitem filter_value "option_value_title" = Ok title).

(** An entry of the brand mapping as discovery builds it: keyed by the
    hash of its truthy name, and holding the name and the product count. *)
Definition brand_entry (brand : hkey * pyval) : Prop :=
  exists name quantity,
    getitem (snd brand) "option_value_name" = Ok name
    /\ truthy name = true
    /\ hash name = Ok (fst brand)
    /\ getitem (snd brand) "products_quantity" = Ok quantity.

(** ** The batch detail pipeline *)

(** [isinstance(x, dict)] and [isinstance(x, list)] *)
Definition is_dict (x : pyval) : bool :=
  match x with PDict _ => true | _ => false end.

Definition is_list (x : pyval) : bool :=
  match x with PList _ => true | _ => false end.

(** [sep.join(parts)] *)
Fixpoint join (sep : string) (parts : list string) : string :=
  match parts with
  | [] => ""
  | [part] => part
  | part :: rest => part +:+ sep +:+ join sep rest
  end.

(** The fields of a record, as [parse_batch_data] names them, with the
    key each is read from. *)
Definition record_fields : list (string * string) :=
  [("title", "title"); ("price", "price"); ("url", "href");
   ("sku", "id"); ("availability", "sell_status")].

(** The body of [for product_info in batch_data]: [None] stands for
    [continue]. *)
Definition parse_product (product_info : pyval) : outcome (option pyval) :=
  if negb (is_dict product_info) then Ok None
  else
    let? title := get product_info "title" (PStr "") in
    let? price := get product_info "price" (PStr "") in
    let? url := get product_info "href" (PStr "") in
    let? sku := get product_info "id" (PStr "") in
    let? availability := get product_info "sell_status" (PStr "") in
    Ok (Some (PDict [("title", title); ("price", price); ("url", url);
                     ("sku", sku); ("availability", availability)])).

Fixpoint parse_products (batch_data : list pyval) : outcome (list pyval) :=
  match batch_data with
  | [] => Ok []
  | product_info :: rest =>
      let? result := parse_product product_info in
      let? parsed_results := parse_products rest in
      Ok (match result with
          | Some r => r :: parsed_results
          | None => parsed_results
          end)
  end.

Definition parse_batch_data (batch_data : pyval) : outcome (list pyval) :=
  if negb (truthy batch_data) || negb (is_list batch_data) then Ok []
  else
    let? products := iter batch_data in
    parse_products products.

Section BatchDetails.
Variable repr : pyval -> string.

Definition details_url (product_ids : list pyval) : string :=
  "https://common-api.rozetka.com.ua/v1/api/product/details?country=UA&lang=ua&ids="
    +:+ join "," (map (format repr) product_ids).

Definition get_batch_data (self : RozetkaAPI) (product_ids : list pyval)
  : M pyval :=
  match product_ids with
  | [] => ret (PList [])
  | _ =>
      let* response_data := request self (details_url product_ids) in
      if is_dict response_data then
        let* has_data := lift (contains "data" response_data) in
        if has_data then lift (getitem response_data "data")
        else ret (PList [])
      else ret (PList [])
  end.

Definition process_single_batch (self : RozetkaAPI)
    (product_ids_batch : list pyval) : M (list pyval) :=
  let* batch_raw_data := get_batch_data self product_ids_batch in
  if negb (truthy batch_raw_data) then ret []
  else
    let* parsed_batch := lift (parse_batch_data batch_raw_data) in
    ret (match parsed_batch with
         | [] => []
         | _ => parsed_batch
         end).

(** A submitted batch: the batch, its worker slot and what
    [future.result()] does. *)
Record batch_future := {
  future_batch : list pyval;
  batch_worker : Z;
  batch_result : outcome (list pyval)
}.

Definition submit_batch (workers : list RozetkaAPI) (i : Z)
    (batch : list pyval) : outcome batch_future :=
  let len := Z.of_nat (length workers) in
  if len =? 0 then Raise ZeroDivisionError    (* i % 0 *)
  else
    match workers !! Z.to_nat (i mod len) with
    | Some worker =>
        Ok {| future_batch := batch;
              batch_worker := i mod len;
              batch_result := snd (process_single_batch worker batch) |}
    | None => Raise IndexError
    end.

Fixpoint submit_batches (workers : list RozetkaAPI) (i : Z)
    (batches : list (list pyval)) : outcome (list batch_future) :=
  match batches with
  | [] => Ok []
  | batch :: rest =>
      let? f := submit_batch workers i batch in
      let? fs := submit_batches workers (i + 1) rest in
      Ok (f :: fs)
  end.

(** [try: parsed_batch = future.result(); if parsed_batch:
    all_parsed_data.extend(parsed_batch) ... except Exception: log] *)
Definition extend_completed (f : batch_future) (all_parsed_data : list pyval)
  : list pyval :=
  match batch_result f with
  | Ok ((_ :: _) as parsed_batch) => all_parsed_data ++ parsed_batch
  | Ok [] => all_parsed_data
  | Raise _ => all_parsed_data
  end.

(** [product_ids_list] is [list(product_ids)], in the order the set
    gives; [completion] is the order in which the futures complete. *)
Definition process_batches_with_workers (self : ApplicationRozetka)
    (completion : list nat) (product_ids_list : list pyval)
    (batch_size num_workers : Z) : outcome (list pyval) :=
  let? batches := batches_of product_ids_list batch_size in
  let workers := create_api_workers self num_workers in
  if num_workers <=? 0 then Raise ValueError    (* ThreadPoolExecutor *)
  else
    let? futures := submit_batches workers 0 batches in
    let completed := omap (fun i => futures !! i) completion in
    Ok (fold_left (fun acc f => extend_completed f acc) completed []).

(** The records of the batches, taken in submission order. *)
Definition records_in_order (api : RozetkaAPI) (batches : list (list pyval))
  : list pyval :=
  flat_map (fun batch =>
              match snd (process_single_batch api batch) with
              | Ok parsed_batch => parsed_batch
              | Raise _ => []
              end) batches.

End BatchDetails.

(** ** Saving ([save_results], [src/utils/data_exporters.py]) *)

(** What is handed to an open file. *)
Inductive content : Type :=
| CsvText (fieldnames : list string) (rows : list (list pyval))
| JsonText (data : list pyval).

(** The outside, as the writers meet it: creating the directory, opening
    a file for writing, writing and closing it, and [print].  Each of
    them returns or raises as the operating system decides: [OSError]
    for a path that cannot be made or opened or a disk that is full,
    [UnicodeEncodeError] for text the encoding of the file or of the
    console cannot take. *)
Record filesystem := {
  mkdir : string -> outcome unit;                  (* data_dir.mkdir(parents=True, exist_ok=True) *)
  open_write : string -> outcome unit;             (* self.filename.open("w", encoding="utf-8") *)
  write_text : string -> content -> outcome unit;  (* the writes, and the close that ends [with] *)
  print_line : outcome unit                        (* print("...") *)
}.

(** What the writers do to the outside. *)
Inductive output : Type :=
| MakeDir (path : string)
| NothingToWrite                          (* the message was printed *)
| CsvFile (path : string) (fieldnames : list string) (rows : list (list pyval))
| JsonFile (path : string) (data : list pyval)
| UnknownFormat (save_format : string).   (* logger.warning *)

(** [csv.DictWriter] with its defaults: a row with a key outside
    [fieldnames] is a [ValueError], a missing key is written as [''] . *)
Definition dict_to_list (fieldnames : list string) (rowdict : pyval)
  : outcome (list pyval) :=
  let? entries := items rowdict in
  if forallb (fun kv => existsb (String.eqb (fst kv)) fieldnames) entries
  then Ok (map (fun key => default (PStr "") (dict_lookup entries key)) fieldnames)
  else Raise ValueError.

(** [writer.writerows(data)]: the rows handed to the file, up to the
    first one that raises. *)
Fixpoint writerows (fieldnames : list string) (rows : list pyval)
  : list (list pyval) * outcome unit :=
  match rows with
  | [] => ([], Ok tt)
  | rowdict :: rest =>
      match dict_to_list fieldnames rowdict with
      | Raise e => ([], Raise e)
      | Ok cells =>
          let '(more, r) := writerows fieldnames rest in (cells :: more, r)
      end
  end.

(** [data_dir / filename], for a relative [filename]. *)
Definition data_path (filename : string) : string := "src/data/" +:+ filename.

(** [CSVWriter(filename).write(data)].  The constructor makes the
    directory.  An exception of the file (a failed write, or the close
    at the end of [with], which runs also when a row has raised) is the
    one the call ends with. *)
Definition csv_write (fs : filesystem) (filename : string) (data : list pyval)
  : list output * outcome unit :=
  match mkdir fs "src/data" with
  | Raise e => ([], Raise e)
  | Ok _ =>
      match data with
      | [] =>
          match print_line fs with
          | Raise e => ([MakeDir "src/data"], Raise e)
          | Ok _ => ([MakeDir "src/data"; NothingToWrite], Ok tt)
          end
      | first :: _ =>
          match items first with
          | Raise e => ([MakeDir "src/data"], Raise e)
          | Ok entries =>
              let fieldnames := map fst entries in
              match open_write fs (data_path filename) with
              | Raise e => ([MakeDir "src/data"], Raise e)
              | Ok _ =>
                  let '(rows, r) := writerows fieldnames data in
                  ([MakeDir "src/data";
                    CsvFile (data_path filename) fieldnames rows],
                   match write_text fs (data_path filename)
                           (CsvText fieldnames rows) with
                   | Raise e => Raise e
                   | Ok _ => r
                   end)
              end
          end
      end
  end.

(** [JSONWriter(filename).write(data)] *)
Definition json_write (fs : filesystem) (filename : string) (data : list pyval)
  : list output * outcome unit :=
  match mkdir fs "src/data" with
  | Raise e => ([], Raise e)
  | Ok _ =>
      match open_write fs (data_path filename) with
      | Raise e => ([MakeDir "src/data"], Raise e)
      | Ok _ =>
          ([MakeDir "src/data"; JsonFile (data_path filename) data],
           match write_text fs (data_path filename) (JsonText data) with
           | Raise e => Raise e
           | Ok _ => Ok tt
           end)
      end
  end.

Definition one_of (choices : list string) (s : string) : bool :=
  existsb (String.eqb s) choices.

Definition save_results (fs : filesystem) (self : ApplicationRozetka)
    (data : list pyval) (name_category : string) : list output * outcome unit :=
  let save_format := lower (save_data (app_settings self)) in
  let '(t1, r1) :=
    if one_of ["csv"; "both"] save_format
    then csv_write fs (name_category +:+ "_data.csv") data
    else ([], Ok tt) in
  match r1 with
  | Raise e => (t1, Raise e)
  | Ok _ =>
      let '(t2, r2) :=
        if one_of ["json"; "both"] save_format
        then json_write fs (name_category +:+ "_data.json") data
        else ([], Ok tt) in
      match r2 with
      | Raise e => (t1 ++ t2, Raise e)
      | Ok _ =>
          if negb (one_of ["csv"; "json"; "both"] save_format)
          then (t1 ++ t2 ++ [UnknownFormat save_format], Ok tt)
          else (t1 ++ t2, Ok tt)
      end
  end.

(** The exception [e] is one the outside raised. *)
Definition refused (fs : filesystem) (e : exn) : Prop :=
  (exists path, mkdir fs path = Raise e)
  \/ (exists path, open_write fs path = Raise e)
  \/ (exists path text, write_text fs path text = Raise e)
  \/ print_line fs = Raise e.

(** ** Records and stages *)

Definition product_fields : list string :=
  ["title"; "price"; "url"; "sku"; "availability"].

(** A record as [parse_batch_data] appends it: the five fields, in this
    order. *)
Definition product_record (r : pyval) : Prop :=
  exists cells, r = PDict cells /\ map fst cells = product_fields.

(** The record of one product: each field read from its key, [''] where
    the product has no such key. *)
Definition record_of (product_info : pyval) : pyval :=
  let entries := match product_info with PDict d => d | _ => [] end in
  PDict (map (fun field_key =>
                (fst field_key,
                 default (PStr "") (dict_lookup entries (snd field_key))))
             record_fields).

Definition list_items (x : pyval) : list pyval :=
  match x with PList l => l | _ => [] end.

(** The [data] list of a details response; empty for every other shape. *)
Definition details_of (response : pyval) : list pyval :=
  match response with
  | PDict d => match dict_lookup d "data" with
               | Some data => list_items data
               | None => []
               end
  | _ => []
  end.

(** A row the CSV writer accepts under the header [fieldnames]. *)
Definition csv_row (fieldnames : list string) (rowdict : pyval) : Prop :=
  exists entries,
    items rowdict = Ok entries
    /\ forall key, In key (map fst entries) -> In key fieldnames.

Section Stages.
Variable repr : pyval -> string.

(** Stages 2 and 3 of [start] for one category: batches of 60 on 10
    workers, then saving.  Stage 4, [print_statistics], only logs. *)
Definition batch_and_save (fs : filesystem) (self : ApplicationRozetka)
    (completion : list nat) (product_ids_list : list pyval) (name : string)
  : list output * outcome unit :=
  match process_batches_with_workers repr self completion product_ids_list
          60 10 with
  | Raise e => ([], Raise e)
  | Ok parsed_data => save_results fs self parsed_data name
  end.

End Stages.

(** The test that ends a run of [start] at [category_url]: the URL gives
    a category id and the collection for it returns an empty set. *)
Definition ends_run (collect : Z -> outcome (gset hkey)) (category_url : string)
  : bool :=
  match category_name_and_id category_url with
  | None => false
  | Some (_, category_id) =>
      if category_id =? 0 then false
      else match collect category_id with
           | Ok product_ids => bool_decide (product_ids = ∅)
           | Raise _ => false
           end
  end.

(** Every character of [s] satisfies [p]. *)
Fixpoint all_chars (p : ascii -> bool) (s : string) : bool :=
  match s with
  | EmptyString => true
  | String c s' => p c && all_chars p s'
  end.

(** ** Remote behaviours used in the examples *)

Module Fixtures.

Definition ok_json (v : pyval) : attempt_result :=
  Responded {| status_code := 200;
               content_type := Some "application/json; charset=utf-8";
               text := ""; json := Some v |}.

Definition bad_json : attempt_result :=
  Responded {| status_code := 200;
               content_type := Some "Application/JSON";
               text := "{oops"; json := None |}.

Definition html (body : string) : attempt_result :=
  Responded {| status_code := 200;
               content_type := Some "text/html; charset=UTF-8";
               text := body; json := None |}.

Definition status (code : Z) : attempt_result :=
  Responded {| status_code := code; content_type := None;
               text := ""; json := None |}.

Fixpoint lookup_url (table : list (string * attempt_result)) (url : string)
  : option attempt_result :=
  match table with
  | [] => None
  | (u, r) :: rest => if String.eqb u url then Some r else lookup_url rest url
  end.

(** A host that answers the listed URLs and 404 for every other. *)
Definition serve (table : list (string * attempt_result))
    (url : string) (attempt : Z) : attempt_result :=
  default (status 404) (lookup_url table url).

Definition some_settings (retries : Z) (fs ss : option (list string))
    (dp : bool) : RozenkaSettings :=
  {| max_workers := 10; filters := fs; sort_list := ss;
     default_parse := dp; batch_size := 60; save_data := "csv";
     max_retries := retries |}.

Definition api_of (retries : Z) (get : string -> Z -> attempt_result)
  : RozetkaAPI :=
  {| settings := some_settings retries None None false; session_get := get |}.

Definition no_repr (x : pyval) : string := "".

(** A catalogue page [{data: {goods: {ids, total_pages}}}]. *)
Definition goods_page (ids : list Z) (total_pages : Z) : pyval :=
  PDict [("data",
          PDict [("goods",
                  PDict [("ids", PList (map PInt ids));
                         ("total_pages", PInt total_pages)])])].

(** The plain catalogue URL of a brand in category 80089. *)
Definition page_url (page : Z) (brand : string) : string :=
  catalog +:+ pretty page +:+ ";producer:" +:+ brand +:+ "&id=80089".

Definition sorted_url (page : Z) (brand sort : string) : string :=
  catalog +:+ pretty page +:+ ";producer:" +:+ brand
    +:+ ";sort:" +:+ sort +:+ "&id=80089".

(** Three pages announced; the second one comes back as an HTML
    document. *)
Definition html_midway : RozetkaAPI :=
  api_of 3 (serve [(page_url 1 "lg", ok_json (goods_page [1; 2] 3));
                   (page_url 2 "lg", html "<html data-page>");
                   (page_url 3 "lg", ok_json (goods_page [5] 3))]).

(** The first page decodes to [{data: null}]. *)
Definition null_data : RozetkaAPI :=
  api_of 3 (serve [(page_url 1 "lg", ok_json (PDict [("data", PNone)]))]).

(** Three pages, the second of which is missing (404). *)
Definition gap_midway : RozetkaAPI :=
  api_of 3 (serve [(page_url 1 "lg", ok_json (goods_page [1; 2] 3));
                   (page_url 3 "lg", ok_json (goods_page [2; 5] 3))]).

Definition brand_search_url (letter : string) : string :=
  "https://catalog-api.rozetka.com.ua/v0.1/api/category/search-brands"
    +:+ "?country=UA&lang=ua&id=80089&idType=catalog&query=" +:+ letter.

Definition brand_options (names : list string) : pyval :=
  PDict [("data",
          PDict [("options",
                  PList (map (fun name =>
                                PDict [("option_value_name", PStr name);
                                       ("products_quantity", PInt 3)])
                             names))])].

(** The end-to-end scenario of the specification: [dell] has one page
    of three ids, [lg] two pages with ids 1, 2 and 2, 3. *)
Definition two_brands : RozetkaAPI :=
  api_of 3 (serve [(brand_search_url "D", ok_json (brand_options ["dell"]));
                   (brand_search_url "L", ok_json (brand_options ["lg"; "dell"]));
                   (page_url 1 "dell", ok_json (goods_page [10; 11; 12] 1));
                   (page_url 1 "lg", ok_json (goods_page [1; 2] 2));
                   (page_url 2 "lg", ok_json (goods_page [2; 3] 2))]).

(** As above, but the first page of [dell] decodes to [{data: null}]. *)
Definition one_brand_broken : RozetkaAPI :=
  api_of 3 (serve [(brand_search_url "D", ok_json (brand_options ["dell"]));
                   (brand_search_url "L", ok_json (brand_options ["lg"]));
                   (page_url 1 "dell", ok_json (PDict [("data", PNone)]));
                   (page_url 1 "lg", ok_json (goods_page [1; 2] 1))]).

Definition app_of (api : RozetkaAPI) : ApplicationRozetka :=
  {| app_settings := settings api; new_api := api |}.

(** Two sort orders, one page each. *)
Definition two_sorts : RozetkaAPI :=
  api_of 3 (serve [(page_url 1 "lg", ok_json (goods_page [1; 2; 3] 1));
                   (sorted_url 1 "lg" "popularity", ok_json (goods_page [1; 2] 1));
                   (sorted_url 1 "lg" "price", ok_json (goods_page [2; 3] 1))]).

Definition lg : pyval :=
  PDict [("option_value_name", PStr "lg"); ("products_quantity", PInt 3)].

Definition filtered_url (page : Z) (brand filter_id value : string) : string :=
  catalog +:+ pretty page +:+ ";producer:" +:+ brand
    +:+ ";" +:+ filter_id +:+ ":" +:+ value +:+ "&id=80089".

(** The first page of a brand that has the facet "Diagonal" (id [f1])
    with the one value [27]. *)
Definition facet_page : pyval :=
  PDict [("data",
          PDict [("goods",
                  PDict [("ids", PList [PInt 1; PInt 2; PInt 3]);
                         ("total_pages", PInt 1)]);
                 ("filters",
                  PDict [("options",
                          PDict [("f1",
                                  PDict [("option_title", PStr "Diagonal");
                                         ("option_values",
                                          PList [PDict
                                            [("option_value_name", PStr "27");
                                             ("products_quantity", PInt 4);
                                             ("option_value_title", PStr "27 in")]])])])])])].

(** The facet is there, but the filtered catalogue page is a 404. *)
Definition empty_filter : RozetkaAPI :=
  api_of 3 (serve [(page_url 1 "lg", ok_json facet_page)]).

(** The facet is there and its filtered page lists two products. *)
Definition filter_hits : RozetkaAPI :=
  api_of 3 (serve [(page_url 1 "lg", ok_json facet_page);
                   (filtered_url 1 "lg" "f1" "27", ok_json (goods_page [1; 2] 1))]).

(** A host that answers 500 to the first attempt of a call and the
    document [v] from the second attempt on. *)
Definition flaky (v : pyval) : RozetkaAPI :=
  api_of 3 (fun url attempt => if attempt =? 0 then status 500 else ok_json v).

(** A host that never answers in time. *)
Definition always_down : RozetkaAPI :=
  api_of 3 (fun url attempt => RaisedTimeout).

Definition filtered_sorted_url (page : Z) (brand filter_id value sort : string)
  : string :=
  catalog +:+ pretty page +:+ ";producer:" +:+ brand
    +:+ ";" +:+ filter_id +:+ ":" +:+ value
    +:+ ";sort:" +:+ sort +:+ "&id=80089".

(** The facet is there and its filtered pages are listed under two sort
    orders. *)
Definition filter_sorted_hits : RozetkaAPI :=
  api_of 3 (serve [(page_url 1 "lg", ok_json facet_page);
                   (filtered_sorted_url 1 "lg" "f1" "27" "popularity",
                    ok_json (goods_page [1; 2] 1));
                   (filtered_sorted_url 1 "lg" "f1" "27" "price",
                    ok_json (goods_page [2; 3] 1))]).

(** The one value of the facet "Diagonal". *)
Definition diagonal_27 : pyval :=
  PDict [("option_value_name", PStr "27");
         ("products_quantity", PInt 4);
         ("option_value_title", PStr "27 in")].

(** The entry discovery makes of the option [name] of [brand_options]. *)
Definition discovered (name : string) : hkey * pyval :=
  (HStr name,
   PDict [("option_value_name", PStr name);
          ("option_value_title", PStr "");
          ("products_quantity", PInt 3);
          ("option_value_id", PNone);
          ("is_chosen", PBool false);
          ("order", PInt 0);
          ("is_value_show", PBool false);
          ("option_value_image", PNone)]).

Definition details_prefix : string :=
  "https://common-api.rozetka.com.ua/v1/api/product/details?country=UA&lang=ua&ids=".

(** Product details for the batches [1,2] and [3]: the first answer
    holds a full product, a stray string and a product with an id
    only. *)
Definition details_host : RozetkaAPI :=
  api_of 3 (serve [(details_prefix +:+ "1,2",
                    ok_json (PDict [("data",
                      PList [PDict [("title", PStr "A"); ("price", PInt 10);
                                    ("href", PStr "/a"); ("id", PInt 1);
                                    ("sell_status", PStr "available")];
                             PStr "junk";
                             PDict [("id", PInt 2)]])]));
                   (details_prefix +:+ "3",
                    ok_json (PDict [("data",
                      PList [PDict [("title", PStr "C"); ("id", PInt 3)]])]))]).

(** An application whose settings ask for [workers] workers and the
    output format [fmt]. *)
Definition app_with (workers : Z) (fmt : string) (api : RozetkaAPI)
  : ApplicationRozetka :=
  {| app_settings :=
       {| max_workers := workers; filters := None; sort_list := None;
          default_parse := false; batch_size := 60; save_data := fmt;
          max_retries := 3 |};
     new_api := api |}.

(** No facet at all, and the first page under the first sort order
    comes back as an HTML document. *)
Definition html_sorted : RozetkaAPI :=
  api_of 3 (serve [(page_url 1 "lg", ok_json (goods_page [1; 2; 3] 1));
                   (sorted_url 1 "lg" "popularity", html "<html data-page>");
                   (sorted_url 1 "lg" "price", ok_json (goods_page [2; 3] 1))]).

(** A slug of 300 letters, and a category URL with it. *)
Definition long_name : string :=
  String.concat "" (repeat "abcdefghij" 30).

Definition long_url : string :=
  "https://rozetka.com.ua/ua/" +:+ long_name +:+ "/c80004/".

(** A collector that finds ids for every category but 80089, for which
    it raises. *)
Definition collect_but_80089 (category_id : Z) : outcome (gset hkey) :=
  if category_id =? 80089 then Raise ValueError else Ok {[HInt 1; HInt 2]}.

(** A file system that takes everything. *)
Definition any_disk : filesystem :=
  {| mkdir := fun _ => Ok tt; open_write := fun _ => Ok tt;
     write_text := fun _ _ => Ok tt; print_line := Ok tt |}.

(** A file system that refuses file names of more than 255 bytes. *)
Definition short_names : filesystem :=
  {| mkdir := fun _ => Ok tt;
     open_write := fun path =>
       if (264 <? String.length path)%nat then Raise OSError else Ok tt;
     write_text := fun _ _ => Ok tt; print_line := Ok tt |}.

End Fixtures.

(** * Properties *)

(** ** [range] *)

Lemma range_nil (lo hi : Z) : hi <= lo -> range lo hi = [].
Proof.
  intros H. unfold range.
  replace (Z.to_nat (hi - lo)) with 0%nat by lia. reflexivity.
Qed.

Lemma range_cons (lo hi : Z) : lo < hi -> range lo hi = lo :: range (lo + 1) hi.
Proof.
  intros H. unfold range.
  replace (Z.to_nat (hi - lo)) with (S (Z.to_nat (hi - (lo + 1)))) by lia.
  cbn [seq map]. f_equal; [lia|].
  rewrite <- seq_shift, map_map.
  apply map_ext. intros i. lia.
Qed.

Lemma range_length (lo hi : Z) : length (range lo hi) = Z.to_nat (hi - lo).
Proof. unfold range. rewrite length_map, length_seq. reflexivity. Qed.

Lemma range_app (lo mid hi : Z) :
  lo <= mid <= hi -> range lo hi = range lo mid ++ range mid hi.
Proof.
  intros [H1 H2].
  remember (Z.to_nat (mid - lo)) as n eqn:Hn.
  revert lo H1 Hn. induction n as [|n IH]; intros lo H1 Hn.
  - assert (lo = mid) as -> by lia. rewrite (range_nil mid mid) by lia. reflexivity.
  - rewrite (range_cons lo hi), (range_cons lo mid) by lia.
    cbn [app]. f_equal. apply IH; lia.
Qed.

(** ** The fetch executor *)

Section MakeRequest.
Variable self : RozetkaAPI.
Variable url : string.
Variable page : option Z.

Local Abbreviation full := (full_url_of url page).
Local Abbreviation retries := (max_retries (settings self)).

Lemma attempts_made_app (t1 t2 : list io) :
  attempts_made (t1 ++ t2) = (attempts_made t1 + attempts_made t2)%nat.
Proof. unfold attempts_made. rewrite List.filter_app, length_app. reflexivity. Qed.

(** Every iteration of the retry loop sends exactly one request. *)
Lemma attempt_body_one_get (attempt : Z) :
  attempts_made (fst (attempt_body self full attempt)) = 1%nat.
Proof.
  unfold attempt_body.
  destruct (session_get self full attempt) as [r| | | |];
    repeat match goal with
           | |- context [if ?b then _ else _] => destruct b
           | |- context [match json ?r with _ => _ end] => destruct (json r)
           end; reflexivity.
Qed.

Lemma attempts_made_concat (f : Z -> list io) (attempts : list Z) :
  (forall a, attempts_made (f a) = 1%nat) ->
  attempts_made (concat (map f attempts)) = length attempts.
Proof.
  intros Hf. induction attempts as [|a l IH]; [reflexivity|].
  cbn [map concat length]. rewrite attempts_made_app, Hf, IH. reflexivity.
Qed.

Lemma attempts_trace_made (attempts : list Z) :
  attempts_made (attempts_trace self full attempts) = length attempts.
Proof. apply attempts_made_concat, attempt_body_one_get. Qed.

(** Attempts that all go on to the next one only add their log. *)
Lemma run_attempts_app (l1 l2 : list Z) :
  (forall a, In a l1 -> snd (attempt_body self full a) = NextAttempt) ->
  run_attempts self full (l1 ++ l2)
  = (attempts_trace self full l1 ++ fst (run_attempts self full l2),
     snd (run_attempts self full l2)).
Proof.
  induction l1 as [|a l1 IH]; intros Hall.
  - cbn. destruct (run_attempts self full l2); reflexivity.
  - cbn [app run_attempts].
    pose proof (Hall a (or_introl eq_refl)) as Ha.
    destruct (attempt_body self full a) as [t st] eqn:Hb. cbn in Ha. subst st.
    rewrite IH by (intros b Hb'; apply Hall; right; exact Hb').
    unfold attempts_trace. cbn [map concat]. rewrite Hb. cbn [fst snd].
    rewrite app_assoc. reflexivity.
Qed.

Lemma make_request_from (k : Z) :
  0 <= k <= retries ->
  (forall j, 0 <= j < k -> snd (attempt_body self full j) = NextAttempt) ->
  _make_request self url page
  = (attempts_trace self full (range 0 k)
       ++ fst (run_attempts self full (range k retries)),
     snd (run_attempts self full (range k retries))).
Proof.
  intros Hk Hall. unfold _make_request.
  rewrite (range_app 0 k retries) by lia.
  apply run_attempts_app.
  intros a Ha. apply Hall.
  unfold range in Ha. apply in_map_iff in Ha as (i & <- & Hi).
  apply in_seq in Hi. lia.
Qed.

(** C4. A 404 answer ends the call at once with [None]: whatever
    attempt receives it is the last one sent, nothing is slept after
    it, and a call whose first answer is 404 has sent one request. *)
Theorem make_request_404_is_terminal (k : Z) (response : Response) :
  0 <= k < retries ->
  (forall j, 0 <= j < k -> snd (attempt_body self full j) = NextAttempt) ->
  session_get self full k = Responded response ->
  status_code response = 404 ->
  _make_request self url page
  = (attempts_trace self full (range 0 k) ++ [SleepJitter; HttpGet full], PNone)
  /\ attempts_made (fst (_make_request self url page)) = Z.to_nat (k + 1)
  /\ (k = 0 -> fst (_make_request self url page) = [SleepJitter; HttpGet full]).
Proof.
  intros Hk Hall Hget Hst.
  assert (Hbody : attempt_body self full k = ([SleepJitter; HttpGet full], Return PNone)).
  { unfold attempt_body. rewrite Hget, Hst. reflexivity. }
  assert (Hrun : _make_request self url page
                 = (attempts_trace self full (range 0 k)
                      ++ [SleepJitter; HttpGet full], PNone)).
  { rewrite (make_request_from k) by (auto; lia).
    rewrite (range_cons k retries) by lia.
    cbn [run_attempts]. rewrite Hbody. reflexivity. }
  split; [exact Hrun|]. rewrite Hrun. cbn [fst]. split.
  - rewrite attempts_made_app, attempts_trace_made, range_length.
    cbn. lia.
  - intros ->. reflexivity.
Qed.

Lemma run_attempts_429 (n : nat) (k : Z) :
  n = Z.to_nat (retries - k) -> 0 <= k ->
  (forall a, 0 <= a < retries ->
     exists r, session_get self full a = Responded r /\ status_code r = 429) ->
  run_attempts self full (range k retries)
  = (concat (map (fun attempt =>
                    [SleepJitter; HttpGet full;
                     SleepRateLimit (5 * (attempt + 1))]
                    ++ (if attempt <? retries - 1
                        then [SleepBackoff (2 ^ attempt)] else []))
                 (range k retries)), PNone).
Proof.
  revert k. induction n as [|n IH]; intros k Hn Hk Hall.
  - rewrite range_nil by lia. reflexivity.
  - rewrite range_cons by lia. cbn [run_attempts map concat].
    destruct (Hall k ltac:(lia)) as (r & Hget & Hst).
    unfold attempt_body. rewrite Hget, Hst. cbn [Z.eqb Pos.eqb].
    destruct (k =? retries - 1) eqn:Hlast.
    + apply Z.eqb_eq in Hlast.
      rewrite (range_nil (k + 1)) by lia.
      replace (k <? retries - 1) with false by (symmetry; apply Z.ltb_ge; lia).
      cbn. reflexivity.
    + apply Z.eqb_neq in Hlast.
      rewrite (IH (k + 1)) by (auto; lia).
      rewrite <- !app_assoc. reflexivity.
Qed.

(** C5. A call that meets 429 on every attempt sends exactly
    [max_retries] requests and returns [None]; after each answer it
    sleeps [5 * (attempt + 1)] seconds, before the next attempt. *)
Theorem make_request_always_429 :
  (forall a, 0 <= a < retries ->
     exists r, session_get self full a = Responded r /\ status_code r = 429) ->
  _make_request self url page = (rate_limited_trace retries full, PNone)
  /\ attempts_made (fst (_make_request self url page)) = Z.to_nat retries.
Proof.
  intros Hall.
  assert (Hrun : _make_request self url page
                 = (rate_limited_trace retries full, PNone)).
  { unfold _make_request, rate_limited_trace.
    apply (run_attempts_429 (Z.to_nat (retries - 0)) 0); auto; lia. }
  split; [exact Hrun|].
  rewrite Hrun. cbn [fst]. unfold rate_limited_trace.
  rewrite attempts_made_concat, range_length; [f_equal; lia|].
  intros a. destruct (a <? retries - 1); reflexivity.
Qed.

(** C6, as the code has it. A 200 answer announced as JSON that does
    not decode is retried by the next attempt, without the backoff
    sleep, and uses up one attempt of the budget; on the final attempt
    the call returns [None]. *)
Theorem make_request_decode_failure (k : Z) (response : Response) :
  0 <= k < retries ->
  (forall j, 0 <= j < k -> snd (attempt_body self full j) = NextAttempt) ->
  session_get self full k = Responded response ->
  status_code response = 200 ->
  str_contains "application/json"
    (lower (default "" (content_type response))) = true ->
  json response = None ->
  _make_request self url page
  = if k =? retries - 1
    then (attempts_trace self full (range 0 k) ++ [SleepJitter; HttpGet full],
          PNone)
    else (attempts_trace self full (range 0 k) ++ [SleepJitter; HttpGet full]
            ++ fst (run_attempts self full (range (k + 1) retries)),
          snd (run_attempts self full (range (k + 1) retries))).
Proof.
  intros Hk Hall Hget Hst Hct Hjson.
  rewrite (make_request_from k) by (auto; lia).
  rewrite (range_cons k retries) by lia.
  assert (Hbody : attempt_body self full k
                  = ([SleepJitter; HttpGet full],
                     if k =? retries - 1 then Return PNone else NextAttempt)).
  { unfold attempt_body. rewrite Hget, Hst, Hct, Hjson. cbn [Z.eqb Pos.eqb].
    destruct (k =? retries - 1); reflexivity. }
  cbn [run_attempts]. rewrite Hbody.
  destruct (k =? retries - 1); [reflexivity|].
  destruct (run_attempts self full (range (k + 1) retries)). reflexivity.
Qed.

End MakeRequest.

(** A 500 on the first attempt, then a 404: two requests, the backoff
    after the first only. *)
Lemma make_request_404_is_terminal_witness :
  _make_request
    (Fixtures.api_of 3 (fun _ attempt =>
       if attempt =? 0 then Fixtures.status 500 else Fixtures.status 404))
    "u" None
  = ([SleepJitter; HttpGet "u"; SleepBackoff 1; SleepJitter; HttpGet "u"], PNone).
Proof.
  exact (proj1 (make_request_404_is_terminal
                  (Fixtures.api_of 3 (fun _ attempt =>
                     if attempt =? 0 then Fixtures.status 500
                     else Fixtures.status 404))
                  "u" None 1
                  {| status_code := 404; content_type := None;
                     text := ""; json := None |}
                  ltac:(cbn; lia)
                  ltac:(intros j Hj; assert (j = 0) as -> by lia; reflexivity)
                  eq_refl eq_refl)).
Defined.

Lemma make_request_always_429_witness :
  _make_request (Fixtures.api_of 3 (fun _ _ => Fixtures.status 429)) "u" None
  = ([SleepJitter; HttpGet "u"; SleepRateLimit 5; SleepBackoff 1;
      SleepJitter; HttpGet "u"; SleepRateLimit 10; SleepBackoff 2;
      SleepJitter; HttpGet "u"; SleepRateLimit 15], PNone).
Proof.
  exact (proj1 (make_request_always_429
                  (Fixtures.api_of 3 (fun _ _ => Fixtures.status 429)) "u" None
                  ltac:(intros a _; eexists; split; reflexivity))).
Defined.

(** The second of three attempts fails to decode: the third follows with
    no backoff in between. *)
Lemma make_request_decode_failure_witness :
  _make_request
    (Fixtures.api_of 3 (fun _ attempt =>
       if attempt =? 0 then Fixtures.status 500
       else if attempt =? 1 then Fixtures.bad_json
       else Fixtures.ok_json (PInt 7)))
    "u" None
  = ([SleepJitter; HttpGet "u"; SleepBackoff 1; SleepJitter; HttpGet "u";
      SleepJitter; HttpGet "u"], PInt 7).
Proof.
  exact (make_request_decode_failure
           (Fixtures.api_of 3 (fun _ attempt =>
              if attempt =? 0 then Fixtures.status 500
              else if attempt =? 1 then Fixtures.bad_json
              else Fixtures.ok_json (PInt 7)))
           "u" None 1
           {| status_code := 200; content_type := Some "Application/JSON";
              text := "{oops"; json := None |}
           ltac:(cbn; lia)
           ltac:(intros j Hj; assert (j = 0) as -> by lia; reflexivity)
           eq_refl eq_refl eq_refl eq_refl).
Defined.

(** C6, as stated, fails: when the final attempt cannot decode the body
    the call returns plain [None], the very value a 404 gives; no decode
    error reaches the caller. *)
Lemma make_request_decode_failure_is_plain_none :
  _make_request (Fixtures.api_of 2 (fun _ _ => Fixtures.bad_json)) "u" None
  = ([SleepJitter; HttpGet "u"; SleepJitter; HttpGet "u"], PNone)
  /\ snd (_make_request (Fixtures.api_of 2 (fun _ _ => Fixtures.bad_json)) "u" None)
     = snd (_make_request (Fixtures.api_of 2 (fun _ _ => Fixtures.status 404)) "u" None).
Proof. split; reflexivity. Qed.

(** ** Computations *)

Section Monad.
Context {A B : Type}.

Lemma bind_ok (c : M A) (k : A -> M B) (t : list event) (a : A) :
  c = (t, Ok a) -> bind c k = (t ++ fst (k a), snd (k a)).
Proof. intros ->. cbn. destruct (k a). reflexivity. Qed.

Lemma bind_raise (c : M A) (k : A -> M B) (t : list event) (e : exn) :
  c = (t, Raise e) -> bind c k = (t, Raise e).
Proof. intros ->. reflexivity. Qed.

Lemma bind_lift_ok (o : outcome A) (k : A -> M B) (a : A) :
  o = Ok a -> bind (lift o) k = k a.
Proof. intros ->. cbn. destruct (k a). reflexivity. Qed.

Lemma bind_ret (a : A) (k : A -> M B) : bind (ret a) k = k a.
Proof. cbn. destruct (k a). reflexivity. Qed.

(** A property of every event of [c] and of every continuation holds
    of every event of [bind c k]. *)
Lemma bind_Forall (P : event -> Prop) (c : M A) (k : A -> M B) :
  Forall P (fst c) -> (forall a, Forall P (fst (k a))) ->
  Forall P (fst (bind c k)).
Proof.
  intros Hc Hk. destruct c as [t [a|e]]; cbn in *; [|exact Hc].
  specialize (Hk a). destruct (k a). cbn in *.
  apply Forall_app. split; assumption.
Qed.
End Monad.

Lemma lift_Forall {A} (P : event -> Prop) (o : outcome A) : Forall P (fst (lift o)).
Proof. constructor. Qed.

Lemma ret_Forall {A} (P : event -> Prop) (a : A) : Forall P (fst (ret a)).
Proof. constructor. Qed.

Lemma for_each_Forall {A S} (P : event -> Prop) (xs : list A)
    (body : A -> S -> M S) (acc : S) :
  (forall x acc', Forall P (fst (body x acc'))) ->
  Forall P (fst (for_each xs body acc)).
Proof.
  intros Hbody. revert acc. induction xs as [|x xs IH]; intros acc.
  - constructor.
  - cbn [for_each]. apply bind_Forall; [apply Hbody|]. intros acc'. apply IH.
Qed.

Lemma request_Forall (P : event -> Prop) (self : RozetkaAPI) (url : string) :
  P (Request url) -> Forall P (fst (request self url)).
Proof. intros H. cbn. constructor; [exact H|constructor]. Qed.

Lemma emit_Forall (P : event -> Prop) (e : event) :
  P e -> Forall P (fst (emit e)).
Proof. intros H. cbn. constructor; [exact H|constructor]. Qed.

(** Breaks a computation into its steps, leaving one goal per event that
    is logged directly. *)
Ltac trace_shape :=
  repeat first
    [ apply lift_Forall
    | apply ret_Forall
    | apply request_Forall
    | apply emit_Forall
    | apply for_each_Forall; intros
    | apply bind_Forall; [|intros]
    | match goal with
      | |- Forall _ (fst (match ?x with _ => _ end)) => destruct x
      | |- Forall _ (fst (if ?b then _ else _)) => destruct b
      end ].

Lemma for_each_invariant {A S} (P : S -> Prop) (xs : list A)
    (body : A -> S -> M S) (acc : S) (t : list event) (r : S) :
  (forall x acc0 t0 acc1, P acc0 -> body x acc0 = (t0, Ok acc1) -> P acc1) ->
  P acc -> for_each xs body acc = (t, Ok r) -> P r.
Proof.
  intros Hbody. revert acc t. induction xs as [|x xs IH]; intros acc t Hacc Hrun.
  - cbn in Hrun. injection Hrun as _ <-. exact Hacc.
  - cbn [for_each] in Hrun.
    destruct (body x acc) as [t0 [acc1|e]] eqn:Hstep; cbn [bind] in Hrun;
      [|discriminate].
    destruct (for_each xs body acc1) as [t1 r1] eqn:Hrest.
    injection Hrun as _ ->.
    apply (IH acc1 t1); [|exact Hrest].
    exact (Hbody x acc t0 acc1 Hacc Hstep).
Qed.

(** ** Brand discovery *)

Lemma add_option_records (option : pyval) (brands_data brands_data' : brands) :
  Forall brand_record brands_data ->
  add_option option brands_data = Ok brands_data' ->
  Forall brand_record brands_data'.
Proof.
  intros Hall. unfold add_option.
  destruct (get option "option_value_name" PNone) as [brand_name|]; cbn;
    [|discriminate].
  destruct (truthy brand_name); cbn; [|congruence].
  destruct (hash brand_name) as [key|]; cbn; [|discriminate].
  destruct (has_key brands_data key); [congruence|].
  repeat match goal with
         | |- context [get ?o ?k ?d] => destruct (get o k d); cbn; [|discriminate]
         end.
  intros [= <-]. apply Forall_app. split; [exact Hall|].
  constructor; [|constructor]. eexists _, _. split; reflexivity.
Qed.

Lemma add_options_records (options : list pyval) (brands_data brands_data' : brands) :
  Forall brand_record brands_data ->
  add_options options brands_data = Ok brands_data' ->
  Forall brand_record brands_data'.
Proof.
  revert brands_data. induction options as [|option rest IH]; intros bs Hall.
  - cbn. congruence.
  - cbn [add_options].
    destruct (add_option option bs) as [bs1|] eqn:Hadd; cbn; [|discriminate].
    apply IH. exact (add_option_records option bs bs1 Hall Hadd).
Qed.

(** Every brand that discovery returns carries its name and its product
    count, the two entries [get_product_ids_for_brand] reads. *)
Lemma search_brands_records (self : RozetkaAPI) (category_id : Z)
    (t : list event) (brands_data : brands) :
  search_brands_for_category self category_id = (t, Ok brands_data) ->
  Forall brand_record brands_data.
Proof.
  unfold search_brands_for_category.
  apply (for_each_invariant (Forall brand_record)); [|constructor].
  intros letter bs t0 bs1 Hall. unfold request.
  cbn [emit ret bind app].
  destruct (data_member "options" _) as [[options|]|]; cbn; try discriminate.
  - destruct (iter options) as [l|]; cbn; [|discriminate].
    destruct (add_options l bs) as [bs2|] eqn:Hadd; [|discriminate].
    intros [= _ <-]. exact (add_options_records l bs bs2 Hall Hadd).
  - intros [= _ <-]. exact Hall.
Qed.

(** ** The pagination walk *)

Lemma pagination_walk_events (self : RozetkaAPI) (url_of_page : Z -> string) :
  Forall (fun e => is_page_event e = true) (fst (pagination_walk self url_of_page)).
Proof.
  unfold pagination_walk, page_body. trace_shape; reflexivity.
Qed.

Lemma walks_entered_page_events (t : list event) :
  Forall (fun e => is_page_event e = true) t -> walks_entered t = [].
Proof.
  induction 1 as [|e t He _ IH]; [reflexivity|].
  unfold walks_entered in *. cbn [omap list_omap]. rewrite IH.
  destruct e; cbn in *; congruence.
Qed.

Lemma walks_entered_app (t1 t2 : list event) :
  walks_entered (t1 ++ t2) = walks_entered t1 ++ walks_entered t2.
Proof. unfold walks_entered. apply omap_app. Qed.

Lemma add_ids_acc (acc : gset hkey) (goods_data : pyval) (s : gset hkey) :
  add_ids ∅ goods_data = Ok s -> add_ids acc goods_data = Ok (acc ∪ s).
Proof.
  unfold add_ids, set_update.
  destruct (contains "ids" goods_data) as [[|]|]; cbn; try discriminate.
  - destruct (getitem goods_data "ids") as [ids|]; cbn; try discriminate.
    destruct (iter ids) as [l|]; try discriminate.
    destruct (hash_all l) as [ks|]; try discriminate.
    intros [= <-]. rewrite (left_id_L ∅ (∪)). reflexivity.
  - intros [= <-]. rewrite (right_id_L ∅ (∪)). reflexivity.
Qed.

Section Walk.
Variable self : RozetkaAPI.
Variable url_of_page : Z -> string.

Lemma page_body_returns (page : Z) (acc s : gset hkey) :
  page_ids (fetch self (url_of_page page)) = Ok s ->
  page_body self url_of_page page acc
  = ([Request (url_of_page page); PageSleep], Ok (acc ∪ s)).
Proof.
  unfold page_ids, page_body, request. intros H.
  cbn [emit ret bind app].
  destruct (data_member "goods" (fetch self (url_of_page page)))
    as [[goods_data|]|]; cbn in H |- *; try discriminate.
  - rewrite (add_ids_acc acc goods_data s H). reflexivity.
  - injection H as <-. rewrite (right_id_L ∅ (∪)). reflexivity.
Qed.

Lemma later_pages_return (pages : list Z) (acc : gset hkey) :
  (forall p, In p pages -> exists s, page_ids (fetch self (url_of_page p)) = Ok s) ->
  for_each pages (page_body self url_of_page) acc
  = (flat_map (fun p => [Request (url_of_page p); PageSleep]) pages,
     Ok (acc ∪ ⋃ map (fun p => contribution
                                   (page_ids (fetch self (url_of_page p)))) pages)).
Proof.
  revert acc. induction pages as [|p pages IH]; intros acc Hall.
  - cbn. rewrite (right_id_L ∅ (∪)). reflexivity.
  - destruct (Hall p (or_introl eq_refl)) as [s Hs].
    cbn [for_each flat_map map].
    rewrite (bind_ok _ _ _ _ (page_body_returns p acc s Hs)).
    rewrite IH by (intros q Hq; apply Hall; right; exact Hq).
    rewrite Hs. cbn [fst snd contribution app].
    change (⋃ (s :: ?l)) with (s ∪ ⋃ l).
    rewrite (assoc_L (∪)). reflexivity.
Qed.

(** A walk whose first page has the [data.goods] shape and announces
    [n] pages asks for page 1 and then for pages 2 to [n] in order,
    sleeping after each of these, and returns the ids of all of them;
    a page that failed or lacks the keys contributes nothing. *)
Lemma pagination_walk_collects (goods_data : pyval) (ids1 : gset hkey) (n : Z) :
  data_member "goods" (fetch self (url_of_page 1)) = Ok (Some goods_data) ->
  add_ids ∅ goods_data = Ok ids1 ->
  get goods_data "total_pages" (PInt 1) = Ok (PInt n) ->
  (forall p, 2 <= p <= n ->
     exists s, page_ids (fetch self (url_of_page p)) = Ok s) ->
  pagination_walk self url_of_page
  = (Request (url_of_page 1)
       :: flat_map (fun p => [Request (url_of_page p); PageSleep]) (range 2 (n + 1)),
     Ok (ids1 ∪ ⋃ map (fun p => contribution
                                    (page_ids (fetch self (url_of_page p))))
                       (range 2 (n + 1)))).
Proof.
  intros Hshape Hids Hn Hpages. unfold pagination_walk, request.
  cbn [emit ret bind app]. rewrite Hshape. cbn [lift bind app].
  rewrite Hids, Hn. cbn [lift bind add_one app].
  rewrite later_pages_return; [reflexivity|].
  intros p Hp. apply Hpages.
  unfold range in Hp. apply in_map_iff in Hp as (i & <- & Hi).
  apply in_seq in Hi. lia.
Qed.

Lemma requests_of_pages (pages : list Z) :
  requests_of (flat_map (fun p => [Request (url_of_page p); PageSleep]) pages)
  = map url_of_page pages.
Proof.
  induction pages as [|p pages IH]; [reflexivity|].
  cbn [flat_map map app]. unfold requests_of in *. cbn [omap list_omap].
  rewrite IH. reflexivity.
Qed.

(** A first page that failed, or lacks [data] or [goods], ends the walk
    with the empty set after that one request. *)
Lemma pagination_walk_no_first_page :
  data_member "goods" (fetch self (url_of_page 1)) = Ok None ->
  pagination_walk self url_of_page = ([Request (url_of_page 1)], Ok ∅).
Proof.
  intros H. unfold pagination_walk, request. cbn [emit ret bind app].
  rewrite H. reflexivity.
Qed.
End Walk.

(** ** Plain pagination *)

Section SimplePagination.
Variable repr : pyval -> string.
Variable self : RozetkaAPI.
Variable brand_name : pyval.
Variable category_id : Z.
Variable products_quantity : pyval.

Local Abbreviation url_of_page := (fun page : Z =>
  catalog +:+ pretty page +:+ ";producer:" +:+ format repr brand_name
    +:+ "&id=" +:+ pretty category_id).

(** X5. On pages that are failed fetches or documents of the wire shape,
    [_process_simple_pagination] asks for the [n] announced pages, one
    after the other, and returns the union of their ids. *)
Lemma simple_pagination_collects (goods_data : pyval) (ids1 : gset hkey) (n : Z) :
  1 <= n ->
  data_member "goods" (fetch self (url_of_page 1)) = Ok (Some goods_data) ->
  add_ids ∅ goods_data = Ok ids1 ->
  get goods_data "total_pages" (PInt 1) = Ok (PInt n) ->
  (forall p, 2 <= p <= n ->
     exists s, page_ids (fetch self (url_of_page p)) = Ok s) ->
  snd (_process_simple_pagination repr self brand_name category_id products_quantity)
  = Ok (ids1 ∪ ⋃ map (fun p => contribution
                                   (page_ids (fetch self (url_of_page p))))
                      (range 2 (n + 1)))
  /\ requests_of (fst (_process_simple_pagination repr self brand_name
                         category_id products_quantity))
     = map url_of_page (range 1 (n + 1))
  /\ length (requests_of (fst (_process_simple_pagination repr self brand_name
                                 category_id products_quantity)))
     = Z.to_nat n.
Proof.
  intros Hn Hshape Hids Htotal Hpages.
  unfold _process_simple_pagination.
  rewrite (pagination_walk_collects self url_of_page goods_data ids1 n
             Hshape Hids Htotal Hpages).
  cbn [emit bind fst snd app].
  assert (Hreq : requests_of
                   (EnterWalk SimplePagination :: Request (url_of_page 1)
                      :: flat_map (fun p => [Request (url_of_page p); PageSleep])
                           (range 2 (n + 1)))
                 = map url_of_page (range 1 (n + 1))).
  { rewrite (range_cons 1 (n + 1)) by lia. cbn [map].
    rewrite <- (requests_of_pages url_of_page). reflexivity. }
  split; [reflexivity|]. split; [exact Hreq|].
  rewrite Hreq, length_map, range_length. f_equal. lia.
Qed.

Lemma simple_pagination_no_first_page :
  data_member "goods" (fetch self (url_of_page 1)) = Ok None ->
  _process_simple_pagination repr self brand_name category_id products_quantity
  = ([EnterWalk SimplePagination; Request (url_of_page 1)], Ok ∅).
Proof.
  intros H. unfold _process_simple_pagination.
  rewrite (pagination_walk_no_first_page self url_of_page H). reflexivity.
Qed.
End SimplePagination.

(** A page that is missing is skipped: three requests, the ids of pages
    one and three. *)
Example simple_pagination_skips_missing_page :
  _process_simple_pagination Fixtures.no_repr Fixtures.gap_midway
    (PStr "lg") 80089 (PInt 3)
  = ([EnterWalk SimplePagination;
      Request (Fixtures.page_url 1 "lg");
      Request (Fixtures.page_url 2 "lg"); PageSleep;
      Request (Fixtures.page_url 3 "lg"); PageSleep],
     Ok {[HInt 1; HInt 2; HInt 5]}).
Proof. vm_compute. reflexivity. Qed.

(** C2 at the inputs where the code leaves it. A page answered with an
    HTML document that contains the text [data] passes ['data' in
    response] and then fails in [response['data']]: the walk raises
    [TypeError] after two of the three announced requests and the ids of
    page one are lost.  A first page [{data: null}] raises in the same
    test instead of giving the empty set. *)
Theorem simple_pagination_raises_on_untyped_page :
  _process_simple_pagination Fixtures.no_repr Fixtures.html_midway
    (PStr "lg") 80089 (PInt 3)
  = ([EnterWalk SimplePagination;
      Request (Fixtures.page_url 1 "lg");
      Request (Fixtures.page_url 2 "lg")],
     Raise TypeError)
  /\ fetch Fixtures.html_midway (Fixtures.page_url 2 "lg") = PStr "<html data-page>"
  /\ _process_simple_pagination Fixtures.no_repr Fixtures.null_data
       (PStr "lg") 80089 (PInt 3)
     = ([EnterWalk SimplePagination; Request (Fixtures.page_url 1 "lg")],
        Raise TypeError).
Proof. repeat split; vm_compute; reflexivity. Qed.

(** ** Task generation for one brand *)

Section Brand.
Variable repr : pyval -> string.
Variable self : RozetkaAPI.
Variable brand_data brand_name products_quantity : pyval.
Variable category_id : Z.

Hypothesis brand_has_name :
  getitem brand_data "option_value_name" = Ok brand_name.
Hypothesis brand_has_quantity :
  getitem brand_data "products_quantity" = Ok products_quantity.

(** C10. With sort orders but neither filters nor [default_parse], no
    branch applies: the brand yields the empty set and nothing is
    requested. *)
Theorem sort_only_collects_nothing (filters sort_list : option (list string)) :
  truthy_list filters = false ->
  truthy_list sort_list = true ->
  get_product_ids_for_brand repr self brand_data category_id
    filters sort_list false
  = ([], Ok ∅).
Proof.
  intros Hf Hs. unfold get_product_ids_for_brand.
  rewrite brand_has_name, brand_has_quantity, Hf, Hs. reflexivity.
Qed.

Lemma get_filter_id_log (filter_name : string) :
  fst (_get_filter_id_by_name repr self brand_name category_id filter_name)
  = [Request (facet_url repr brand_name category_id)].
Proof.
  unfold _get_filter_id_by_name, request. cbn [emit ret bind app].
  destruct (data_member "filters" _) as [[filters|]|]; cbn; try reflexivity.
  destruct (contains "options" filters) as [[|]|]; cbn; try reflexivity.
Qed.

(** A filter that is not found costs its one lookup and gives nothing. *)
Lemma filters_and_sort_not_found (filter_name : string)
    (sort_list : option (list string)) (filter_id : option string) :
  snd (_get_filter_id_by_name repr self brand_name category_id filter_name)
  = Ok filter_id ->
  falsy_id filter_id = true ->
  _process_with_filters_and_sort repr self brand_name category_id
    products_quantity filter_name sort_list
  = ([Request (facet_url repr brand_name category_id)], Ok ∅).
Proof.
  intros Hid Hfalsy. unfold _process_with_filters_and_sort.
  pose proof (get_filter_id_log filter_name) as Hlog.
  destruct (_get_filter_id_by_name repr self brand_name category_id filter_name)
    as [t o]. cbn in Hid, Hlog. subst t o.
  cbn [bind]. rewrite Hfalsy. reflexivity.
Qed.

Lemma filter_step_returns (sort_list : option (list string))
    (filter_name : string) (st : bool * gset hkey)
    (t : list event) (s : gset hkey) :
  _process_with_filters_and_sort repr self brand_name category_id
    products_quantity filter_name sort_list = (t, Ok s) ->
  filter_step repr self brand_name category_id products_quantity sort_list
    filter_name st
  = (t, Ok (if bool_decide (s ≠ ∅) then (true, snd st ∪ s) else st)).
Proof.
  intros Hrun. unfold filter_step. rewrite Hrun. cbn [bind].
  destruct (bool_decide (s ≠ ∅)); cbn; rewrite app_nil_r; reflexivity.
Qed.

(** The filter loop, when every filter returns: the logs in order, the
    union of the sets, and the flag raised as soon as one is non-empty. *)
Lemma filter_loop_returns (sort_list : option (list string))
    (filters : list string) (found : bool) (ids : gset hkey) :
  (forall f, In f filters ->
     exists s, snd (_process_with_filters_and_sort repr self brand_name
                      category_id products_quantity f sort_list) = Ok s) ->
  for_each filters
    (filter_step repr self brand_name category_id products_quantity sort_list)
    (found, ids)
  = (filter_phase_log repr self brand_name category_id products_quantity
       sort_list filters,
     Ok (found || bool_decide
                    (filter_phase_ids repr self brand_name category_id
                       products_quantity sort_list filters ≠ ∅),
         ids ∪ filter_phase_ids repr self brand_name category_id
                 products_quantity sort_list filters)).
Proof.
  revert found ids. induction filters as [|f fs IH]; intros found ids Hall.
  - cbn. rewrite (right_id_L ∅ (∪)).
    rewrite bool_decide_eq_false_2 by (intros H; apply H; reflexivity).
    rewrite orb_false_r. reflexivity.
  - destruct (Hall f (or_introl eq_refl)) as [s Hs].
    assert (Hrest : forall g, In g fs ->
              exists s, snd (_process_with_filters_and_sort repr self brand_name
                               category_id products_quantity g sort_list) = Ok s)
      by (intros g Hg; apply Hall; right; exact Hg).
    unfold filter_phase_log, filter_phase_ids in *.
    cbn [for_each flat_map map].
    destruct (_process_with_filters_and_sort repr self brand_name category_id
                products_quantity f sort_list) as [t o] eqn:Hrun.
    cbn in Hs. subst o.
    rewrite (bind_ok _ _ _ _ (filter_step_returns sort_list f (found, ids) t s Hrun)).
    cbn [fst snd contribution].
    change (⋃ (s :: ?l)) with (s ∪ ⋃ l).
    destruct (bool_decide (s ≠ ∅)) eqn:Hne.
    + apply bool_decide_eq_true in Hne.
      rewrite (IH true (ids ∪ s) Hrest). cbn [fst snd].
      rewrite (bool_decide_eq_true_2 (s ∪ _ ≠ ∅)) by set_solver.
      rewrite orb_true_r, (assoc_L (∪)). reflexivity.
    + apply bool_decide_eq_false in Hne.
      assert (s = ∅) as -> by (destruct (decide (s = ∅)); [assumption|contradiction]).
      rewrite (IH found ids Hrest). cbn [fst snd].
      rewrite !(left_id_L ∅ (∪)). reflexivity.
Qed.

Lemma page_event_not_default (t : list event) :
  Forall (fun e => is_page_event e = true) t ->
  Forall (fun e => is_not_default e = true) t.
Proof.
  intros Hall. induction Hall as [|e t He _ IH]; constructor; [|exact IH].
  destruct e; cbn in *; congruence.
Qed.

Lemma pagination_walk_not_default (url_of_page : Z -> string) :
  Forall (fun e => is_not_default e = true)
         (fst (pagination_walk self url_of_page)).
Proof. apply page_event_not_default, pagination_walk_events. Qed.

(** The filter tasks never enter the default traversal. *)
Lemma filters_and_sort_not_default (filter_name : string)
    (sort_list : option (list string)) :
  Forall (fun e => is_not_default e = true)
         (fst (_process_with_filters_and_sort repr self brand_name category_id
                 products_quantity filter_name sort_list)).
Proof.
  unfold _process_with_filters_and_sort, _get_filter_id_by_name,
    _get_filter_values, _process_filter_sort_combo, _process_single_filter.
  trace_shape; try reflexivity; apply pagination_walk_not_default.
Qed.

Lemma filter_phase_not_default (sort_list : option (list string))
    (filters : list string) :
  ~ In EnterDefaultParsing
       (filter_phase_log repr self brand_name category_id products_quantity
          sort_list filters).
Proof.
  unfold filter_phase_log. intros Hin.
  apply in_flat_map in Hin as (f & _ & Hin).
  pose proof (filters_and_sort_not_default f sort_list) as Hall.
  rewrite Forall_forall in Hall.
  apply list_elem_of_In in Hin. apply Hall in Hin. discriminate.
Qed.

Lemma simple_pagination_not_default :
  ~ In EnterDefaultParsing
       (fst (_process_simple_pagination repr self brand_name category_id
               products_quantity)).
Proof.
  intros Hin.
  assert (Hall : Forall (fun e => is_not_default e = true)
                   (fst (_process_simple_pagination repr self brand_name
                           category_id products_quantity))).
  { unfold _process_simple_pagination.
    trace_shape; try reflexivity; apply pagination_walk_not_default. }
  rewrite Forall_forall in Hall.
  apply list_elem_of_In in Hin. apply Hall in Hin. discriminate.
Qed.

Lemma default_parsing_log (sort_list : option (list string)) :
  exists t,
    fst (_process_default_parsing repr self brand_name category_id
           products_quantity sort_list) = EnterDefaultParsing :: t.
Proof.
  unfold _process_default_parsing. cbn [emit bind].
  destruct (if truthy_list sort_list then _ else _) as [t o].
  exists t. reflexivity.
Qed.

(** C3, as the code has it. With [default_parse] off, the fallback
    traversal runs exactly when filters were requested and no requested
    filter produced an id, be it that the dimension is unknown to the
    brand, has no values, or that its tasks came back empty; when some
    filter produced ids the brand's result is the union of the filter
    results and the fallback is not entered. *)
Theorem fallback_runs_iff_filters_gave_nothing
    (filters sort_list : option (list string)) :
  (forall f, In f (default [] filters) ->
     exists s, snd (_process_with_filters_and_sort repr self brand_name
                      category_id products_quantity f sort_list) = Ok s) ->
  (In EnterDefaultParsing
      (fst (get_product_ids_for_brand repr self brand_data category_id
              filters sort_list false))
   <-> truthy_list filters = true
       /\ filter_phase_ids repr self brand_name category_id products_quantity
            sort_list (default [] filters) = ∅)
  /\ (truthy_list filters = true ->
      filter_phase_ids repr self brand_name category_id products_quantity
        sort_list (default [] filters) ≠ ∅ ->
      get_product_ids_for_brand repr self brand_data category_id
        filters sort_list false
      = (filter_phase_log repr self brand_name category_id products_quantity
           sort_list (default [] filters),
         Ok (filter_phase_ids repr self brand_name category_id
               products_quantity sort_list (default [] filters)))).
Proof.
  intros Hall. unfold get_product_ids_for_brand.
  rewrite (bind_lift_ok _ _ _ brand_has_name).
  rewrite (bind_lift_ok _ _ _ brand_has_quantity).
  destruct (truthy_list filters) eqn:Hf.
  - rewrite (filter_loop_returns sort_list (default [] filters) false ∅ Hall).
    rewrite (bind_ok _ _ _ _ eq_refl). cbv beta iota.
    rewrite (left_id_L ∅ (∪)). cbn [orb andb negb].
    destruct (decide (filter_phase_ids repr self brand_name category_id
                        products_quantity sort_list (default [] filters) = ∅))
      as [Hempty|Hne].
    + rewrite Hempty.
      rewrite (bool_decide_eq_false_2 (∅ ≠ ∅)) by (intros H; apply H; reflexivity).
      cbn [negb andb].
      destruct (default_parsing_log sort_list) as [t Ht].
      destruct (_process_default_parsing repr self brand_name category_id
                  products_quantity sort_list) as [t' o].
      cbn in Ht. subst t'. split.
      * split; [intros _; split; reflexivity|]. intros _.
        destruct o; cbn; apply in_or_app; right; left; reflexivity.
      * intros _ H. contradiction H. reflexivity.
    + rewrite (bool_decide_eq_true_2 _ Hne). cbn [negb andb ret fst snd].
      rewrite app_nil_r. split.
      * split; [|intros [_ H]; contradiction].
        intros Hin. exfalso. exact (filter_phase_not_default sort_list _ Hin).
      * intros _ _. reflexivity.
  - rewrite bind_ret. cbv beta iota. cbn [andb negb]. split.
    + split; [|intros [H _]; discriminate].
      intros Hin. exfalso.
      destruct (truthy_list sort_list); cbn in Hin; [exact Hin|].
      exact (simple_pagination_not_default Hin).
    + intros H. discriminate.
Qed.

Lemma truthy_list_false {A} (l : option (list A)) :
  truthy_list l = false -> default [] l = [].
Proof. destruct l as [[|]|]; cbn; congruence. Qed.

Lemma filter_phase_not_found (sort_list : option (list string))
    (filters : list string) :
  (forall f, In f filters ->
     exists o,
       snd (_get_filter_id_by_name repr self brand_name category_id f) = Ok o
       /\ falsy_id o = true) ->
  filter_phase_log repr self brand_name category_id products_quantity
    sort_list filters
  = map (fun _ => Request (facet_url repr brand_name category_id)) filters
  /\ filter_phase_ids repr self brand_name category_id products_quantity
       sort_list filters = ∅.
Proof.
  unfold filter_phase_log, filter_phase_ids.
  induction filters as [|f fs IH]; intros Hnone; [split; reflexivity|].
  destruct (Hnone f (or_introl eq_refl)) as (o & Ho & Hfalsy).
  destruct IH as [IHlog IHids]; [intros g Hg; apply Hnone; right; exact Hg|].
  cbn [flat_map map]. change (⋃ (?x :: ?l)) with (x ∪ ⋃ l).
  rewrite (filters_and_sort_not_found f sort_list o Ho Hfalsy), IHlog, IHids.
  cbn [fst snd contribution app]. rewrite (left_id_L ∅ (∪)). split; reflexivity.
Qed.

Lemma with_sort_walks (sort_value : string) :
  walks_entered (fst (_process_with_sort repr self brand_name category_id
                        products_quantity sort_value))
  = [WithSort sort_value].
Proof.
  unfold _process_with_sort. cbn [emit bind].
  pose proof (pagination_walk_events self (fun page =>
    catalog +:+ pretty page +:+ ";producer:" +:+ format repr brand_name
      +:+ ";sort:" +:+ sort_value +:+ "&id=" +:+ pretty category_id)) as Hev.
  destruct (pagination_walk self _) as [t o]. cbn [fst app] in *.
  unfold walks_entered. cbn [omap list_omap].
  fold (walks_entered t). rewrite (walks_entered_page_events t Hev). reflexivity.
Qed.

Lemma walks_entered_lookups {A} (u : string) (l : list A) :
  walks_entered (map (fun _ => Request u) l) = [].
Proof. induction l as [|x l IH]; [reflexivity|exact IH]. Qed.

Lemma default_parsing_two_sorts (s1 s2 : string) :
  _process_default_parsing repr self brand_name category_id products_quantity
    (Some [s1; s2])
  = (emit EnterDefaultParsing ;;
     let* a := _process_with_sort repr self brand_name category_id
                 products_quantity s1 in
     let* b := _process_with_sort repr self brand_name category_id
                 products_quantity s2 in
     ret (a ∪ b)).
Proof.
  unfold _process_default_parsing.
  cbn [truthy_list default from_option id for_each]. cbv beta.
  destruct (_process_with_sort repr self brand_name category_id
              products_quantity s1) as [t1 [a|e]]; [|reflexivity].
  cbn [bind ret app].
  destruct (_process_with_sort repr self brand_name category_id
              products_quantity s2) as [t2 [b|e]];
    cbn [emit ret bind fst snd app];
    rewrite ?app_nil_r, ?(left_id_L ∅ (∪)); reflexivity.
Qed.

(** With [default_parse] on, no requested filter matching and two
    sort orders, the brand's computation is one facet lookup per
    requested filter followed by the default traversal, which is the
    walk for the first sort order and then the walk for the second; when
    the walks return, exactly these two walks were entered and the
    brand's result is the union of their two sets. *)
Theorem default_parse_runs_one_walk_per_sort (filters : option (list string))
    (s1 s2 : string) :
  (forall f, In f (default [] filters) ->
     exists o,
       snd (_get_filter_id_by_name repr self brand_name category_id f) = Ok o
       /\ falsy_id o = true) ->
  get_product_ids_for_brand repr self brand_data category_id
    filters (Some [s1; s2]) true
  = ((map (fun _ => Request (facet_url repr brand_name category_id))
          (default [] filters), Ok tt) ;;
     emit EnterDefaultParsing ;;
     let* a := _process_with_sort repr self brand_name category_id
                 products_quantity s1 in
     let* b := _process_with_sort repr self brand_name category_id
                 products_quantity s2 in
     ret (a ∪ b))
  /\ forall (t1 t2 : list event) (a b : gset hkey),
       _process_with_sort repr self brand_name category_id products_quantity s1
       = (t1, Ok a) ->
       _process_with_sort repr self brand_name category_id products_quantity s2
       = (t2, Ok b) ->
       get_product_ids_for_brand repr self brand_data category_id
         filters (Some [s1; s2]) true
       = (map (fun _ => Request (facet_url repr brand_name category_id))
              (default [] filters)
            ++ EnterDefaultParsing :: t1 ++ t2,
          Ok (a ∪ b))
       /\ walks_entered
            (fst (get_product_ids_for_brand repr self brand_data category_id
                    filters (Some [s1; s2]) true))
          = [WithSort s1; WithSort s2].
Proof.
  intros Hnone.
  assert (Hrun : get_product_ids_for_brand repr self brand_data category_id
                   filters (Some [s1; s2]) true
                 = ((map (fun _ => Request (facet_url repr brand_name category_id))
                         (default [] filters), Ok tt) ;;
                    emit EnterDefaultParsing ;;
                    let* a := _process_with_sort repr self brand_name category_id
                                products_quantity s1 in
                    let* b := _process_with_sort repr self brand_name category_id
                                products_quantity s2 in
                    ret (a ∪ b))).
  { destruct (filter_phase_not_found (Some [s1; s2]) (default [] filters) Hnone)
      as [Hlog Hids].
    assert (Hall : forall f, In f (default [] filters) ->
              exists s, snd (_process_with_filters_and_sort repr self brand_name
                               category_id products_quantity f (Some [s1; s2]))
                        = Ok s).
    { intros f Hf. destruct (Hnone f Hf) as (o & Ho & Hfalsy).
      rewrite (filters_and_sort_not_found f _ o Ho Hfalsy). eauto. }
    unfold get_product_ids_for_brand.
    rewrite (bind_lift_ok _ _ _ brand_has_name).
    rewrite (bind_lift_ok _ _ _ brand_has_quantity).
    rewrite <- (default_parsing_two_sorts s1 s2).
    destruct (truthy_list filters) eqn:Hf.
    - rewrite (filter_loop_returns (Some [s1; s2]) (default [] filters)
                 false ∅ Hall).
      rewrite Hlog, Hids.
      rewrite !(bind_ok _ _ _ _ eq_refl). cbv beta iota.
      destruct (_process_default_parsing repr self brand_name category_id
                  products_quantity (Some [s1; s2])) as [t [s|e]];
        cbn [bind ret fst snd app]; [|reflexivity].
      rewrite app_nil_r, !(left_id_L ∅ (∪)). reflexivity.
    - rewrite (truthy_list_false filters Hf). rewrite bind_ret. cbv beta iota.
      destruct (_process_default_parsing repr self brand_name category_id
                  products_quantity (Some [s1; s2])) as [t [s|e]];
        cbn [bind ret map fst snd app]; [|reflexivity].
      rewrite app_nil_r, !(left_id_L ∅ (∪)). reflexivity. }
  split; [exact Hrun|].
  intros t1 t2 a b H1 H2.
  assert (Hok : get_product_ids_for_brand repr self brand_data category_id
                  filters (Some [s1; s2]) true
                = (map (fun _ => Request (facet_url repr brand_name category_id))
                       (default [] filters)
                     ++ EnterDefaultParsing :: t1 ++ t2,
                   Ok (a ∪ b))).
  { rewrite Hrun, H1, H2. cbn [emit ret bind fst snd app].
    rewrite !app_nil_r. reflexivity. }
  split; [exact Hok|]. rewrite Hok. cbn [fst].
  rewrite walks_entered_app, walks_entered_lookups.
  change (EnterDefaultParsing :: t1 ++ t2)
    with ([EnterDefaultParsing] ++ t1 ++ t2).
  rewrite !walks_entered_app.
  pose proof (with_sort_walks s1) as W1. rewrite H1 in W1.
  pose proof (with_sort_walks s2) as W2. rewrite H2 in W2.
  cbn [fst] in W1, W2. rewrite W1, W2. reflexivity.
Qed.

End Brand.

Lemma sort_only_collects_nothing_witness :
  get_product_ids_for_brand Fixtures.no_repr Fixtures.two_sorts Fixtures.lg
    80089 None (Some ["popularity"; "price"]) false
  = ([], Ok ∅).
Proof.
  exact (sort_only_collects_nothing Fixtures.no_repr Fixtures.two_sorts
           Fixtures.lg (PStr "lg") (PInt 3) 80089 eq_refl eq_refl
           None (Some ["popularity"; "price"]) eq_refl eq_refl).
Defined.

(** The scenario of the specification: [default_parse] on, a requested
    filter the brand does not have, and the sort orders popularity and
    price. *)
Lemma default_parse_runs_one_walk_per_sort_witness :
  get_product_ids_for_brand Fixtures.no_repr Fixtures.two_sorts Fixtures.lg
    80089 (Some ["Diagonal"]) (Some ["popularity"; "price"]) true
  = ([Request (Fixtures.page_url 1 "lg");
      EnterDefaultParsing;
      EnterWalk (WithSort "popularity");
      Request (Fixtures.sorted_url 1 "lg" "popularity");
      EnterWalk (WithSort "price");
      Request (Fixtures.sorted_url 1 "lg" "price")],
     Ok ({[HInt 1; HInt 2]} ∪ {[HInt 2; HInt 3]}))
  /\ walks_entered
       (fst (get_product_ids_for_brand Fixtures.no_repr Fixtures.two_sorts
               Fixtures.lg 80089 (Some ["Diagonal"])
               (Some ["popularity"; "price"]) true))
     = [WithSort "popularity"; WithSort "price"].
Proof.
  apply (proj2 (default_parse_runs_one_walk_per_sort Fixtures.no_repr
                  Fixtures.two_sorts Fixtures.lg (PStr "lg") (PInt 3) 80089
                  eq_refl eq_refl (Some ["Diagonal"]) "popularity" "price"
                  ltac:(intros f [<-|[]]; exists None;
                        split; vm_compute; reflexivity))
               [EnterWalk (WithSort "popularity");
                Request (Fixtures.sorted_url 1 "lg" "popularity")]
               [EnterWalk (WithSort "price");
                Request (Fixtures.sorted_url 1 "lg" "price")]
               {[HInt 1; HInt 2]} {[HInt 2; HInt 3]}).
  - vm_compute. reflexivity.
  - vm_compute. reflexivity.
Defined.

(** C7 at the input where the code leaves it. The brand has no facet,
    so the requested filter matches nothing, and [default_parse] is on
    with the sort orders [popularity] and [price].  The first page under
    [popularity] comes back as an HTML document: the first-page test of
    [_process_with_sort] passes ['data' in response] on the text and
    subscripts it, the walk raises [TypeError], and with it the brand's
    task.  One walk was entered, not two; the walk under [price], which
    alone returns ids 2 and 3, is never started, and the brand yields no
    set. *)
Theorem default_parse_stops_at_untyped_sorted_page :
  get_product_ids_for_brand Fixtures.no_repr Fixtures.html_sorted
    Fixtures.lg 80089 (Some ["Diagonal"]) (Some ["popularity"; "price"]) true
  = ([Request (Fixtures.page_url 1 "lg");
      EnterDefaultParsing;
      EnterWalk (WithSort "popularity");
      Request (Fixtures.sorted_url 1 "lg" "popularity")],
     Raise TypeError)
  /\ snd (_get_filter_id_by_name Fixtures.no_repr Fixtures.html_sorted
            (PStr "lg") 80089 "Diagonal") = Ok None
  /\ fetch Fixtures.html_sorted (Fixtures.sorted_url 1 "lg" "popularity")
     = PStr "<html data-page>"
  /\ walks_entered
       (fst (get_product_ids_for_brand Fixtures.no_repr Fixtures.html_sorted
               Fixtures.lg 80089 (Some ["Diagonal"])
               (Some ["popularity"; "price"]) true))
     = [WithSort "popularity"]
  /\ _process_with_sort Fixtures.no_repr Fixtures.html_sorted (PStr "lg")
       80089 (PInt 3) "price"
     = ([EnterWalk (WithSort "price");
         Request (Fixtures.sorted_url 1 "lg" "price")],
        Ok {[HInt 2; HInt 3]}).
Proof. repeat split; vm_compute; reflexivity. Qed.

(** The requested filter is found and has a value, its one task comes
    back empty: the fallback runs. *)
Lemma fallback_runs_iff_filters_gave_nothing_witness :
  In EnterDefaultParsing
     (fst (get_product_ids_for_brand Fixtures.no_repr Fixtures.empty_filter
             Fixtures.lg 80089 (Some ["Diagonal"]) None false)).
Proof.
  apply (proj1 (fallback_runs_iff_filters_gave_nothing Fixtures.no_repr
                  Fixtures.empty_filter Fixtures.lg (PStr "lg") (PInt 3) 80089
                  eq_refl eq_refl (Some ["Diagonal"]) None
                  ltac:(intros f [<-|[]]; eexists; vm_compute; reflexivity))).
  split; vm_compute; reflexivity.
Defined.

(** C3, as stated, fails: the brand has the requested dimension
    "Diagonal" (id [f1], one value), the filter task is generated and
    run, and the fallback traversal is performed all the same, because
    the task returned no id; the result comes from the fallback. *)
Lemma fallback_runs_although_filter_found :
  snd (_get_filter_id_by_name Fixtures.no_repr Fixtures.empty_filter
         (PStr "lg") 80089 "Diagonal") = Ok (Some "f1")
  /\ get_product_ids_for_brand Fixtures.no_repr Fixtures.empty_filter
       Fixtures.lg 80089 (Some ["Diagonal"]) None false
     = ([Request (Fixtures.page_url 1 "lg");
         Request (Fixtures.page_url 1 "lg");
         EnterWalk (SingleFilter "f1" (PStr "27"));
         Request (Fixtures.filtered_url 1 "lg" "f1" "27");
         EnterDefaultParsing;
         EnterWalk SimplePagination;
         Request (Fixtures.page_url 1 "lg")],
        Ok {[HInt 1; HInt 2; HInt 3]}).
Proof. split; vm_compute; reflexivity. Qed.

(** Where the filter task does return ids, they are the result and the
    fallback stays out. *)
Example filter_results_only :
  get_product_ids_for_brand Fixtures.no_repr Fixtures.filter_hits
    Fixtures.lg 80089 (Some ["Diagonal"]) None false
  = ([Request (Fixtures.page_url 1 "lg");
      Request (Fixtures.page_url 1 "lg");
      EnterWalk (SingleFilter "f1" (PStr "27"));
      Request (Fixtures.filtered_url 1 "lg" "f1" "27")],
     Ok {[HInt 1; HInt 2]}).
Proof. vm_compute. reflexivity. Qed.

(** ** The concurrent scheduler *)

Section Collect.
Variable repr : pyval -> string.
Variable self : ApplicationRozetka.
Variable category_id : Z.
Variable filters sort_list : option (list string).
Variable default_parse : bool.

Local Abbreviation result_of :=
  (brand_result repr (new_api self) category_id filters sort_list default_parse).
Local Abbreviation merged_ids :=
  (merged repr (new_api self) category_id filters sort_list default_parse).

Lemma workers_lookup (num_workers : Z) (i : nat) :
  (i < Z.to_nat num_workers)%nat ->
  create_api_workers self num_workers !! i = Some (new_api self).
Proof.
  intros Hi.
  assert (Hrep : forall l : list Z,
            map (fun _ => new_api self) l = replicate (length l) (new_api self)).
  { induction l as [|x l IH]; [reflexivity|]. cbn. rewrite IH. reflexivity. }
  unfold create_api_workers. rewrite Hrep, range_length.
  apply lookup_replicate_2. lia.
Qed.

Lemma workers_length (num_workers : Z) :
  length (create_api_workers self num_workers) = Z.to_nat num_workers.
Proof.
  unfold create_api_workers. rewrite length_map, range_length. f_equal. lia.
Qed.

(** Every submission succeeds, and each future holds what its brand's
    task returns: the worker slot makes no difference. *)
Lemma submit_all_results (max_workers i : Z) (brands_data : brands) :
  0 < max_workers -> 0 <= i ->
  exists futures,
    submit_all repr (create_api_workers self max_workers) category_id
      filters sort_list default_parse i brands_data = Ok futures
    /\ map future_result futures = map result_of brands_data.
Proof.
  intros Hw. revert i. induction brands_data as [|brand rest IH]; intros i Hi.
  - exists []. split; reflexivity.
  - destruct (IH (i + 1) ltac:(lia)) as (fs & Hfs & Hres).
    cbn [submit_all]. unfold submit at 1.
    rewrite workers_length.
    replace (Z.of_nat (Z.to_nat max_workers) =? 0) with false
      by (symmetry; apply Z.eqb_neq; lia).
    rewrite workers_lookup
      by (pose proof (Z.mod_pos_bound i (Z.of_nat (Z.to_nat max_workers))
                        ltac:(lia)); lia).
    cbn [obind]. rewrite Hfs. cbn [obind].
    eexists. split; [reflexivity|].
    cbn [map future_result]. rewrite Hres. reflexivity.
Qed.

Lemma merge_all (completed : list future) (acc : gset hkey) :
  fold_left (fun acc f => merge_completed f acc) completed acc
  = acc ∪ ⋃ map contribution (map future_result completed).
Proof.
  revert acc. induction completed as [|f fs IH]; intros acc.
  - cbn. rewrite (right_id_L ∅ (∪)). reflexivity.
  - cbn [fold_left map]. rewrite IH. rewrite union_list_cons.
    unfold merge_completed. destruct (future_result f); cbn [contribution].
    + rewrite (assoc_L (∪)). reflexivity.
    + rewrite (left_id_L ∅ (∪)). reflexivity.
Qed.

Lemma lookup_all {A} (l : list A) :
  omap (fun i => l !! i) (seq 0 (length l)) = l.
Proof.
  induction l as [|x l IH]; [reflexivity|].
  cbn [length seq omap list_omap lookup list_lookup]. f_equal.
  rewrite <- seq_shift. rewrite <- IH at 2.
  generalize (seq 0 (length l)). intros js.
  induction js as [|j js IHjs]; [reflexivity|].
  cbn [map omap list_omap]. rewrite IHjs. reflexivity.
Qed.

(** Whatever the order of completion, all futures are merged. *)
Lemma completed_all (futures : list future) (completion : list nat) :
  Permutation completion (seq 0 (length futures)) ->
  Permutation (omap (fun i => futures !! i) completion) futures.
Proof.
  intros Hperm. rewrite Hperm. rewrite lookup_all. reflexivity.
Qed.

Lemma first_raise_none {A B} (f : A -> outcome B) (l : list A) :
  first_raise (map f l) = None <-> Forall (fun x => exists s, f x = Ok s) l.
Proof.
  induction l as [|x l IH]; cbn [map first_raise].
  - split; [constructor|reflexivity].
  - destruct (f x) as [s|e] eqn:Hx.
    + rewrite IH. split.
      * intros Hall. constructor; [exists s; exact Hx|exact Hall].
      * intros Hall. inversion Hall. assumption.
    + split; [discriminate|]. intros Hall.
      inversion Hall as [|? ? [s Hs] _]. congruence.
Qed.

(** The sequential collector stops at the first brand that raises. *)
Lemma sequential_loop (brands_data : brands) (acc : gset hkey) :
  snd (for_each brands_data (fun brand all_product_ids =>
         let* brand_product_ids :=
           get_product_ids_for_brand repr (new_api self) (snd brand)
             category_id filters sort_list default_parse in
         ret (all_product_ids ∪ brand_product_ids)) acc)
  = match first_raise (map result_of brands_data) with
    | None => Ok (acc ∪ merged_ids brands_data)
    | Some e => Raise e
    end.
Proof.
  revert acc. induction brands_data as [|brand rest IH]; intros acc.
  - cbn. rewrite (right_id_L ∅ (∪)). reflexivity.
  - unfold merged, brand_result in *.
    cbn [for_each map first_raise].
    destruct (get_product_ids_for_brand repr (new_api self) (snd brand)
                category_id filters sort_list default_parse) as [t [s|e]].
    + cbn [bind ret snd contribution app first_raise].
      specialize (IH (acc ∪ s)).
      destruct (for_each rest _ (acc ∪ s)) as [t' r]. cbn [snd] in IH |- *.
      rewrite IH. destruct (first_raise _); [reflexivity|].
      rewrite union_list_cons, (assoc_L (∪)). reflexivity.
    + reflexivity.
Qed.

(** C1, as the code has it. For a positive pool size and every order
    of completion, the scheduler returns the union over the brands of
    the set each brand's task returns when run alone, a task that
    raises giving nothing.  The sequential collector returns that same
    set exactly when no task raises; when some task raises it returns
    no set and ends with the exception of the first brand, in the order
    of the mapping, whose task raises. *)
Theorem scheduler_merges_every_brand (completion : list nat)
    (max_workers : Z) (t : list event) (brands_data : brands) :
  0 < max_workers ->
  search_brands_for_category (new_api self) category_id = (t, Ok brands_data) ->
  Permutation completion (seq 0 (length brands_data)) ->
  collect_product_ids_with_workers repr self completion category_id
    max_workers filters sort_list default_parse
  = (t, Ok (merged_ids brands_data))
  /\ (forall s,
        snd (get_all_product_ids_for_category repr (new_api self) category_id
               filters sort_list default_parse) = Ok s ->
        s = merged_ids brands_data)
  /\ (first_raise (map result_of brands_data) = None ->
      snd (get_all_product_ids_for_category repr (new_api self) category_id
             filters sort_list default_parse)
      = Ok (merged_ids brands_data))
  /\ (forall e,
        first_raise (map result_of brands_data) = Some e <->
        snd (get_all_product_ids_for_category repr (new_api self) category_id
               filters sort_list default_parse)
        = Raise e)
  /\ ((exists s,
         snd (get_all_product_ids_for_category repr (new_api self) category_id
                filters sort_list default_parse) = Ok s)
      <-> Forall (fun brand => exists s, result_of brand = Ok s) brands_data).
Proof.
  intros Hw Hsearch Hperm.
  assert (Hseq : snd (get_all_product_ids_for_category repr (new_api self)
                        category_id filters sort_list default_parse)
                 = match first_raise (map result_of brands_data) with
                   | None => Ok (merged_ids brands_data)
                   | Some e => Raise e
                   end).
  { unfold get_all_product_ids_for_category. rewrite Hsearch. cbn [bind].
    destruct brands_data as [|brand rest] eqn:Hb; [reflexivity|].
    rewrite <- Hb.
    pose proof (sequential_loop brands_data ∅) as Hloop.
    destruct (for_each brands_data _ ∅) as [t' r]. cbn [snd] in Hloop |- *.
    rewrite Hloop, (left_id_L ∅ (∪)). reflexivity. }
  split; [|split; [|split; [|split]]].
  - unfold collect_product_ids_with_workers. rewrite Hsearch. cbn [bind].
    destruct brands_data as [|brand rest] eqn:Hb.
    { cbn. rewrite app_nil_r. reflexivity. }
    rewrite <- Hb in *. clear Hb.
    replace (max_workers <=? 0) with false by (symmetry; apply Z.leb_gt; lia).
    destruct (submit_all_results max_workers 0 brands_data Hw ltac:(lia))
      as (futures & Hsub & Hres).
    rewrite Hsub. cbn [lift bind ret app]. rewrite app_nil_r.
    f_equal. f_equal.
    rewrite merge_all, (left_id_L ∅ (∪)).
    assert (Hlen : length futures = length brands_data).
    { rewrite <- (length_map future_result futures), Hres, length_map.
      reflexivity. }
    rewrite <- Hlen in Hperm.
    rewrite (completed_all futures completion Hperm).
    rewrite Hres. unfold merged. rewrite map_map. reflexivity.
  - intros s Hs. rewrite Hseq in Hs.
    destruct (first_raise _); [discriminate|]. congruence.
  - intros Hnone. rewrite Hseq, Hnone. reflexivity.
  - intros e. rewrite Hseq.
    destruct (first_raise (map result_of brands_data)) as [e'|];
      split; congruence.
  - rewrite Hseq. split.
    + intros [s Hs]. apply first_raise_none.
      destruct (first_raise (map result_of brands_data)) as [e'|];
        [discriminate Hs|reflexivity].
    + intros Hall. apply first_raise_none in Hall. rewrite Hall.
      eexists. reflexivity.
Qed.

End Collect.

(** The scenario of the specification, with [lg] completing first. *)
Lemma scheduler_merges_every_brand_witness :
  snd (collect_product_ids_with_workers Fixtures.no_repr
         (Fixtures.app_of Fixtures.two_brands) [1; 0]%nat 80089 10
         None None false)
  = Ok {[HInt 10; HInt 11; HInt 12; HInt 1; HInt 2; HInt 3]}.
Proof.
  destruct (scheduler_merges_every_brand Fixtures.no_repr
              (Fixtures.app_of Fixtures.two_brands) 80089 None None false
              [1; 0]%nat 10
              (fst (search_brands_for_category Fixtures.two_brands 80089))
              [(HStr "dell",
                PDict [("option_value_name", PStr "dell");
                       ("option_value_title", PStr "");
                       ("products_quantity", PInt 3);
                       ("option_value_id", PNone);
                       ("is_chosen", PBool false);
                       ("order", PInt 0);
                       ("is_value_show", PBool false);
                       ("option_value_image", PNone)]);
               (HStr "lg",
                PDict [("option_value_name", PStr "lg");
                       ("option_value_title", PStr "");
                       ("products_quantity", PInt 3);
                       ("option_value_id", PNone);
                       ("is_chosen", PBool false);
                       ("order", PInt 0);
                       ("is_value_show", PBool false);
                       ("option_value_image", PNone)])]
              ltac:(lia)
              ltac:(vm_compute; reflexivity)
              ltac:(apply perm_swap)) as [Hrun _].
  rewrite Hrun. vm_compute. reflexivity.
Defined.

(** C1, as stated, fails where a task raises: the scheduler logs the
    failure of [dell] and returns the ids of [lg], the sequential
    collector raises and returns nothing. *)
Lemma scheduler_and_sequential_differ :
  snd (collect_product_ids_with_workers Fixtures.no_repr
         (Fixtures.app_of Fixtures.one_brand_broken) [0; 1]%nat 80089 10
         None None false)
  = Ok {[HInt 1; HInt 2]}
  /\ snd (get_all_product_ids_for_category Fixtures.no_repr
            Fixtures.one_brand_broken 80089 None None false)
     = Raise TypeError.
Proof. split; vm_compute; reflexivity. Qed.

(** ** Batch partitioning *)

Section Batches.
Context {A : Type}.

(** A slice that starts inside the list is a [take] of a [drop]. *)
Lemma slice_chunk (l : list A) (lo size : Z) :
  0 <= lo <= Z.of_nat (length l) -> 0 < size ->
  slice l lo (lo + size) = take (Z.to_nat size) (drop (Z.to_nat lo) l).
Proof.
  intros Hlo Hsize. unfold slice.
  replace (lo <? 0) with false by (symmetry; apply Z.ltb_ge; lia).
  replace (lo + size <? 0) with false by (symmetry; apply Z.ltb_ge; lia).
  rewrite (Z.min_l lo) by lia.
  destruct (Z.le_gt_cases (lo + size) (Z.of_nat (length l))) as [Hin|Hout].
  - rewrite Z.min_l by lia. f_equal. lia.
  - rewrite Z.min_r by lia.
    rewrite !take_ge; [reflexivity| |]; rewrite length_drop; lia.
Qed.

(** Consecutive chunks of [size] elements give the list back. *)
Lemma chunks_concat (size count : nat) (l : list A) :
  (0 < size)%nat -> (length l <= count * size)%nat ->
  concat (map (fun k => take size (drop (k * size) l)) (seq 0 count)) = l.
Proof.
  intros Hsize. revert l. induction count as [|count IH]; intros l Hlen.
  - destruct l; [reflexivity|cbn in Hlen; lia].
  - cbn [seq map concat]. rewrite <- seq_shift, map_map.
    transitivity (take size l ++ drop size l); [|apply take_drop].
    f_equal.
    transitivity (concat (map (fun k => take size (drop (k * size) (drop size l)))
                              (seq 0 count)));
      [|apply IH; rewrite length_drop; lia].
    f_equal. apply map_ext. intros k.
    rewrite drop_drop. repeat f_equal; lia.
Qed.

(** In a duplicate-free concatenation an element sits in one part. *)
Lemma concat_unique_part (parts : list (list A)) (x : A) (i j : nat)
    (b b' : list A) :
  List.NoDup (concat parts) ->
  parts !! i = Some b -> parts !! j = Some b' ->
  In x b -> In x b' -> i = j.
Proof.
  revert i j. induction parts as [|p parts IH]; intros i j Hnd Hi Hj Hb Hb'.
  - discriminate.
  - cbn [concat] in Hnd.
    assert (Hsep : forall k c, parts !! k = Some c -> In x c -> In x p -> False).
    { intros k c Hk Hc Hp.
      apply NoDup_ListNoDup, NoDup_app in Hnd as (_ & Hdisj & _).
      apply (Hdisj x); [apply list_elem_of_In; exact Hp|].
      apply list_elem_of_In, in_concat. exists c. split; [|exact Hc].
      apply list_elem_of_In, list_elem_of_lookup. eauto. }
    destruct i as [|i], j as [|j]; cbn in Hi, Hj.
    + reflexivity.
    + injection Hi as <-. exfalso. eauto.
    + injection Hj as <-. exfalso. eauto.
    + f_equal. apply IH; auto.
      apply NoDup_ListNoDup, NoDup_app in Hnd as (_ & _ & Hnd).
      apply NoDup_ListNoDup. exact Hnd.
Qed.

Lemma ceil_div_bounds (m s : Z) :
  0 <= m -> 0 < s ->
  0 <= ceil_div m s /\ m <= ceil_div m s * s
  /\ (0 < m -> (ceil_div m s - 1) * s < m)
  /\ (m = 0 -> ceil_div m s = 0).
Proof.
  intros Hm Hs. unfold ceil_div.
  pose proof (Z.div_mod (m + s - 1) s ltac:(lia)) as Hdm.
  pose proof (Z.mod_pos_bound (m + s - 1) s Hs) as Hmod.
  assert (0 <= (m + s - 1) / s) by (apply Z.div_pos; lia).
  repeat split; nia.
Qed.

(** [ceil_div m s] is the least number of groups of [s] that hold [m]. *)
Lemma ceil_div_least (m s k : Z) :
  0 <= m -> 0 < s -> (m <= k * s <-> ceil_div m s <= k).
Proof.
  intros Hm Hs.
  destruct (ceil_div_bounds m s Hm Hs) as (Hc0 & Hc1 & Hc2 & Hc3).
  split; intros H; [|nia].
  destruct (Z.eq_dec m 0) as [Hz|Hz]; [rewrite (Hc3 Hz); nia|].
  specialize (Hc2 ltac:(lia)). nia.
Qed.

(** The start of every batch lies inside the list. *)
Lemma batch_start_inside (m s : Z) (k : nat) :
  0 <= m -> 0 < s -> (k < Z.to_nat (ceil_div m s))%nat ->
  Z.of_nat k * s < m.
Proof.
  intros Hm Hs Hk.
  destruct (ceil_div_bounds m s Hm Hs) as (Hc0 & Hc1 & Hc2 & Hc3).
  destruct (Z.eq_dec m 0) as [Hz|Hz].
  - rewrite (Hc3 Hz) in Hk. cbn in Hk. lia.
  - assert (Z.of_nat k * s <= (ceil_div m s - 1) * s) by nia. lia.
Qed.

Lemma batches_of_chunks (l : list A) (batch_size : Z) :
  0 < batch_size ->
  batches_of l batch_size
  = Ok (map (fun k => take (Z.to_nat batch_size)
                        (drop (k * Z.to_nat batch_size) l))
            (seq 0 (Z.to_nat (ceil_div (Z.of_nat (length l)) batch_size)))).
Proof.
  intros Hs. unfold batches_of, range_step.
  replace (batch_size =? 0) with false by (symmetry; apply Z.eqb_neq; lia).
  replace (0 <? batch_size) with true by (symmetry; apply Z.ltb_lt; lia).
  cbn [obind]. f_equal. rewrite map_map.
  replace (Z.of_nat (length l) - 0 + batch_size - 1)
    with (Z.of_nat (length l) + batch_size - 1) by lia.
  fold (ceil_div (Z.of_nat (length l)) batch_size).
  apply map_ext_in. intros k Hk. apply in_seq in Hk.
  pose proof (batch_start_inside (Z.of_nat (length l)) batch_size k
                ltac:(lia) Hs ltac:(lia)) as Hin.
  rewrite slice_chunk by lia.
  repeat f_equal; lia.
Qed.

(** Contiguous batches of a list, by count, content and sizes. *)
Lemma batches_of_list (product_ids_list : list A) (batch_size : Z) :
  0 < batch_size ->
  exists batches,
    batches_of product_ids_list batch_size = Ok batches
    /\ Z.of_nat (length batches)
       = ceil_div (Z.of_nat (length product_ids_list)) batch_size
    /\ concat batches = product_ids_list
    /\ (forall i b, batches !! i = Some b ->
          (0 < length b)%nat
          /\ Z.of_nat (length b) <= batch_size
          /\ ((S i < length batches)%nat -> Z.of_nat (length b) = batch_size))
    /\ (List.NoDup product_ids_list ->
        forall x, In x product_ids_list ->
          exists i b, batches !! i = Some b /\ In x b
            /\ forall j b', batches !! j = Some b' -> In x b' -> j = i).
Proof.
  intros Hs. eexists. split; [apply batches_of_chunks; exact Hs|].
  set (size := Z.to_nat batch_size).
  set (count := Z.to_nat (ceil_div (Z.of_nat (length product_ids_list)) batch_size)).
  destruct (ceil_div_bounds (Z.of_nat (length product_ids_list)) batch_size
              ltac:(lia) Hs) as (Hc0 & Hc1 & Hc2 & Hc3).
  assert (Hconcat : concat (map (fun k => take size (drop (k * size) product_ids_list))
                                (seq 0 count)) = product_ids_list).
  { apply chunks_concat; subst size count; nia. }
  split; [rewrite length_map, length_seq; subst count; lia|].
  split; [exact Hconcat|]. split.
  - intros i b Hb. rewrite length_map, length_seq.
    apply list_lookup_fmap_Some in Hb as (k & -> & Hk).
    apply lookup_seq in Hk as [-> Hi]. cbn [Nat.add].
    pose proof (batch_start_inside (Z.of_nat (length product_ids_list))
                  batch_size i ltac:(lia) Hs Hi) as Hin.
    rewrite length_take, length_drop. subst size.
    repeat split; [nia|nia|].
    intros Hnext.
    pose proof (batch_start_inside (Z.of_nat (length product_ids_list))
                  batch_size (S i) ltac:(lia) Hs Hnext) as Hin'.
    nia.
  - intros Hnd x Hx. rewrite <- Hconcat in Hx at 1.
    apply in_concat in Hx as (b & Hb & Hxb).
    apply list_elem_of_In, list_elem_of_lookup in Hb as [i Hi].
    exists i, b. repeat split; [exact Hi|exact Hxb|].
    intros j b' Hj Hxb'.
    refine (concat_unique_part _ x j i b' b _ Hj Hi Hxb' Hxb).
    rewrite Hconcat. exact Hnd.
Qed.

End Batches.

(** C8. For a positive batch size [s], an identifier set of [m] elements,
    listed in whatever order [list(product_ids)] gives, is cut into
    [ceil(m / s)] contiguous batches; every batch but the last has [s]
    elements, the last has between one and [s], and each identifier of
    the set is in exactly one batch. *)
Theorem batches_partition (product_ids : gset hkey)
    (product_ids_list : list hkey) (batch_size : Z) :
  Permutation product_ids_list (elements product_ids) ->
  0 < batch_size ->
  exists batches,
    batches_of product_ids_list batch_size = Ok batches
    /\ Z.of_nat (length batches)
       = ceil_div (Z.of_nat (size product_ids)) batch_size
    /\ concat batches = product_ids_list
    /\ (forall i b, batches !! i = Some b ->
          (0 < length b)%nat
          /\ Z.of_nat (length b) <= batch_size
          /\ ((S i < length batches)%nat -> Z.of_nat (length b) = batch_size))
    /\ (forall x, x ∈ product_ids ->
          exists i b, batches !! i = Some b /\ In x b
            /\ forall j b', batches !! j = Some b' -> In x b' -> j = i).
Proof.
  intros Hperm Hs.
  destruct (batches_of_list product_ids_list batch_size Hs)
    as (batches & Hrun & Hcount & Hconcat & Hsizes & Hunique).
  exists batches. split; [exact Hrun|]. split.
  { rewrite Hcount. unfold size, set_size. cbn.
    rewrite (Permutation_length Hperm). reflexivity. }
  split; [exact Hconcat|]. split; [exact Hsizes|].
  intros x Hx. apply Hunique.
  - apply NoDup_ListNoDup. rewrite Hperm. apply NoDup_elements.
  - apply list_elem_of_In. rewrite Hperm. apply elem_of_elements. exact Hx.
Qed.

(** Seven identifiers in batches of three. *)
Lemma batches_partition_witness :
  exists batches,
    batches_of (map HInt [1; 2; 3; 4; 5; 6; 7]) 3 = Ok batches
    /\ Z.of_nat (length batches) = 3
    /\ concat batches = map HInt [1; 2; 3; 4; 5; 6; 7].
Proof.
  destruct (batches_partition
              (list_to_set (map HInt [1; 2; 3; 4; 5; 6; 7]))
              (map HInt [1; 2; 3; 4; 5; 6; 7]) 3) as (b & H1 & H2 & H3 & _).
  - symmetry. apply elements_list_to_set.
    apply (bool_decide_unpack _). vm_compute. exact I.
  - lia.
  - exists b. split; [exact H1|]. split; [|exact H3].
    rewrite H2. vm_compute. reflexivity.
Defined.

Example batches_of_seven :
  batches_of [1; 2; 3; 4; 5; 6; 7] 3 = Ok [[1; 2; 3]; [4; 5; 6]; [7]].
Proof. reflexivity. Qed.

(** ** The entry loop *)

Section EntryLoop.
Variable collect : Z -> outcome (gset hkey).
Variable later_stages : string -> Z -> gset hkey -> outcome unit.

(** A URL without a category id is skipped and the loop goes on. *)
Lemma start_loop_skips_non_matching (category_url : string) (rest : list string) :
  category_name_and_id category_url = None ->
  start_loop collect later_stages (category_url :: rest)
  = Skipped category_url :: start_loop collect later_stages rest.
Proof. intros H. cbn [start_loop]. rewrite H. reflexivity. Qed.

(** A category whose collection raises is logged and the loop goes on. *)
Lemma start_loop_survives_exception (category_url name : string)
    (category_id : Z) (e : exn) (rest : list string) :
  category_name_and_id category_url = Some (name, category_id) ->
  category_id <> 0 ->
  collect category_id = Raise e ->
  start_loop collect later_stages (category_url :: rest)
  = Failed category_url :: start_loop collect later_stages rest.
Proof.
  intros Hid Hnz Hc. cbn [start_loop]. rewrite Hid.
  replace (category_id =? 0) with false by (symmetry; apply Z.eqb_neq; exact Hnz).
  rewrite Hc. reflexivity.
Qed.

(** A category for which no id was collected ends the whole run: the
    categories after it are not looked at. *)
Lemma start_loop_stops_on_empty (category_url name : string)
    (category_id : Z) (rest : list string) :
  category_name_and_id category_url = Some (name, category_id) ->
  category_id <> 0 ->
  collect category_id = Ok ∅ ->
  start_loop collect later_stages (category_url :: rest) = [NoIds category_url].
Proof.
  intros Hid Hnz Hc. cbn [start_loop]. rewrite Hid.
  replace (category_id =? 0) with false by (symmetry; apply Z.eqb_neq; exact Hnz).
  rewrite Hc. reflexivity.
Qed.
End EntryLoop.

(** C9 at the input where the code leaves it. The host knows no brand
    for category 80004 and two brands with six products for category
    80089. With the empty category first, the run ends after it and the
    second category is never processed; a URL that does not match in its
    place is skipped and the second category is completed. *)
Theorem start_abandons_categories_after_empty_one :
  start (fun category_id =>
           snd (collect_product_ids Fixtures.no_repr
                  (Fixtures.app_of Fixtures.two_brands) [1; 0]%nat category_id))
        (fun _ _ _ => Ok tt)
        ["https://rozetka.com.ua/ua/notebooks/c80004/";
         "https://rozetka.com.ua/ua/monitors/c80089/"]
  = [NoIds "https://rozetka.com.ua/ua/notebooks/c80004/"]
  /\ start (fun category_id =>
              snd (collect_product_ids Fixtures.no_repr
                     (Fixtures.app_of Fixtures.two_brands) [1; 0]%nat category_id))
           (fun _ _ _ => Ok tt)
           ["https://rozetka.com.ua/notebooks/";
            "https://rozetka.com.ua/ua/monitors/c80089/"]
     = [Skipped "https://rozetka.com.ua/notebooks/";
        Completed "https://rozetka.com.ua/ua/monitors/c80089/" "Monitors"
          {[HInt 10; HInt 11; HInt 12; HInt 1; HInt 2; HInt 3]}].
Proof. split; vm_compute; reflexivity. Qed.


(** * Further properties *)

(** ** The fetch executor, for every host *)

Section MakeRequestAlways.
Variable self : RozetkaAPI.
Variable url : string.
Variable page : option Z.

Local Abbreviation full := (full_url_of url page).
Local Abbreviation retries := (max_retries (settings self)).

Lemma attempt_body_gets (attempt : Z) (u : string) :
  In (HttpGet u) (fst (attempt_body self full attempt)) -> u = full.
Proof.
  unfold attempt_body.
  destruct (session_get self full attempt) as [r| | | |];
    repeat match goal with
           | |- context [if ?b then _ else _] => destruct b
           | |- context [match json ?r with _ => _ end] => destruct (json r)
           end;
    cbn; intros H;
    repeat match goal with
           | H : _ \/ _ |- _ => destruct H as [H|H]
           | H : False |- _ => destruct H
           | H : HttpGet _ = HttpGet _ |- _ => injection H as <-; reflexivity
           | H : _ = HttpGet _ |- _ => discriminate H
           end.
Qed.

Lemma run_attempts_bounded (attempts : list Z) :
  (attempts_made (fst (run_attempts self full attempts)) <= length attempts)%nat
  /\ forall u, In (HttpGet u) (fst (run_attempts self full attempts)) -> u = full.
Proof.
  induction attempts as [|a l [IHn IHu]]; [split; [cbn; lia|intros u []]|].
  cbn [run_attempts length].
  pose proof (attempt_body_one_get self url page a) as Hone.
  pose proof (attempt_body_gets a) as Hget.
  destruct (attempt_body self full a) as [t [v|]]; cbn [fst] in *.
  - split; [lia|exact Hget].
  - destruct (run_attempts self full l) as [t' v]. cbn [fst] in *.
    rewrite attempts_made_app. split; [lia|].
    intros u Hu. apply in_app_or in Hu as [Hu|Hu]; auto.
Qed.

(** X1. Whatever the host does, a call sends at most [max_retries]
    requests, none when [max_retries] is not positive, and every request
    goes to the URL the call was made for. *)
Theorem make_request_within_budget :
  (attempts_made (fst (_make_request self url page)) <= Z.to_nat retries)%nat
  /\ forall u, In (HttpGet u) (fst (_make_request self url page)) -> u = full.
Proof.
  unfold _make_request.
  destruct (run_attempts_bounded (range 0 retries)) as [Hn Hu].
  rewrite range_length in Hn. split; [|exact Hu].
  replace (Z.to_nat retries) with (Z.to_nat (retries - 0)) by lia. exact Hn.
Qed.

Lemma attempt_body_200 (attempt : Z) (response : Response) (v : pyval) :
  session_get self full attempt = Responded response ->
  status_code response = 200 ->
  payload_of response = Some v ->
  attempt_body self full attempt = ([SleepJitter; HttpGet full], Return v).
Proof.
  intros Hget Hst. unfold payload_of, attempt_body.
  rewrite Hget, Hst. cbn [Z.eqb Pos.eqb].
  destruct (str_contains "application/json" _).
  - intros ->. reflexivity.
  - intros [= <-]. destruct (str_contains "text/html" _); reflexivity.
Qed.

(** X2. The first 200 answer whose body can be used ends the call: its
    decoded document, or its text when the content type is not JSON, is
    returned, no later attempt is made and nothing is slept after it. *)
Theorem make_request_returns_first_200 (k : Z) (response : Response) (v : pyval) :
  0 <= k < retries ->
  (forall j, 0 <= j < k -> snd (attempt_body self full j) = NextAttempt) ->
  session_get self full k = Responded response ->
  status_code response = 200 ->
  payload_of response = Some v ->
  _make_request self url page
  = (attempts_trace self full (range 0 k) ++ [SleepJitter; HttpGet full], v)
  /\ attempts_made (fst (_make_request self url page)) = Z.to_nat (k + 1).
Proof.
  intros Hk Hall Hget Hst Hpay.
  assert (Hrun : _make_request self url page
                 = (attempts_trace self full (range 0 k)
                      ++ [SleepJitter; HttpGet full], v)).
  { rewrite (make_request_from self url page k) by (auto; lia).
    rewrite (range_cons k retries) by lia. cbn [run_attempts].
    rewrite (attempt_body_200 k response v Hget Hst Hpay). reflexivity. }
  split; [exact Hrun|]. rewrite Hrun. cbn [fst].
  rewrite attempts_made_app, attempts_trace_made, range_length. cbn. lia.
Qed.

Lemma attempt_body_returns_payload (attempt : Z) (v : pyval) :
  snd (attempt_body self full attempt) = Return v -> v <> PNone ->
  exists response,
    session_get self full attempt = Responded response
    /\ status_code response = 200
    /\ payload_of response = Some v.
Proof.
  unfold attempt_body, payload_of.
  destruct (session_get self full attempt) as [r| | | |];
    try (destruct (attempt =? retries - 1); cbn; intros [= <-] H; contradiction).
  destruct (status_code r =? 200) eqn:H200.
  - apply Z.eqb_eq in H200. intros Hret Hv. exists r.
    split; [reflexivity|]. split; [exact H200|].
    destruct (str_contains "application/json" _).
    + destruct (json r) as [w|]; [cbn in Hret; congruence|].
      destruct (attempt =? retries - 1); cbn in Hret; [|discriminate].
      injection Hret as <-. contradiction.
    + destruct (str_contains "text/html" _); cbn in Hret; congruence.
  - repeat match goal with
           | |- context [if ?b then _ else _] => destruct b
           end; cbn; intros [= <-] H; contradiction.
Qed.

(** X3. A call never makes data up: whenever it returns something other
    than [None], one of its attempts received a 200 answer and the value
    is that answer's decoded document or text. *)
Theorem make_request_data_is_a_200_payload (v : pyval) :
  snd (_make_request self url page) = v -> v <> PNone ->
  exists k response,
    0 <= k < retries
    /\ session_get self full k = Responded response
    /\ status_code response = 200
    /\ payload_of response = Some v.
Proof.
  unfold _make_request. intros Hv Hne.
  assert (Hin : exists k, In k (range 0 retries)
                          /\ snd (attempt_body self full k) = Return v).
  { revert Hv. generalize (range 0 retries). intros l.
    induction l as [|a l IH]; cbn [run_attempts].
    - cbn. intros <-. contradiction.
    - destruct (attempt_body self full a) as [t [w|]] eqn:Hb.
      + cbn. intros ->. exists a. split; [left; reflexivity|].
        rewrite Hb. reflexivity.
      + destruct (run_attempts self full l) as [t' w]. cbn [snd] in *.
        intros Hw. destruct (IH Hw) as (k & Hk & Hret).
        exists k. split; [right; exact Hk|exact Hret]. }
  destruct Hin as (k & Hk & Hret).
  destruct (attempt_body_returns_payload k v Hret Hne) as (r & Hget & Hst & Hpay).
  exists k, r. split; [|auto].
  unfold range in Hk. apply in_map_iff in Hk as (i & <- & Hi).
  apply in_seq in Hi. lia.
Qed.

Lemma run_attempts_transient (n : nat) (k : Z) :
  n = Z.to_nat (retries - k) -> 0 <= k ->
  (forall a, 0 <= a < retries -> is_transient (session_get self full a) = true) ->
  run_attempts self full (range k retries)
  = (concat (map (fun attempt =>
                    [SleepJitter; HttpGet full]
                    ++ (if attempt <? retries - 1
                        then [SleepBackoff (2 ^ attempt)] else []))
                 (range k retries)), PNone).
Proof.
  revert k. induction n as [|n IH]; intros k Hn Hk Hall.
  - rewrite range_nil by lia. reflexivity.
  - rewrite range_cons by lia. cbn [run_attempts map concat].
    assert (Hbody : attempt_body self full k
                    = if k =? retries - 1
                      then ([SleepJitter; HttpGet full], Return PNone)
                      else ([SleepJitter; HttpGet full]
                              ++ (if k <? retries - 1
                                  then [SleepBackoff (2 ^ k)] else []),
                            NextAttempt)).
    { pose proof (Hall k ltac:(lia)) as Ht. unfold attempt_body.
      destruct (session_get self full k) as [r| | | |]; try reflexivity.
      cbn in Ht. apply andb_prop in Ht as [Ht H429].
      apply andb_prop in Ht as [H200 H404].
      apply negb_true_iff in H200, H404, H429.
      rewrite H200, H404, H429.
      destruct (status_code r =? 403); [reflexivity|].
      destruct ((500 <=? status_code r) && (status_code r <? 600)); reflexivity. }
    rewrite Hbody.
    destruct (k =? retries - 1) eqn:Hlast.
    + apply Z.eqb_eq in Hlast.
      rewrite (range_nil (k + 1)) by lia.
      replace (k <? retries - 1) with false by (symmetry; apply Z.ltb_ge; lia).
      reflexivity.
    + apply Z.eqb_neq in Hlast.
      rewrite (IH (k + 1)) by (auto; lia). reflexivity.
Qed.

(** X4. When every attempt fails in a transient way (403, a server
    error, any other unexpected status, a timeout or another exception),
    the call uses all [max_retries] attempts, sleeps the backoff of base
    [2 ** attempt] after each but the last, and returns [None]. *)
Theorem make_request_exhausts_on_transient :
  (forall a, 0 <= a < retries -> is_transient (session_get self full a) = true) ->
  _make_request self url page = (exhausted_trace retries full, PNone)
  /\ attempts_made (fst (_make_request self url page)) = Z.to_nat retries.
Proof.
  intros Hall.
  assert (Hrun : _make_request self url page = (exhausted_trace retries full, PNone)).
  { unfold _make_request, exhausted_trace.
    apply (run_attempts_transient (Z.to_nat (retries - 0)) 0); auto; lia. }
  split; [exact Hrun|]. rewrite Hrun. cbn [fst]. unfold exhausted_trace.
  rewrite attempts_made_concat, range_length; [f_equal; lia|].
  intros a. destruct (a <? retries - 1); reflexivity.
Qed.

End MakeRequestAlways.

(** ** The order of page requests *)

Section PageOrder.
Variable self : RozetkaAPI.

Lemma requests_of_app (t1 t2 : list event) :
  requests_of (t1 ++ t2) = requests_of t1 ++ requests_of t2.
Proof. unfold requests_of. apply omap_app. Qed.

Lemma page_body_requests (url_of_page : Z -> string) (page : Z)
    (acc : gset hkey) :
  requests_of (fst (page_body self url_of_page page acc)) = [url_of_page page].
Proof.
  unfold page_body, request. cbn [emit ret bind app].
  destruct (data_member "goods" _) as [[goods_data|]|]; cbn; try reflexivity.
  destruct (add_ids acc goods_data); reflexivity.
Qed.

Lemma later_pages_in_order (url_of_page : Z -> string) (n : nat) (lo hi : Z)
    (acc : gset hkey) :
  n = Z.to_nat (hi - lo) ->
  exists m, lo <= m /\ (lo < hi -> lo < m)
    /\ requests_of (fst (for_each (range lo hi) (page_body self url_of_page) acc))
       = map url_of_page (range lo m).
Proof.
  revert lo acc. induction n as [|n IH]; intros lo acc Hn.
  - exists lo. rewrite (range_nil lo hi), (range_nil lo lo) by lia.
    split; [lia|split; [lia|reflexivity]].
  - rewrite (range_cons lo hi) by lia. cbn [for_each].
    pose proof (page_body_requests url_of_page lo acc) as Hreq.
    destruct (page_body self url_of_page lo acc) as [t [acc'|e]]; cbn [bind fst] in *.
    + destruct (IH (lo + 1) acc' ltac:(lia)) as (m & Hm & _ & Hrest).
      destruct (for_each (range (lo + 1) hi) _ acc') as [t' r]. cbn [fst] in *.
      destruct (Z.eq_dec m (lo + 1)) as [->|Hne].
      * exists (lo + 1). rewrite requests_of_app, Hreq, Hrest.
        rewrite (range_nil (lo + 1) (lo + 1)) by lia.
        rewrite (range_cons lo (lo + 1)), (range_nil (lo + 1) (lo + 1)) by lia.
        split; [lia|split; [lia|reflexivity]].
      * exists m. rewrite requests_of_app, Hreq, Hrest.
        rewrite (range_cons lo m) by lia.
        split; [lia|split; [lia|reflexivity]].
    + exists (lo + 1). rewrite Hreq.
      rewrite (range_cons lo (lo + 1)), (range_nil (lo + 1) (lo + 1)) by lia.
      split; [lia|split; [lia|reflexivity]].
Qed.

Lemma pagination_walk_in_order (url_of_page : Z -> string) :
  in_page_order url_of_page (fst (pagination_walk self url_of_page)).
Proof.
  unfold in_page_order, pagination_walk, request. cbn [emit ret bind app].
  assert (Hone : map url_of_page (range 1 (1 + 1)) = [url_of_page 1]).
  { reflexivity. }
  destruct (data_member "goods" _) as [[goods_data|]|]; cbn [lift bind ret app fst];
    try (exists 1; split; [lia|rewrite Hone; reflexivity]).
  destruct (add_ids ∅ goods_data) as [ids|]; cbn [bind app fst];
    try (exists 1; split; [lia|rewrite Hone; reflexivity]).
  destruct (get goods_data "total_pages" (PInt 1)) as [total_pages|];
    cbn [bind app fst];
    try (exists 1; split; [lia|rewrite Hone; reflexivity]).
  destruct (add_one total_pages) as [stop|]; cbn [bind app fst];
    try (exists 1; split; [lia|rewrite Hone; reflexivity]).
  destruct (later_pages_in_order url_of_page (Z.to_nat (stop - 2)) 2 stop ids
              eq_refl) as (m & Hm & _ & Hrest).
  destruct (for_each (range 2 stop) _ ids) as [t r]. cbn [fst] in *.
  exists (m - 1). split; [lia|].
  replace (m - 1 + 1) with m by lia.
  rewrite (range_cons 1 m) by lia. cbn [map].
  change (Request (url_of_page 1) :: t) with ([Request (url_of_page 1)] ++ t).
  rewrite requests_of_app, Hrest. reflexivity.
Qed.

Variable repr : pyval -> string.

(** X6. Whatever the host answers, and also when a walk ends in an
    exception, each of the four walks asks for page 1 first and then for
    the following pages in increasing order, each once and without a gap;
    nothing else is requested. *)
Theorem walks_request_pages_in_order (brand_name products_quantity : pyval)
    (category_id : Z) (sort_value filter_id : string) (filter_value : pyval) :
  in_page_order
    (fun page => catalog +:+ pretty page +:+ ";producer:"
                   +:+ format repr brand_name +:+ "&id=" +:+ pretty category_id)
    (fst (_process_simple_pagination repr self brand_name category_id
            products_quantity))
  /\ in_page_order
       (fun page => catalog +:+ pretty page +:+ ";producer:"
                      +:+ format repr brand_name +:+ ";sort:" +:+ sort_value
                      +:+ "&id=" +:+ pretty category_id)
       (fst (_process_with_sort repr self brand_name category_id
               products_quantity sort_value))
  /\ in_page_order
       (fun page => catalog +:+ pretty page +:+ ";producer:"
                      +:+ format repr brand_name +:+ ";" +:+ filter_id +:+ ":"
                      +:+ format repr filter_value
                      +:+ "&id=" +:+ pretty category_id)
       (fst (_process_single_filter repr self brand_name category_id
               filter_id filter_value))
  /\ in_page_order
       (fun page => catalog +:+ pretty page +:+ ";producer:"
                      +:+ format repr brand_name +:+ ";" +:+ filter_id +:+ ":"
                      +:+ format repr filter_value +:+ ";sort:" +:+ sort_value
                      +:+ "&id=" +:+ pretty category_id)
       (fst (_process_filter_sort_combo repr self brand_name category_id
               filter_id filter_value sort_value)).
Proof.
  unfold _process_simple_pagination, _process_with_sort,
    _process_single_filter, _process_filter_sort_combo.
  repeat split;
    match goal with
    | |- in_page_order ?u (fst (emit ?e ;; pagination_walk self ?u)) =>
        pose proof (pagination_walk_in_order u) as H;
        destruct (pagination_walk self u) as [t r];
        exact H
    end.
Qed.

End PageOrder.

(** ** Filter lookups and filter tasks *)

Lemma for_each_accumulates {A} (xs : list A)
    (body : A -> gset hkey -> M (gset hkey))
    (L : A -> list event) (S : A -> gset hkey) (acc : gset hkey) :
  (forall x acc', In x xs -> body x acc' = (L x, Ok (acc' ∪ S x))) ->
  for_each xs body acc = (flat_map L xs, Ok (acc ∪ ⋃ map S xs)).
Proof.
  revert acc. induction xs as [|x xs IH]; intros acc Hbody.
  - cbn. rewrite (right_id_L ∅ (∪)). reflexivity.
  - cbn [for_each flat_map map].
    rewrite (bind_ok _ _ _ _ (Hbody x acc (or_introl eq_refl))).
    rewrite IH by (intros y acc' Hy; apply Hbody; right; exact Hy).
    cbn [fst snd]. rewrite union_list_cons, (assoc_L (∪)). reflexivity.
Qed.

Lemma walks_entered_flat_map {A} (L : A -> list event) (xs : list A) :
  walks_entered (flat_map L xs) = flat_map (fun x => walks_entered (L x)) xs.
Proof.
  induction xs as [|x xs IH]; [reflexivity|].
  cbn [flat_map]. rewrite walks_entered_app, IH. reflexivity.
Qed.

Lemma flat_map_singletons {A B} (f : A -> B) (xs : list A) :
  flat_map (fun x => [f x]) xs = map f xs.
Proof. induction xs as [|x xs IH]; [reflexivity|]. cbn. rewrite IH. reflexivity. Qed.

Section FilterTasks.
Variable repr : pyval -> string.
Variable self : RozetkaAPI.
Variable brand_name products_quantity : pyval.
Variable category_id : Z.

Lemma find_filter_id_sound (options : list (string * pyval))
    (filter_name filter_id : string) :
  find_filter_id options filter_name = Ok (Some filter_id) ->
  exists filter_data,
    In (filter_id, filter_data) options
    /\ get filter_data "option_title" PNone = Ok (PStr filter_name).
Proof.
  induction options as [|[fid fdata] rest IH]; cbn [find_filter_id].
  - discriminate.
  - destruct (get fdata "option_title" PNone) as [title|] eqn:Hget; cbn [obind];
      [|discriminate].
    destruct (is_str filter_name title) eqn:Hstr.
    + intros [= <-]. exists fdata. split; [left; reflexivity|].
      destruct title; try discriminate. cbn in Hstr.
      apply String.eqb_eq in Hstr. subst. exact Hget.
    + intros H. destruct (IH H) as (d & Hin & Ht).
      exists d. split; [right; exact Hin|exact Ht].
Qed.

(** X7. A filter id that [_get_filter_id_by_name] returns is a key of
    [data.filters.options] in the brand's first catalogue page, and the
    entry under it carries exactly the requested title. *)
Theorem found_filter_has_the_title (filter_name filter_id : string) :
  snd (_get_filter_id_by_name repr self brand_name category_id filter_name)
  = Ok (Some filter_id) ->
  exists filters options filter_data,
    data_member "filters" (fetch self (facet_url repr brand_name category_id))
    = Ok (Some filters)
    /\ getitem filters "options" = Ok (PDict options)
    /\ In (filter_id, filter_data) options
    /\ get filter_data "option_title" PNone = Ok (PStr filter_name).
Proof.
  unfold _get_filter_id_by_name, request. cbn [emit ret bind app].
  destruct (data_member "filters" _) as [[filters|]|]; cbn; try discriminate.
  destruct (contains "options" filters) as [[|]|]; cbn; try discriminate.
  destruct (getitem filters "options") as [options|] eqn:Hopt; cbn;
    [|discriminate].
  destruct options as [| | | | |d]; cbn; try discriminate.
  intros H. assert (Hfind : find_filter_id d filter_name = Ok (Some filter_id)).
  { destruct (find_filter_id d filter_name); cbn in H; congruence. }
  destruct (find_filter_id_sound d filter_name filter_id Hfind) as (fd & Hin & Ht).
  exists filters, d, fd. repeat split; auto.
Qed.

Lemma get_filter_values_log (filter_id : string) :
  fst (_get_filter_values repr self brand_name category_id filter_id)
  = [Request (facet_url repr brand_name category_id)].
Proof.
  unfold _get_filter_values, request. cbn [emit ret bind app].
  destruct (data_member "filters" _) as [[filters|]|]; cbn; try reflexivity.
  destruct (contains "options" filters) as [[|]|]; cbn; try reflexivity.
  destruct (getitem filters "options") as [options|]; cbn; try reflexivity.
  destruct (contains filter_id options) as [[|]|]; cbn; reflexivity.
Qed.

Lemma combo_walks (filter_id : string) (value_name : pyval) (sort_value : string) :
  walks_entered (fst (_process_filter_sort_combo repr self brand_name category_id
                        filter_id value_name sort_value))
  = [FilterSortCombo filter_id value_name sort_value].
Proof.
  unfold _process_filter_sort_combo. cbn [emit bind].
  match goal with
  | |- context [pagination_walk self ?u] =>
      pose proof (pagination_walk_events self u) as Hev;
      destruct (pagination_walk self u) as [t o]
  end.
  cbn [fst app] in *. unfold walks_entered. cbn [omap list_omap].
  fold (walks_entered t). rewrite (walks_entered_page_events t Hev). reflexivity.
Qed.

Lemma single_filter_walks (filter_id : string) (value_name : pyval) :
  walks_entered (fst (_process_single_filter repr self brand_name category_id
                        filter_id value_name))
  = [SingleFilter filter_id value_name].
Proof.
  unfold _process_single_filter. cbn [emit bind].
  match goal with
  | |- context [pagination_walk self ?u] =>
      pose proof (pagination_walk_events self u) as Hev;
      destruct (pagination_walk self u) as [t o]
  end.
  cbn [fst app] in *. unfold walks_entered. cbn [omap list_omap].
  fold (walks_entered t). rewrite (walks_entered_page_events t Hev). reflexivity.
Qed.

(** Both lookups done and values in hand, what is left of
    [_process_with_filters_and_sort] is the loop over the values. *)
Lemma filters_and_sort_found (filter_name filter_id : string)
    (sort_list : option (list string)) (values : list pyval) :
  snd (_get_filter_id_by_name repr self brand_name category_id filter_name)
  = Ok (Some filter_id) ->
  filter_id <> "" ->
  snd (_get_filter_values repr self brand_name category_id filter_id)
  = Ok (PList values) ->
  values <> [] ->
  _process_with_filters_and_sort repr self brand_name category_id
    products_quantity filter_name sort_list
  = (([Request (facet_url repr brand_name category_id);
       Request (facet_url repr brand_name category_id)], Ok tt) ;;
     if truthy_list sort_list then
       for_each values (fun filter_value all_product_ids =>
         let* value_name := lift (getitem filter_value "option_value_name") in
         let* value_quantity := lift (getitem filter_value "products_quantity") in
         let* value_title := lift (getitem filter_value "option_value_title") in
         for_each (default [] sort_list) (fun sort_value all_product_ids =>
           let* ids_for_combo :=
             _process_filter_sort_combo repr self brand_name category_id
               filter_id value_name sort_value in
           ret (all_product_ids ∪ ids_for_combo)) all_product_ids) ∅
     else
       for_each values (fun filter_value all_product_ids =>
         let* value_name := lift (getitem filter_value "option_value_name") in
         let* value_quantity := lift (getitem filter_value "products_quantity") in
         let* value_title := lift (getitem filter_value "option_value_title") in
         let* ids_for_filter :=
           _process_single_filter repr self brand_name category_id
             filter_id value_name in
         ret (all_product_ids ∪ ids_for_filter)) ∅).
Proof.
  intros Hid Hne Hvals Hvne. unfold _process_with_filters_and_sort.
  pose proof (get_filter_id_log repr self brand_name category_id filter_name) as L1.
  pose proof (get_filter_values_log filter_id) as L2.
  destruct (_get_filter_id_by_name repr self brand_name category_id filter_name)
    as [t1 o1]. cbn [fst snd] in *. subst t1 o1.
  cbn [bind falsy_id default from_option id].
  replace (String.eqb filter_id "") with false
    by (symmetry; apply String.eqb_neq; exact Hne).
  destruct (_get_filter_values repr self brand_name category_id filter_id)
    as [t2 o2]. cbn [fst snd] in *. subst t2 o2.
  cbn [bind truthy negb iter lift].
  destruct values as [|v vs]; [contradiction|]. cbn [negb app].
  destruct (truthy_list sort_list);
    match goal with
    | |- context [for_each ?xs ?b ?a] => destruct (for_each xs b a) as [t r]
    end; reflexivity.
Qed.

(** X8. When the requested filter is found, has values, and sort orders
    are given, one task is run per value and sort order, value by value
    and, within a value, in the order of [sort_list]; the result is the
    union of what the tasks return. *)
Theorem filter_tasks_per_value_and_sort (filter_name filter_id : string)
    (sorts : list string) (values : list pyval) :
  snd (_get_filter_id_by_name repr self brand_name category_id filter_name)
  = Ok (Some filter_id) ->
  filter_id <> "" ->
  snd (_get_filter_values repr self brand_name category_id filter_id)
  = Ok (PList values) ->
  values <> [] -> sorts <> [] ->
  Forall filter_value_record values ->
  (forall v s, In v values -> In s sorts ->
     exists ids,
       snd (_process_filter_sort_combo repr self brand_name category_id
              filter_id (value_name_of v) s) = Ok ids) ->
  walks_entered
    (fst (_process_with_filters_and_sort repr self brand_name category_id
            products_quantity filter_name (Some sorts)))
  = flat_map (fun v =>
                map (fun s => FilterSortCombo filter_id (value_name_of v) s) sorts)
             values
  /\ snd (_process_with_filters_and_sort repr self brand_name category_id
            products_quantity filter_name (Some sorts))
     = Ok (⋃ map (fun v =>
                    ⋃ map (fun s =>
                             contribution
                               (snd (_process_filter_sort_combo repr self
                                       brand_name category_id filter_id
                                       (value_name_of v) s))) sorts)
                 values).
Proof.
  intros Hid Hne Hvals Hvne Hsne Hrec Hret.
  rewrite (filters_and_sort_found filter_name filter_id (Some sorts) values
             Hid Hne Hvals Hvne).
  assert (Htruthy : truthy_list (Some sorts) = true)
    by (destruct sorts; [contradiction|reflexivity]).
  rewrite Htruthy. cbn [default from_option id].
  rewrite (for_each_accumulates values _
             (fun v => flat_map
                         (fun s => fst (_process_filter_sort_combo repr self
                                          brand_name category_id filter_id
                                          (value_name_of v) s)) sorts)
             (fun v => ⋃ map (fun s =>
                                contribution
                                  (snd (_process_filter_sort_combo repr self
                                          brand_name category_id filter_id
                                          (value_name_of v) s))) sorts)).
  - cbn [bind fst snd app]. rewrite (left_id_L ∅ (∪)). split; [|reflexivity].
    unfold walks_entered at 1. cbn [omap list_omap]. fold walks_entered.
    rewrite walks_entered_flat_map. apply flat_map_ext. intros v.
    rewrite walks_entered_flat_map, <- flat_map_singletons.
    apply flat_map_ext. intros s. apply combo_walks.
  - intros v acc Hv.
    rewrite Forall_forall in Hrec.
    destruct (Hrec v ltac:(apply list_elem_of_In; exact Hv))
      as ((n & Hn) & (q & Hq) & (ti & Hti)).
    assert (Hname : value_name_of v = n) by (unfold value_name_of; rewrite Hn; reflexivity).
    rewrite Hn, Hq, Hti. cbn [lift bind app]. rewrite <- Hname.
    destruct (for_each sorts _ acc) as [t r] eqn:Hloop.
    rewrite (for_each_accumulates sorts _
               (fun s => fst (_process_filter_sort_combo repr self brand_name
                                category_id filter_id (value_name_of v) s))
               (fun s => contribution
                           (snd (_process_filter_sort_combo repr self brand_name
                                   category_id filter_id (value_name_of v) s))))
      in Hloop.
    + injection Hloop as <- <-. reflexivity.
    + intros s acc' Hs. destruct (Hret v s Hv Hs) as [ids Hids].
      destruct (_process_filter_sort_combo repr self brand_name category_id
                  filter_id (value_name_of v) s) as [t' o']. cbn [snd] in Hids.
      subst o'. cbn [bind ret fst snd contribution]. rewrite app_nil_r. reflexivity.
Qed.

(** X9. When the requested filter is found, has values, and no sort
    order is given, one task is run per value, in the order of the
    values; the result is the union of what the tasks return. *)
Theorem filter_tasks_per_value (filter_name filter_id : string)
    (sort_list : option (list string)) (values : list pyval) :
  snd (_get_filter_id_by_name repr self brand_name category_id filter_name)
  = Ok (Some filter_id) ->
  filter_id <> "" ->
  snd (_get_filter_values repr self brand_name category_id filter_id)
  = Ok (PList values) ->
  values <> [] -> truthy_list sort_list = false ->
  Forall filter_value_record values ->
  (forall v, In v values ->
     exists ids,
       snd (_process_single_filter repr self brand_name category_id
              filter_id (value_name_of v)) = Ok ids) ->
  walks_entered
    (fst (_process_with_filters_and_sort repr self brand_name category_id
            products_quantity filter_name sort_list))
  = map (fun v => SingleFilter filter_id (value_name_of v)) values
  /\ snd (_process_with_filters_and_sort repr self brand_name category_id
            products_quantity filter_name sort_list)
     = Ok (⋃ map (fun v =>
                    contribution
                      (snd (_process_single_filter repr self brand_name
                              category_id filter_id (value_name_of v))))
                 values).
Proof.
  intros Hid Hne Hvals Hvne Hsort Hrec Hret.
  rewrite (filters_and_sort_found filter_name filter_id sort_list values
             Hid Hne Hvals Hvne).
  rewrite Hsort.
  rewrite (for_each_accumulates values _
             (fun v => fst (_process_single_filter repr self brand_name
                              category_id filter_id (value_name_of v)))
             (fun v => contribution
                         (snd (_process_single_filter repr self brand_name
                                 category_id filter_id (value_name_of v))))).
  - cbn [bind fst snd app]. rewrite (left_id_L ∅ (∪)). split; [|reflexivity].
    unfold walks_entered at 1. cbn [omap list_omap]. fold walks_entered.
    rewrite walks_entered_flat_map, <- flat_map_singletons.
    apply flat_map_ext. intros v. apply single_filter_walks.
  - intros v acc Hv.
    rewrite Forall_forall in Hrec.
    destruct (Hrec v ltac:(apply list_elem_of_In; exact Hv))
      as ((n & Hn) & (q & Hq) & (ti & Hti)).
    assert (Hname : value_name_of v = n) by (unfold value_name_of; rewrite Hn; reflexivity).
    rewrite Hn, Hq, Hti. cbn [lift bind app]. rewrite <- Hname.
    destruct (Hret v Hv) as [ids Hids].
    destruct (_process_single_filter repr self brand_name category_id
                filter_id (value_name_of v)) as [t' o']. cbn [snd] in Hids.
    subst o'. cbn [bind ret fst snd contribution]. rewrite app_nil_r. reflexivity.
Qed.

End FilterTasks.

(** ** Default parsing on top of filters *)

Section AdditiveDefault.
Variable repr : pyval -> string.
Variable self : RozetkaAPI.
Variable brand_data brand_name products_quantity : pyval.
Variable category_id : Z.

Hypothesis brand_has_name :
  getitem brand_data "option_value_name" = Ok brand_name.
Hypothesis brand_has_quantity :
  getitem brand_data "products_quantity" = Ok products_quantity.

(** X10. With [default_parse] on, the default traversal always runs,
    after the filter tasks, and its ids are added to theirs: the brand's
    result is the union of the filter results and the default result,
    whether or not a filter produced anything. *)
Theorem default_parse_adds_to_filter_results
    (filters sort_list : option (list string))
    (t : list event) (default_ids : gset hkey) :
  (forall f, In f (default [] filters) ->
     exists s, snd (_process_with_filters_and_sort repr self brand_name
                      category_id products_quantity f sort_list) = Ok s) ->
  _process_default_parsing repr self brand_name category_id products_quantity
    sort_list = (t, Ok default_ids) ->
  get_product_ids_for_brand repr self brand_data category_id
    filters sort_list true
  = (filter_phase_log repr self brand_name category_id products_quantity
       sort_list (default [] filters) ++ t,
     Ok (filter_phase_ids repr self brand_name category_id products_quantity
           sort_list (default [] filters) ∪ default_ids)).
Proof.
  intros Hall Hdef. unfold get_product_ids_for_brand.
  rewrite (bind_lift_ok _ _ _ brand_has_name).
  rewrite (bind_lift_ok _ _ _ brand_has_quantity).
  rewrite Hdef.
  destruct (truthy_list filters) eqn:Hf.
  - rewrite (filter_loop_returns repr self brand_data brand_name
               products_quantity category_id brand_has_name brand_has_quantity
               sort_list (default [] filters) false ∅ Hall).
    rewrite (bind_ok _ _ _ _ eq_refl). cbv beta iota.
    cbn [bind ret fst snd app]. rewrite app_nil_r, (left_id_L ∅ (∪)). reflexivity.
  - assert (Hnil : default [] filters = []) by (destruct filters as [[|]|]; cbn in *; congruence).
    rewrite Hnil, bind_ret. cbv beta iota.
    cbn [bind ret fst snd app filter_phase_log filter_phase_ids flat_map map
         union_list foldr].
    rewrite app_nil_r. reflexivity.
Qed.

End AdditiveDefault.

(** ** Brand discovery, continued *)

Lemma has_key_false (brands_data : brands) (key : hkey) :
  has_key brands_data key = false -> ~ In key (map fst brands_data).
Proof.
  unfold has_key. induction brands_data as [|[k d] rest IH]; cbn; [tauto|].
  intros H. apply orb_false_iff in H as [Hk Hrest].
  apply bool_decide_eq_false in Hk. intros [->|Hin]; [apply Hk; reflexivity|].
  exact (IH Hrest Hin).
Qed.

Lemma add_option_entries (option : pyval) (brands_data brands_data' : brands) :
  List.NoDup (map fst brands_data) /\ Forall brand_entry brands_data ->
  add_option option brands_data = Ok brands_data' ->
  List.NoDup (map fst brands_data') /\ Forall brand_entry brands_data'.
Proof.
  intros [Hnd Hall]. unfold add_option.
  destruct (get option "option_value_name" PNone) as [brand_name|]; cbn;
    [|discriminate].
  destruct (truthy brand_name) eqn:Htruthy; cbn; [|intros [= <-]; auto].
  destruct (hash brand_name) as [key|] eqn:Hhash; cbn; [|discriminate].
  destruct (has_key brands_data key) eqn:Hkey; [intros [= <-]; auto|].
  repeat match goal with
         | |- context [get ?o ?k ?d] => destruct (get o k d); cbn; [|discriminate]
         end.
  intros [= <-]. split.
  - rewrite map_app. cbn [map fst].
    apply NoDup_ListNoDup, NoDup_app. repeat split.
    + apply NoDup_ListNoDup. exact Hnd.
    + intros k Hk Hk'. apply list_elem_of_In in Hk, Hk'.
      destruct Hk' as [<-|[]]. exact (has_key_false _ _ Hkey Hk).
    + apply NoDup_ListNoDup. constructor; [intros []|constructor].
  - apply Forall_app. split; [exact Hall|].
    constructor; [|constructor]. eexists _, _. cbn.
    repeat split; [exact Htruthy|exact Hhash].
Qed.

Lemma add_options_entries (options : list pyval) (brands_data brands_data' : brands) :
  List.NoDup (map fst brands_data) /\ Forall brand_entry brands_data ->
  add_options options brands_data = Ok brands_data' ->
  List.NoDup (map fst brands_data') /\ Forall brand_entry brands_data'.
Proof.
  revert brands_data. induction options as [|option rest IH]; intros bs Hinv.
  - cbn. intros [= <-]. exact Hinv.
  - cbn [add_options].
    destruct (add_option option bs) as [bs1|] eqn:Hadd; cbn; [|discriminate].
    apply IH. exact (add_option_entries option bs bs1 Hinv Hadd).
Qed.

(** X11. The brand mapping that discovery returns has no two entries
    under the same name; every entry is keyed by its own truthy name and
    holds the name and the product count, so the two reads at the start
    of [get_product_ids_for_brand] cannot fail on a discovered brand. *)
Theorem discovered_brands_are_distinct_records (self : RozetkaAPI)
    (category_id : Z) (t : list event) (brands_data : brands) :
  search_brands_for_category self category_id = (t, Ok brands_data) ->
  List.NoDup (map fst brands_data) /\ Forall brand_entry brands_data.
Proof.
  unfold search_brands_for_category.
  apply (for_each_invariant
           (fun bs => List.NoDup (map fst bs) /\ Forall brand_entry bs)).
  - intros letter bs t0 bs1 Hinv. unfold request. cbn [emit ret bind app].
    destruct (data_member "options" _) as [[options|]|]; cbn; try discriminate.
    + destruct (iter options) as [l|]; cbn; [|discriminate].
      destruct (add_options l bs) as [bs2|] eqn:Hadd; [|discriminate].
      intros [= _ <-]. exact (add_options_entries l bs bs2 Hinv Hadd).
    + intros [= _ <-]. exact Hinv.
  - split; constructor.
Qed.

Lemma for_each_log {A S} (xs : list A) (body : A -> S -> M S)
    (L : A -> list event) (acc : S) (t : list event) (r : S) :
  (forall x acc0 t0 acc1, body x acc0 = (t0, Ok acc1) -> t0 = L x) ->
  for_each xs body acc = (t, Ok r) -> t = flat_map L xs.
Proof.
  intros Hbody. revert acc t. induction xs as [|x xs IH]; intros acc t Hrun.
  - cbn in Hrun. injection Hrun as <- _. reflexivity.
  - cbn [for_each] in Hrun.
    destruct (body x acc) as [t0 [acc1|e]] eqn:Hstep; cbn [bind] in Hrun;
      [|discriminate].
    destruct (for_each xs body acc1) as [t1 r1] eqn:Hrest.
    injection Hrun as <- ->.
    cbn [flat_map]. rewrite (Hbody x acc t0 acc1 Hstep), (IH acc1 t1 Hrest).
    reflexivity.
Qed.

(** X12. A discovery that returns has asked the brand search once for
    every letter of the two alphabets, Latin first, in alphabet order,
    and has made no other request: 58 requests per category. *)
Theorem discovery_asks_every_letter_once (self : RozetkaAPI) (category_id : Z)
    (t : list event) (brands_data : brands) :
  search_brands_for_category self category_id = (t, Ok brands_data) ->
  t = map (fun letter =>
             Request
               ("https://catalog-api.rozetka.com.ua/v0.1/api/category/search-brands"
                  +:+ "?country=UA&lang=ua&id=" +:+ pretty category_id
                  +:+ "&idType=catalog&query=" +:+ letter)) all_letters
  /\ length t = 58%nat.
Proof.
  intros Hrun.
  assert (Ht : t = map (fun letter =>
             Request
               ("https://catalog-api.rozetka.com.ua/v0.1/api/category/search-brands"
                  +:+ "?country=UA&lang=ua&id=" +:+ pretty category_id
                  +:+ "&idType=catalog&query=" +:+ letter)) all_letters).
  { rewrite <- flat_map_singletons.
    unfold search_brands_for_category in Hrun.
    refine (for_each_log _ _ _ _ _ _ _ Hrun).
    intros letter bs t0 bs1. unfold request. cbn [emit ret bind app].
    destruct (data_member "options" _) as [[options|]|]; cbn; try discriminate.
    - destruct (let? options0 := iter options in add_options options0 bs);
        [|discriminate].
      intros [= <- _]. reflexivity.
    - intros [= <- _]. reflexivity. }
  split; [exact Ht|]. rewrite Ht, length_map. reflexivity.
Qed.

(** ** The batch detail pipeline *)

Lemma record_of_product_record (product_info : pyval) :
  product_record (record_of product_info).
Proof. eexists. split; reflexivity. Qed.

Lemma records_are_product_records (products : list pyval) :
  Forall product_record (map record_of products).
Proof.
  induction products as [|p ps IH]; constructor;
    [apply record_of_product_record|exact IH].
Qed.

Lemma parse_product_closed (product_info : pyval) :
  parse_product product_info
  = Ok (if is_dict product_info then Some (record_of product_info) else None).
Proof. destruct product_info; reflexivity. Qed.

Lemma parse_products_closed (batch_data : list pyval) :
  parse_products batch_data
  = Ok (map record_of (List.filter is_dict batch_data)).
Proof.
  induction batch_data as [|product_info rest IH]; [reflexivity|].
  cbn [parse_products List.filter]. rewrite parse_product_closed, IH.
  destruct (is_dict product_info); reflexivity.
Qed.

Lemma parse_batch_data_closed (batch_data : pyval) :
  parse_batch_data batch_data
  = Ok (map record_of (List.filter is_dict (list_items batch_data))).
Proof.
  unfold parse_batch_data.
  destruct batch_data as [|b|n|s|l|d]; cbn [is_list negb list_items];
    rewrite ?orb_true_r; try reflexivity.
  destruct l as [|x l]; [reflexivity|].
  cbn [truthy negb orb iter obind].
  apply parse_products_closed.
Qed.

(** X13. [parse_batch_data] never raises, whatever it is given: it
    returns one record per dict of the list, in the order of the list,
    each holding the five fields read with [''] for a missing key;
    entries that are not dicts are dropped and anything that is not a
    list gives no record. *)
Theorem parse_batch_data_projects_the_dicts (batch_data : pyval) :
  exists records,
    parse_batch_data batch_data = Ok records
    /\ records = map record_of (List.filter is_dict (list_items batch_data))
    /\ Forall product_record records
    /\ (length records <= length (list_items batch_data))%nat.
Proof.
  eexists. split; [apply parse_batch_data_closed|].
  split; [reflexivity|]. split.
  - apply records_are_product_records.
  - rewrite length_map. apply filter_length_le.
Qed.

Section SingleBatch.
Variable repr : pyval -> string.
Variable self : RozetkaAPI.

Lemma get_batch_data_closed (product_id : pyval) (product_ids : list pyval) :
  exists batch_raw_data,
    get_batch_data repr self (product_id :: product_ids)
    = ([Request (details_url repr (product_id :: product_ids))],
       Ok batch_raw_data)
    /\ list_items batch_raw_data
       = details_of (fetch self (details_url repr (product_id :: product_ids))).
Proof.
  unfold get_batch_data, request. cbn [emit ret bind app].
  destruct (fetch self _) as [|b|n|s|l|d]; cbn;
    try (eexists; split; reflexivity).
  destruct (dict_lookup d "data") as [data|] eqn:Hdata.
  - rewrite bool_decide_eq_true_2 by (eexists; reflexivity).
    cbn. eexists; split; reflexivity.
  - rewrite bool_decide_eq_false_2 by (intros [x Hx]; discriminate).
    cbn. eexists; split; reflexivity.
Qed.

Lemma truthy_list_items (x : pyval) :
  truthy x = false -> list_items x = [].
Proof. destruct x as [|b|n|s|[|]|d]; cbn; congruence. Qed.

Lemma process_single_batch_closed (product_id : pyval)
    (product_ids : list pyval) :
  process_single_batch repr self (product_id :: product_ids)
  = ([Request (details_url repr (product_id :: product_ids))],
     Ok (map record_of
           (List.filter is_dict
              (details_of
                 (fetch self (details_url repr (product_id :: product_ids))))))).
Proof.
  destruct (get_batch_data_closed product_id product_ids) as (raw & Hget & Hraw).
  unfold process_single_batch. rewrite Hget. cbn [bind].
  rewrite <- Hraw.
  destruct (truthy raw) eqn:Htruthy; cbn [negb].
  - rewrite parse_batch_data_closed. cbn [lift bind ret app].
    destruct (map record_of _); reflexivity.
  - rewrite (truthy_list_items raw Htruthy). reflexivity.
Qed.

Lemma process_single_batch_records (product_ids_batch : list pyval) :
  exists records,
    snd (process_single_batch repr self product_ids_batch) = Ok records
    /\ Forall product_record records.
Proof.
  destruct product_ids_batch as [|product_id product_ids].
  - exists []. split; [reflexivity|constructor].
  - rewrite process_single_batch_closed. eexists. split; [reflexivity|].
    apply records_are_product_records.
Qed.

(** X14. One batch costs one request and never raises.  For a
    non-empty batch the details URL is asked once and the result is the
    records of the dicts in the [data] list of the answer; a failed
    fetch, an answer that is not a JSON object, an object without
    [data], and a [data] that is not a list all give no record.  An
    empty batch asks nothing. *)
Theorem process_single_batch_asks_once (product_ids_batch : list pyval) :
  process_single_batch repr self product_ids_batch
  = match product_ids_batch with
    | [] => ([], Ok [])
    | _ =>
        ([Request (details_url repr product_ids_batch)],
         Ok (map record_of
               (List.filter is_dict
                  (details_of
                     (fetch self (details_url repr product_ids_batch))))))
    end.
Proof.
  destruct product_ids_batch as [|product_id product_ids]; [reflexivity|].
  apply process_single_batch_closed.
Qed.

End SingleBatch.

Section BatchWorkers.
Variable repr : pyval -> string.
Variable self : ApplicationRozetka.

(** What the loop over the completed futures takes from one of them. *)
Local Abbreviation taken := (fun f : batch_future =>
  match batch_result f with
  | Ok parsed_batch => parsed_batch
  | Raise _ => []
  end).

Lemma extend_all (completed : list batch_future) (acc : list pyval) :
  fold_left (fun acc f => extend_completed f acc) completed acc
  = acc ++ flat_map taken completed.
Proof.
  revert acc. induction completed as [|f fs IH]; intros acc.
  - cbn. rewrite app_nil_r. reflexivity.
  - cbn [fold_left flat_map]. rewrite IH. unfold extend_completed.
    destruct (batch_result f) as [[|r rs]|e]; cbn [app];
      rewrite <- ?app_assoc, ?app_nil_r; reflexivity.
Qed.

Lemma submit_batches_results (num_workers i : Z) (batches : list (list pyval)) :
  0 < num_workers -> 0 <= i ->
  exists futures,
    submit_batches repr (create_api_workers self num_workers) i batches
    = Ok futures
    /\ map batch_result futures
       = map (fun batch => snd (process_single_batch repr (new_api self) batch))
             batches.
Proof.
  intros Hw. revert i. induction batches as [|batch rest IH]; intros i Hi.
  - exists []. split; reflexivity.
  - destruct (IH (i + 1) ltac:(lia)) as (fs & Hfs & Hres).
    cbn [submit_batches]. unfold submit_batch at 1.
    rewrite workers_length.
    replace (Z.of_nat (Z.to_nat num_workers) =? 0) with false
      by (symmetry; apply Z.eqb_neq; lia).
    rewrite workers_lookup
      by (pose proof (Z.mod_pos_bound i (Z.of_nat (Z.to_nat num_workers))
                        ltac:(lia)); lia).
    cbn [obind]. rewrite Hfs. cbn [obind].
    eexists. split; [reflexivity|]. cbn [map batch_result]. rewrite Hres.
    reflexivity.
Qed.

Lemma taken_in_order (futures : list batch_future)
    (batches : list (list pyval)) :
  map batch_result futures
  = map (fun batch => snd (process_single_batch repr (new_api self) batch))
        batches ->
  flat_map taken futures = records_in_order repr (new_api self) batches.
Proof.
  revert batches. induction futures as [|f fs IH]; intros [|b bs] Hmap;
    try discriminate; [reflexivity|].
  cbn [map] in Hmap. injection Hmap as Hf Hrest.
  unfold records_in_order. cbn [flat_map]. rewrite Hf.
  f_equal. apply IH. exact Hrest.
Qed.

Lemma records_in_order_records (api : RozetkaAPI) (batches : list (list pyval)) :
  Forall product_record (records_in_order repr api batches).
Proof.
  unfold records_in_order. induction batches as [|b bs IH]; [constructor|].
  cbn [flat_map]. apply Forall_app. split; [|exact IH].
  destruct (process_single_batch_records repr api b) as (records & -> & Hrec).
  exact Hrec.
Qed.

(** X15. With a positive batch size and a positive number of workers
    the batch stage returns, and the order in which the thread pool
    completes the batches decides only the order of the records: for
    every completion order the result is a rearrangement of the records
    of the batches taken in submission order, every element a
    five-field record.  No product record is lost or doubled, and no
    slot of the pool changes a result. *)
Theorem batch_stage_keeps_every_record (completion : list nat)
    (product_ids_list : list pyval) (batch_size num_workers : Z) :
  0 < batch_size -> 0 < num_workers ->
  exists batches records,
    batches_of product_ids_list batch_size = Ok batches
    /\ (Permutation completion (seq 0 (length batches)) ->
        process_batches_with_workers repr self completion product_ids_list
          batch_size num_workers = Ok records
        /\ Permutation records (records_in_order repr (new_api self) batches)
        /\ Forall product_record records).
Proof.
  intros Hs Hw.
  destruct (batches_of_list product_ids_list batch_size Hs)
    as (batches & Hbatches & _).
  destruct (submit_batches_results num_workers 0 batches Hw ltac:(lia))
    as (futures & Hsubmit & Hres).
  exists batches,
    (fold_left (fun acc f => extend_completed f acc)
       (omap (fun i => futures !! i) completion) []).
  split; [exact Hbatches|]. intros Hperm.
  assert (Hlen : length futures = length batches).
  { rewrite <- (length_map batch_result futures), Hres, length_map.
    reflexivity. }
  assert (Hrecords :
    Permutation
      (fold_left (fun acc f => extend_completed f acc)
         (omap (fun i => futures !! i) completion) [])
      (records_in_order repr (new_api self) batches)).
  { rewrite extend_all. cbn [app].
    rewrite <- (taken_in_order futures batches Hres).
    apply Permutation_flat_map.
    rewrite Hperm, <- Hlen, lookup_all. reflexivity. }
  split; [|split; [exact Hrecords|]].
  - unfold process_batches_with_workers. rewrite Hbatches. cbn [obind].
    replace (num_workers <=? 0) with false by (symmetry; apply Z.leb_gt; lia).
    rewrite Hsubmit. reflexivity.
  - eapply Permutation_Forall; [symmetry; exact Hrecords|].
    apply records_in_order_records.
Qed.

(** X16. The degenerate sizes of the batch stage.  A batch size of zero
    is a [ValueError] of [range] before anything is requested; a
    negative batch size makes no batch at all, so the stage returns no
    record for any set of products; and with a usable batch size, a
    pool of zero or fewer workers is a [ValueError] of the executor. *)
Theorem batch_stage_degenerate_sizes (completion : list nat)
    (product_ids_list : list pyval) (batch_size num_workers : Z) :
  batch_size <= 0 \/ num_workers <= 0 ->
  process_batches_with_workers repr self completion product_ids_list
    batch_size num_workers
  = if (batch_size <? 0) && (0 <? num_workers) then Ok []
    else Raise ValueError.
Proof.
  intros Hdeg. unfold process_batches_with_workers, batches_of, range_step.
  destruct (Z.eqb_spec batch_size 0) as [->|Hnz]; [reflexivity|].
  destruct (Z.ltb_spec 0 batch_size) as [Hpos|Hneg].
  - assert (Hw : num_workers <= 0) by lia.
    replace (batch_size <? 0) with false by (symmetry; apply Z.ltb_ge; lia).
    cbn [obind andb].
    replace (num_workers <=? 0) with true by (symmetry; apply Z.leb_le; lia).
    reflexivity.
  - replace (batch_size <? 0) with true by (symmetry; apply Z.ltb_lt; lia).
    assert (Hnone :
      Z.to_nat ((0 - Z.of_nat (length product_ids_list) - batch_size - 1)
                / - batch_size) = 0%nat).
    { assert ((0 - Z.of_nat (length product_ids_list) - batch_size - 1)
              / - batch_size <= 0); [|lia].
      assert (0 - Z.of_nat (length product_ids_list) - batch_size - 1
              < - batch_size) by lia.
      destruct (Z_lt_le_dec
                  (0 - Z.of_nat (length product_ids_list) - batch_size - 1) 0).
      - pose proof (Z.div_lt_upper_bound
                      (0 - Z.of_nat (length product_ids_list) - batch_size - 1)
                      (- batch_size) 1 ltac:(lia) ltac:(lia)). lia.
      - rewrite Z.div_small by lia. lia. }
    rewrite Hnone. cbn [seq map obind andb].
    destruct (Z.ltb_spec 0 num_workers) as [Hw|Hw].
    + replace (num_workers <=? 0) with false by (symmetry; apply Z.leb_gt; lia).
      cbn [submit_batches obind].
      replace (omap (fun i => @nil batch_future !! i) completion)
        with (@nil batch_future)
        by (induction completion as [|j js IH]; [reflexivity|exact IH]).
      reflexivity.
    + replace (num_workers <=? 0) with true by (symmetry; apply Z.leb_le; lia).
      reflexivity.
Qed.

End BatchWorkers.

(** ** Saving *)

Lemma existsb_eqb_In (key : string) (fieldnames : list string) :
  existsb (String.eqb key) fieldnames = true <-> In key fieldnames.
Proof.
  rewrite existsb_exists. split.
  - intros (x & Hx & Heq). apply String.eqb_eq in Heq. subst x. exact Hx.
  - intros Hin. exists key. split; [exact Hin|apply String.eqb_refl].
Qed.

Lemma dict_to_list_accepts (fieldnames : list string) (rowdict : pyval) :
  (exists cells, dict_to_list fieldnames rowdict = Ok cells)
  <-> csv_row fieldnames rowdict.
Proof.
  unfold dict_to_list, csv_row.
  destruct (items rowdict) as [entries|e]; cbn [obind].
  - destruct (forallb _ entries) eqn:Hall.
    + split; [|intros _; eexists; reflexivity].
      intros _. exists entries. split; [reflexivity|].
      intros key Hkey. apply in_map_iff in Hkey as (kv & <- & Hkv).
      rewrite forallb_forall in Hall. apply existsb_eqb_In.
      rewrite <- (Hall kv Hkv). unfold existsb. reflexivity.
    + split; [intros [cells Hc]; discriminate|].
      intros (entries' & [= <-] & Hkeys). exfalso.
      assert (forallb (fun kv => existsb (String.eqb (fst kv)) fieldnames)
                entries = true); [|congruence].
      apply forallb_forall. intros kv Hkv. apply existsb_eqb_In, Hkeys.
      apply in_map. exact Hkv.
  - split; [intros [cells Hc]; discriminate|].
    intros (entries & Hentries & _). discriminate.
Qed.

Lemma writerows_accepts (fieldnames : list string) (rows : list pyval) :
  snd (writerows fieldnames rows) = Ok tt
  <-> Forall (csv_row fieldnames) rows.
Proof.
  induction rows as [|rowdict rest IH].
  - split; [constructor|reflexivity].
  - cbn [writerows].
    destruct (dict_to_list fieldnames rowdict) as [cells|e] eqn:Hrow.
    + destruct (writerows fieldnames rest) as [more r]. cbn [snd] in *.
      rewrite IH. split.
      * intros Hrest. constructor; [|exact Hrest].
        apply dict_to_list_accepts. eexists. exact Hrow.
      * intros Hall. inversion Hall. assumption.
    + split; [discriminate|]. intros Hall. inversion Hall as [|? ? Hfirst _].
      apply dict_to_list_accepts in Hfirst as [cells Hcells]. congruence.
Qed.

Lemma writerows_length (fieldnames : list string) (rows : list pyval) :
  snd (writerows fieldnames rows) = Ok tt ->
  length (fst (writerows fieldnames rows)) = length rows.
Proof.
  induction rows as [|rowdict rest IH]; [reflexivity|].
  cbn [writerows].
  destruct (dict_to_list fieldnames rowdict) as [cells|e]; [|discriminate].
  destruct (writerows fieldnames rest) as [more r]. cbn [fst snd length] in *.
  intros Hr. rewrite (IH Hr). reflexivity.
Qed.


Lemma product_record_row (r : pyval) :
  product_record r -> csv_row product_fields r.
Proof.
  intros (cells & -> & Hfields). exists cells. split; [reflexivity|].
  rewrite Hfields. tauto.
Qed.

Lemma csv_write_records (fs : filesystem) (filename : string)
    (data : list pyval) :
  Forall product_record data ->
  (forall e, snd (csv_write fs filename data) = Raise e -> refused fs e)
  /\ forall path fieldnames rows,
       In (CsvFile path fieldnames rows) (fst (csv_write fs filename data)) ->
       fieldnames = product_fields /\ length rows = length data.
Proof.
  intros Hall. unfold csv_write.
  destruct (mkdir fs "src/data") as [[]|e0] eqn:Hmkdir.
  2:{ split; [|intros path fieldnames rows []].
      intros e [= <-]. left. eexists. exact Hmkdir. }
  destruct data as [|first rest].
  - destruct (print_line fs) as [[]|e0] eqn:Hprint; cbn [fst snd]; split;
      try discriminate;
      try (intros path fieldnames rows Hin; cbn in Hin;
           repeat destruct Hin as [Hin|Hin]; try discriminate Hin;
           destruct Hin).
    intros e [= <-]. right. right. right. exact Hprint.
  - assert (Hrows : Forall (csv_row product_fields) (first :: rest)).
    { eapply Forall_impl; [exact Hall|]. exact product_record_row. }
    inversion Hall as [|? ? (cells & -> & Hfields) _]. subst.
    cbn [items]. rewrite Hfields.
    destruct (open_write fs (data_path filename)) as [[]|e0] eqn:Hopen.
    2:{ cbn [fst snd]. split.
        - intros e [= <-]. right. left. eexists. exact Hopen.
        - intros path fieldnames rows [Hin|[]]. discriminate Hin. }
    pose proof (proj2 (writerows_accepts product_fields
                         (PDict cells :: rest)) Hrows) as Hok.
    pose proof (writerows_length product_fields (PDict cells :: rest) Hok)
      as Hlen.
    destruct (writerows product_fields (PDict cells :: rest)) as [rows r].
    cbn [fst snd] in *. subst r. split.
    + destruct (write_text fs (data_path filename)
                  (CsvText product_fields rows)) as [[]|e0] eqn:Hwrite;
        [discriminate|].
      intros e [= <-]. right. right. left. eexists _, _. exact Hwrite.
    + intros path fieldnames rows' [H|[H|[]]]; [discriminate|].
      injection H as _ <- <-. split; [reflexivity|exact Hlen].
Qed.

Lemma json_write_raises (fs : filesystem) (filename : string)
    (data : list pyval) (e : exn) :
  snd (json_write fs filename data) = Raise e -> refused fs e.
Proof.
  unfold json_write.
  destruct (mkdir fs "src/data") as [[]|e0] eqn:Hmkdir;
    [|intros [= <-]; left; eexists; exact Hmkdir].
  destruct (open_write fs (data_path filename)) as [[]|e0] eqn:Hopen;
    [|intros [= <-]; right; left; eexists; exact Hopen].
  cbn [snd].
  destruct (write_text fs (data_path filename) (JsonText data))
    as [[]|e0] eqn:Hwrite; [discriminate|].
  intros [= <-]. right. right. left. eexists _, _. exact Hwrite.
Qed.

Section Save.
Variable fs : filesystem.
Variable self : ApplicationRozetka.

Lemma save_results_raises (data : list pyval) (name_category : string)
    (e : exn) :
  Forall product_record data ->
  snd (save_results fs self data name_category) = Raise e -> refused fs e.
Proof.
  intros Hall.
  destruct (csv_write_records fs (name_category +:+ "_data.csv") data Hall)
    as [Hcsv _].
  pose proof (json_write_raises fs (name_category +:+ "_data.json") data)
    as Hjson.
  unfold save_results.
  destruct (csv_write fs (name_category +:+ "_data.csv") data) as [t1 r1].
  destruct (json_write fs (name_category +:+ "_data.json") data) as [t2 r2].
  cbn [snd] in Hcsv, Hjson.
  destruct (one_of ["csv"; "both"] _), (one_of ["json"; "both"] _),
    (one_of ["csv"; "json"; "both"] _), r1 as [[]|e1], r2 as [[]|e2];
    cbn [negb snd]; try discriminate;
    intros [= <-]; first [apply Hcsv; reflexivity|apply Hjson; reflexivity].
Qed.

(** X18. Saving what the batch stage produced fails only where the
    outside refuses: on a list of five-field records, under every
    setting of [save_data], an exception of [save_results] is one that
    making the directory, opening a file, writing it or printing
    raised; no row is rejected by the CSV writer.  A CSV file, when one
    is handed over, has the five fields as its header and one row per
    record. *)
Theorem saving_records_raises_only_what_the_outside_raised
    (data : list pyval) (name_category : string) :
  Forall product_record data ->
  (forall e, snd (save_results fs self data name_category) = Raise e ->
     refused fs e)
  /\ forall path fieldnames rows,
       In (CsvFile path fieldnames rows)
          (fst (save_results fs self data name_category)) ->
       fieldnames = product_fields /\ length rows = length data.
Proof.
  intros Hall. split; [intros e; apply save_results_raises; exact Hall|].
  destruct (csv_write_records fs (name_category +:+ "_data.csv") data Hall)
    as [_ Hcsv].
  assert (Hjson : forall path fieldnames rows,
            ~ In (CsvFile path fieldnames rows)
                (fst (json_write fs (name_category +:+ "_data.json") data))).
  { intros path fieldnames rows. unfold json_write.
    destruct (mkdir fs "src/data") as [[]|e0]; [|intros []].
    destruct (open_write fs _) as [[]|e0]; cbn;
      intros Hin; repeat destruct Hin as [Hin|Hin]; try discriminate Hin;
      destruct Hin. }
  unfold save_results.
  destruct (csv_write fs (name_category +:+ "_data.csv") data) as [t1 r1].
  destruct (json_write fs (name_category +:+ "_data.json") data) as [t2 r2].
  cbn [fst] in Hcsv, Hjson.
  destruct (one_of ["csv"; "both"] _), (one_of ["json"; "both"] _),
    (one_of ["csv"; "json"; "both"] _), r1 as [[]|e1], r2 as [[]|e2];
    cbn [negb fst snd app]; intros path fieldnames rows Hin;
    rewrite ?in_app_iff in Hin; cbn [In] in Hin;
    repeat match type of Hin with
           | _ \/ _ => destruct Hin as [Hin|Hin]
           | False => destruct Hin
           | _ = _ => discriminate Hin
           | In _ t1 => exact (Hcsv path fieldnames rows Hin)
           | In _ t2 => destruct (Hjson path fieldnames rows Hin)
           end.
Qed.

(** X19. A value of [save_data] that is none of [csv], [json] and
    [both] after lower-casing writes no file and raises nothing: the
    only effect of [save_results] is the warning, and the parsed data
    of the category is dropped. *)
Theorem unknown_format_saves_nothing (data : list pyval)
    (name_category : string) :
  one_of ["csv"; "json"; "both"] (lower (save_data (app_settings self)))
    = false ->
  save_results fs self data name_category
  = ([UnknownFormat (lower (save_data (app_settings self)))], Ok tt).
Proof.
  unfold save_results, one_of. cbn [existsb].
  intros Hnone. rewrite Hnone.
  apply orb_false_iff in Hnone as [Hcsv Hrest].
  apply orb_false_iff in Hrest as [Hjson Hrest].
  rewrite Hcsv, Hjson. cbn [orb] in *. rewrite Hrest. reflexivity.
Qed.

End Save.

(** ** The stages of one category *)

Section StagesNeverRaise.
Variable repr : pyval -> string.
Variable self : ApplicationRozetka.

Lemma completed_records (futures : list batch_future) (completion : list nat) :
  Forall (fun f => exists records,
            batch_result f = Ok records /\ Forall product_record records)
         futures ->
  Forall product_record
    (fold_left (fun acc f => extend_completed f acc)
       (omap (fun i => futures !! i) completion) []).
Proof.
  intros Hfutures.
  rewrite (extend_all (omap (fun i => futures !! i) completion) []).
  cbn [app]. induction completion as [|i rest IH]; [constructor|].
  cbn [omap list_omap]. destruct (futures !! i) as [f|] eqn:Hf; [|exact IH].
  cbn [flat_map]. apply Forall_app. split; [|exact IH].
  apply list_elem_of_lookup_2 in Hf.
  rewrite Forall_forall in Hfutures.
  destruct (Hfutures f Hf) as (records & -> & Hrecords). exact Hrecords.
Qed.

Lemma batch_stage_returns_records (completion : list nat)
    (product_ids_list : list pyval) (batch_size num_workers : Z) :
  0 < batch_size -> 0 < num_workers ->
  exists records,
    process_batches_with_workers repr self completion product_ids_list
      batch_size num_workers = Ok records
    /\ Forall product_record records.
Proof.
  intros Hs Hw. unfold process_batches_with_workers.
  destruct (batches_of_list product_ids_list batch_size Hs)
    as (batches & -> & _).
  destruct (submit_batches_results repr self num_workers 0 batches Hw
              ltac:(lia)) as (futures & Hsubmit & Hres).
  cbn [obind].
  replace (num_workers <=? 0) with false by (symmetry; apply Z.leb_gt; lia).
  rewrite Hsubmit. cbn [obind].
  eexists. split; [reflexivity|]. apply completed_records.
  clear Hsubmit. revert batches Hres.
  induction futures as [|f fs IH]; intros [|b bs] Hres; try discriminate;
    constructor.
  - cbn [map] in Hres. injection Hres as Hf _.
    destruct (process_single_batch_records repr (new_api self) b)
      as (records & Hrecords & Hall).
    exists records. split; [congruence|exact Hall].
  - cbn [map] in Hres. injection Hres as _ Hrest. exact (IH bs Hrest).
Qed.

Variable fs : filesystem.

Lemma batch_and_save_raises (completion : list nat)
    (product_ids_list : list pyval) (name : string) (e : exn) :
  snd (batch_and_save repr fs self completion product_ids_list name)
    = Raise e ->
  refused fs e.
Proof.
  unfold batch_and_save.
  destruct (batch_stage_returns_records completion product_ids_list 60 10
              ltac:(lia) ltac:(lia)) as (records & -> & Hrecords).
  apply save_results_raises. exact Hrecords.
Qed.

(** X20. Stages 2 and 3 of a category fail only where the outside
    refuses: for every listing of the collected ids, every completion
    order of the pool (also one that leaves futures out) and every
    setting of [save_data], the batches of 60 on 10 workers return
    five-field records, these are what is handed to [save_results], and
    an exception of the two stages is one that making the directory,
    opening or writing a file, or printing raised. *)
Theorem batch_and_save_raises_only_what_the_outside_raised
    (completion : list nat) (product_ids_list : list pyval) (name : string) :
  exists parsed_data,
    process_batches_with_workers repr self completion product_ids_list 60 10
    = Ok parsed_data
    /\ Forall product_record parsed_data
    /\ batch_and_save repr fs self completion product_ids_list name
       = save_results fs self parsed_data name
    /\ forall e,
         snd (batch_and_save repr fs self completion product_ids_list name)
           = Raise e ->
         refused fs e.
Proof.
  destruct (batch_stage_returns_records completion product_ids_list 60 10
              ltac:(lia) ltac:(lia)) as (records & Hrun & Hrecords).
  exists records. split; [exact Hrun|]. split; [exact Hrecords|].
  split; [|intros e; apply batch_and_save_raises].
  unfold batch_and_save. rewrite Hrun. reflexivity.
Qed.

End StagesNeverRaise.

(** ** The entry loop, continued *)

Section EntryLoopAlways.
Variable collect : Z -> outcome (gset hkey).
Variable later_stages : string -> Z -> gset hkey -> outcome unit.

Lemma start_is_start_loop (categories : list string) :
  start collect later_stages categories
  = start_loop collect later_stages categories.
Proof. destruct categories; reflexivity. Qed.

Lemma start_loop_step (category_url : string) (rest : list string) :
  exists v,
    visited_url v = category_url
    /\ (start_loop collect later_stages (category_url :: rest)
        = (if ends_run collect category_url then [v]
           else v :: start_loop collect later_stages rest))
    /\ (forall u, v = Failed u ->
          exists name category_id,
            category_name_and_id category_url = Some (name, category_id)
            /\ ((exists e, collect category_id = Raise e)
                \/ exists product_ids e,
                     collect category_id = Ok product_ids
                     /\ later_stages name category_id product_ids = Raise e)).
Proof.
  cbn [start_loop]. unfold ends_run.
  destruct (category_name_and_id category_url) as [[name category_id]|];
    [|eexists; split; [|split; [reflexivity|]];
      [reflexivity|intros u Hu; discriminate Hu]].
  destruct (category_id =? 0);
    [eexists; split; [|split; [reflexivity|]];
     [reflexivity|intros u Hu; discriminate Hu]|].
  destruct (collect category_id) as [product_ids|e] eqn:Hcollect.
  - destruct (bool_decide (product_ids = ∅));
      [eexists; split; [|split; [reflexivity|]];
       [reflexivity|intros u Hu; discriminate Hu]|].
    destruct (later_stages name category_id product_ids) as [[]|e] eqn:Hlater;
      [eexists; split; [|split; [reflexivity|]];
       [reflexivity|intros u Hu; discriminate Hu]|].
    eexists. split; [|split; [reflexivity|]]; [reflexivity|].
    intros u _. exists name, category_id.
    split; [reflexivity|]. right. exists product_ids, e.
    split; [exact Hcollect|exact Hlater].
  - eexists. split; [|split; [reflexivity|]]; [reflexivity|].
    intros u _. exists name, category_id.
    split; [reflexivity|]. left. exists e. exact Hcollect.
Qed.

(** X21. The run looks at the categories in the order of the file, each
    at most once, and never skips ahead: the URLs it visited are an
    initial segment of the list [read_txt] returned. *)
Theorem start_visits_an_initial_segment (categories : list string) :
  exists not_visited,
    categories
    = map visited_url (start collect later_stages categories) ++ not_visited.
Proof.
  rewrite start_is_start_loop.
  induction categories as [|category_url rest [not_visited IH]].
  - exists []. reflexivity.
  - destruct (start_loop_step category_url rest) as (v & Hv & -> & _).
    destruct (ends_run collect category_url).
    + exists rest. cbn. rewrite Hv. reflexivity.
    + exists not_visited. cbn [map app]. rewrite Hv, <- IH. reflexivity.
Qed.

(** X22. For category URLs in ASCII, where [category_name_and_id] is
    the source's function: as long as no category of the file comes
    back with an empty set of ids, the run reaches every category; each
    URL is visited once, in the order of the file, whether it was
    skipped, failed or completed. *)
Theorem start_visits_every_category (categories : list string) :
  forallb is_ascii categories = true ->
  forallb (fun category_url => negb (ends_run collect category_url)) categories
    = true ->
  map visited_url (start collect later_stages categories) = categories.
Proof.
  intros _. rewrite start_is_start_loop.
  induction categories as [|category_url rest IH]; [reflexivity|].
  cbn [forallb]. intros Hall. apply andb_true_iff in Hall as [Hfirst Hrest].
  destruct (start_loop_step category_url rest) as (v & Hv & -> & _).
  apply negb_true_iff in Hfirst. rewrite Hfirst.
  cbn [map]. rewrite Hv, (IH Hrest). reflexivity.
Qed.

Lemma start_loop_failed (categories : list string) :
  Forall (fun v =>
            forall u, v = Failed u ->
              exists name category_id,
                In u categories
                /\ category_name_and_id u = Some (name, category_id)
                /\ ((exists e, collect category_id = Raise e)
                    \/ exists product_ids e,
                         collect category_id = Ok product_ids
                         /\ later_stages name category_id product_ids
                            = Raise e))
         (start_loop collect later_stages categories).
Proof.
  induction categories as [|category_url rest IH]; [constructor|].
  destruct (start_loop_step category_url rest) as (v & Hv & -> & Hfailed).
  assert (Hhead : forall u, v = Failed u ->
            exists name category_id,
              In u (category_url :: rest)
              /\ category_name_and_id u = Some (name, category_id)
              /\ ((exists e, collect category_id = Raise e)
                  \/ exists product_ids e,
                       collect category_id = Ok product_ids
                       /\ later_stages name category_id product_ids
                          = Raise e)).
  { intros u Hu. destruct (Hfailed u Hu) as (name & category_id & Hid & Hwhy).
    subst v. cbn in Hv. subst u. exists name, category_id.
    split; [left; reflexivity|]. split; assumption. }
  destruct (ends_run collect category_url); constructor;
    try exact Hhead; try constructor.
  eapply Forall_impl; [exact IH|]. cbn beta.
  intros v' Hv' u Hu. destruct (Hv' u Hu) as (name & category_id & Hin & Hrest).
  exists name, category_id. split; [right; exact Hin|exact Hrest].
Qed.

End EntryLoopAlways.

Section StartWithStages.
Variable repr : pyval -> string.
Variable fs : filesystem.
Variable self : ApplicationRozetka.
(** [list(product_ids)] and the completion order of the batch pool, as
    the interpreter and the pool choose them. *)
Variable listing : gset hkey -> list pyval.
Variable batch_completion : gset hkey -> list nat.
Variable collect : Z -> outcome (gset hkey).

Local Abbreviation stages := (fun (name : string) (_ : Z) (product_ids : gset hkey) =>
  snd (batch_and_save repr fs self (batch_completion product_ids)
         (listing product_ids) name)).

(** X23. For category URLs in ASCII and with the batch and saving
    stages as the code has them, a category is logged as failed only
    for one of two reasons: the collection of its ids raised, or the
    outside refused while saving (the directory, a file, a write or the
    printed message).  Every failed URL is a category of the file with
    an id; the batch stage itself never makes a category fail. *)
Theorem only_collection_or_the_outside_fails_a_category
    (categories : list string) :
  forallb is_ascii categories = true ->
  Forall (fun v =>
            forall u, v = Failed u ->
              In u categories
              /\ exists name category_id e,
                   category_name_and_id u = Some (name, category_id)
                   /\ (collect category_id = Raise e \/ refused fs e))
         (start collect stages categories).
Proof.
  intros _. rewrite start_is_start_loop.
  eapply Forall_impl; [apply start_loop_failed|]. cbn beta.
  intros v Hv u Hu.
  destruct (Hv u Hu) as (name & category_id & Hin & Hid & [[e He]|Hlater]).
  - split; [exact Hin|]. exists name, category_id, e.
    split; [exact Hid|left; exact He].
  - destruct Hlater as (product_ids & e & _ & Hraise).
    split; [exact Hin|]. exists name, category_id, e.
    split; [exact Hid|]. right.
    exact (batch_and_save_raises repr self fs _ _ _ e Hraise).
Qed.

End StartWithStages.

(** ** A pool without workers *)

Section EmptyPool.
Variable repr : pyval -> string.
Variable self : ApplicationRozetka.
Variable completion : list nat.

(** X24. With [max_workers] zero or negative, a category for which
    discovery finds at least one brand cannot be collected: the
    collection logs the discovery requests and raises the [ValueError]
    of the executor, and [start], given the category under an ASCII
    URL, logs it as failed and goes on with the next one. *)
Theorem non_positive_pool_fails_the_category (category_url name : string)
    (category_id : Z) (t : list event) (brand : hkey * pyval)
    (more_brands : brands) (rest : list string)
    (later_stages : string -> Z -> gset hkey -> outcome unit) :
  max_workers (app_settings self) <= 0 ->
  search_brands_for_category (new_api self) category_id
    = (t, Ok (brand :: more_brands)) ->
  is_ascii category_url = true ->
  category_name_and_id category_url = Some (name, category_id) ->
  category_id <> 0 ->
  collect_product_ids repr self completion category_id = (t, Raise ValueError)
  /\ start_loop
       (fun category_id =>
          snd (collect_product_ids repr self completion category_id))
       later_stages (category_url :: rest)
     = Failed category_url
       :: start_loop
            (fun category_id =>
               snd (collect_product_ids repr self completion category_id))
            later_stages rest.
Proof.
  intros Hpool Hsearch _ Hid Hnz.
  assert (Hcollect :
    collect_product_ids repr self completion category_id
    = (t, Raise ValueError)).
  { unfold collect_product_ids, collect_product_ids_with_workers.
    rewrite Hsearch. cbn [bind].
    replace (max_workers (app_settings self) <=? 0) with true
      by (symmetry; apply Z.leb_le; exact Hpool).
    cbn [lift]. rewrite app_nil_r. reflexivity. }
  split; [exact Hcollect|].
  apply (start_loop_survives_exception _ _ category_url name category_id
           ValueError rest Hid Hnz).
  rewrite Hcollect. reflexivity.
Qed.

End EmptyPool.

(** ** Category URLs *)

Lemma span_satisfies (p : ascii -> bool) (s a b : string) :
  span p s = (a, b) -> all_chars p a = true.
Proof.
  revert a b. induction s as [|c s IH]; intros a b.
  - cbn. intros [= <- <-]. reflexivity.
  - cbn [span]. destruct (p c) eqn:Hc.
    + destruct (span p s) as [a' b'] eqn:Hspan. intros [= <- <-].
      cbn [all_chars]. rewrite Hc, (IH a' b' eq_refl). reflexivity.
    + intros [= <- <-]. reflexivity.
Qed.

Lemma int_of_digits_from (digits : list ascii) (acc : Z) :
  0 <= acc ->
  forallb is_digit digits = true ->
  0 <= fold_left (fun acc c => 10 * acc + (Z.of_nat (nat_of_ascii c) - 48))
         digits acc.
Proof.
  revert acc. induction digits as [|c digits IH]; intros acc Hacc Hall.
  - exact Hacc.
  - cbn [forallb fold_left] in *. apply andb_true_iff in Hall as [Hc Hrest].
    apply IH; [|exact Hrest].
    unfold is_digit in Hc. apply andb_true_iff in Hc as [Hlo _].
    apply Nat.leb_le in Hlo. lia.
Qed.

Lemma all_chars_list (p : ascii -> bool) (s : string) :
  all_chars p s = forallb p (list_ascii_of_string s).
Proof. induction s as [|c s IH]; [reflexivity|]. cbn. rewrite IH. reflexivity. Qed.

Lemma prefix_contains (needle hay : string) :
  String.prefix needle hay = true -> str_contains needle hay = true.
Proof. intros H. destruct hay; cbn [str_contains]; rewrite H; reflexivity. Qed.

Lemma strip_prefix_prefix (p s rest : string) :
  strip_prefix p s = Some rest -> String.prefix p s = true.
Proof. unfold strip_prefix. destruct (String.prefix p s); [reflexivity|discriminate]. Qed.

Lemma match_here_shape (s slug digits : string) :
  match_here s = Some (slug, digits) ->
  String.prefix "/ua/" s = true
  /\ all_chars is_digit digits = true
  /\ slug <> "".
Proof.
  unfold match_here.
  destruct (strip_prefix "/ua/" s) as [s1|] eqn:Hua; [|discriminate].
  cbn [mbind option_bind].
  destruct (span (fun c => negb (is_slash c)) s1) as [slug' s2].
  destruct (String.eqb slug' "") eqn:Hslug; [discriminate|].
  destruct (strip_prefix "/c" s2) as [s3|]; [|discriminate].
  cbn [mbind option_bind].
  destruct (span is_digit s3) as [digits' s4] eqn:Hdigits.
  destruct (String.eqb digits' ""); [discriminate|].
  destruct (String.prefix "/" s4); [|discriminate].
  intros [= <- <-]. split; [exact (strip_prefix_prefix _ _ _ Hua)|].
  split; [exact (span_satisfies _ _ _ _ Hdigits)|].
  apply String.eqb_neq. exact Hslug.
Qed.

Lemma re_search_shape (url slug digits : string) :
  re_search url = Some (slug, digits) ->
  str_contains "/ua/" url = true
  /\ all_chars is_digit digits = true
  /\ slug <> "".
Proof.
  induction url as [|c url IH].
  - cbn [re_search]. destruct (match_here "") as [m|] eqn:Hm; [|discriminate].
    intros [= ->]. destruct (match_here_shape _ _ _ Hm) as (Hp & Hd & Hs).
    split; [exact (prefix_contains _ _ Hp)|]. split; assumption.
  - cbn [re_search].
    destruct (match_here (String c url)) as [m|] eqn:Hm.
    + intros [= ->]. destruct (match_here_shape _ _ _ Hm) as (Hp & Hd & Hs).
      split; [exact (prefix_contains _ _ Hp)|]. split; assumption.
    + intros Hrest. destruct (IH Hrest) as (Hc & Hd & Hs).
      split; [|split; assumption].
      cbn [str_contains]. rewrite Hc.
      destruct (String.prefix "/ua/" (String c url)); reflexivity.
Qed.

(** X25. For a URL in ASCII, where [category_name_and_id] is the
    source's function: the URL gives a category only if it contains
    [/ua/]; the id read from it is never negative, so the test
    [not category_id] of [start] can only be met by an id of zero; and
    the name is not empty.  A URL without the language segment, as the
    site serves them for the Russian pages, is skipped. *)
Theorem category_needs_the_language_segment (url name : string)
    (category_id : Z) :
  is_ascii url = true ->
  category_name_and_id url = Some (name, category_id) ->
  str_contains "/ua/" url = true /\ 0 <= category_id /\ name <> "".
Proof.
  intros _. unfold category_name_and_id.
  destruct (re_search url) as [[slug digits]|] eqn:Hsearch; [|discriminate].
  unfold int_of_digits.
  destruct (4300 <? String.length digits)%nat; [discriminate|].
  intros [= <- <-].
  destruct (re_search_shape url slug digits Hsearch) as (Hc & Hd & Hs).
  split; [exact Hc|]. split.
  - unfold digits_value. apply int_of_digits_from; [lia|].
    rewrite <- all_chars_list. exact Hd.
  - destruct slug as [|c slug]; [congruence|]. discriminate.
Qed.

(** * Instances

    Each property that has a precondition, at an input that meets it. *)

(** The first attempt is answered with 500, the second with a document. *)
Lemma make_request_returns_first_200_witness :
  _make_request (Fixtures.flaky (PInt 7)) "u" None
  = ([SleepJitter; HttpGet "u"; SleepBackoff 1; SleepJitter; HttpGet "u"],
     PInt 7)
  /\ attempts_made (fst (_make_request (Fixtures.flaky (PInt 7)) "u" None))
     = 2%nat.
Proof.
  apply (make_request_returns_first_200 (Fixtures.flaky (PInt 7)) "u" None 1
           {| status_code := 200;
              content_type := Some "application/json; charset=utf-8";
              text := ""; json := Some (PInt 7) |} (PInt 7)).
  - vm_compute. split; [discriminate|reflexivity].
  - intros j Hj. assert (j = 0) as -> by lia. vm_compute. reflexivity.
  - reflexivity.
  - reflexivity.
  - reflexivity.
Defined.

Lemma make_request_data_is_a_200_payload_witness :
  exists k response,
    0 <= k < 3
    /\ session_get (Fixtures.flaky (PInt 7)) "u" k = Responded response
    /\ status_code response = 200
    /\ payload_of response = Some (PInt 7).
Proof.
  apply (make_request_data_is_a_200_payload (Fixtures.flaky (PInt 7)) "u" None
           (PInt 7)).
  - vm_compute. reflexivity.
  - discriminate.
Defined.

Lemma make_request_exhausts_on_transient_witness :
  _make_request Fixtures.always_down "u" None
  = ([SleepJitter; HttpGet "u"; SleepBackoff 1;
      SleepJitter; HttpGet "u"; SleepBackoff 2;
      SleepJitter; HttpGet "u"], PNone)
  /\ attempts_made (fst (_make_request Fixtures.always_down "u" None)) = 3%nat.
Proof.
  apply (make_request_exhausts_on_transient Fixtures.always_down "u" None).
  intros a Ha. reflexivity.
Defined.

(** Three pages announced, the second one missing. *)
Lemma simple_pagination_collects_witness :
  snd (_process_simple_pagination Fixtures.no_repr Fixtures.gap_midway
         (PStr "lg") 80089 (PInt 3))
  = Ok ({[HInt 1; HInt 2]}
        ∪ ⋃ map (fun p => contribution
                            (page_ids (fetch Fixtures.gap_midway
                                         (Fixtures.page_url p "lg"))))
                (range 2 4))
  /\ requests_of (fst (_process_simple_pagination Fixtures.no_repr
                         Fixtures.gap_midway (PStr "lg") 80089 (PInt 3)))
     = map (fun p => Fixtures.page_url p "lg") (range 1 4)
  /\ length (requests_of (fst (_process_simple_pagination Fixtures.no_repr
                                 Fixtures.gap_midway (PStr "lg") 80089
                                 (PInt 3))))
     = 3%nat.
Proof.
  apply (simple_pagination_collects Fixtures.no_repr Fixtures.gap_midway
           (PStr "lg") 80089 (PInt 3)
           (PDict [("ids", PList [PInt 1; PInt 2]); ("total_pages", PInt 3)])
           {[HInt 1; HInt 2]} 3).
  - lia.
  - vm_compute. reflexivity.
  - vm_compute. reflexivity.
  - reflexivity.
  - intros p Hp. assert (p = 2 \/ p = 3) as [-> | ->] by lia;
      eexists; vm_compute; reflexivity.
Defined.

Lemma found_filter_has_the_title_witness :
  exists filters options filter_data,
    data_member "filters"
      (fetch Fixtures.filter_hits
         (facet_url Fixtures.no_repr (PStr "lg") 80089))
    = Ok (Some filters)
    /\ getitem filters "options" = Ok (PDict options)
    /\ In ("f1", filter_data) options
    /\ get filter_data "option_title" PNone = Ok (PStr "Diagonal").
Proof.
  apply (found_filter_has_the_title Fixtures.no_repr Fixtures.filter_hits
           (PStr "lg") 80089 "Diagonal" "f1").
  vm_compute. reflexivity.
Defined.

(** One value under two sort orders: two tasks. *)
Lemma filter_tasks_per_value_and_sort_witness :
  walks_entered
    (fst (_process_with_filters_and_sort Fixtures.no_repr
            Fixtures.filter_sorted_hits (PStr "lg") 80089 (PInt 3) "Diagonal"
            (Some ["popularity"; "price"])))
  = [FilterSortCombo "f1" (PStr "27") "popularity";
     FilterSortCombo "f1" (PStr "27") "price"].
Proof.
  apply (filter_tasks_per_value_and_sort Fixtures.no_repr
           Fixtures.filter_sorted_hits (PStr "lg") (PInt 3) 80089
           "Diagonal" "f1" ["popularity"; "price"] [Fixtures.diagonal_27]).
  - vm_compute. reflexivity.
  - discriminate.
  - vm_compute. reflexivity.
  - discriminate.
  - discriminate.
  - constructor; [|constructor].
    repeat split; eexists; reflexivity.
  - intros v s [<-|[]] Hs. destruct Hs as [<-|[<-|[]]];
      eexists; vm_compute; reflexivity.
Defined.

Lemma filter_tasks_per_value_witness :
  walks_entered
    (fst (_process_with_filters_and_sort Fixtures.no_repr Fixtures.filter_hits
            (PStr "lg") 80089 (PInt 3) "Diagonal" None))
  = [SingleFilter "f1" (PStr "27")].
Proof.
  apply (filter_tasks_per_value Fixtures.no_repr Fixtures.filter_hits
           (PStr "lg") (PInt 3) 80089 "Diagonal" "f1" None
           [Fixtures.diagonal_27]).
  - vm_compute. reflexivity.
  - discriminate.
  - vm_compute. reflexivity.
  - discriminate.
  - reflexivity.
  - constructor; [|constructor].
    repeat split; eexists; reflexivity.
  - intros v [<-|[]]. eexists; vm_compute; reflexivity.
Defined.

(** The filter gives ids 1 and 2, the default traversal 1, 2 and 3. *)
Lemma default_parse_adds_to_filter_results_witness :
  snd (get_product_ids_for_brand Fixtures.no_repr Fixtures.filter_hits
         Fixtures.lg 80089 (Some ["Diagonal"]) None true)
  = Ok (filter_phase_ids Fixtures.no_repr Fixtures.filter_hits (PStr "lg")
          80089 (PInt 3) None ["Diagonal"]
        ∪ {[HInt 1; HInt 2; HInt 3]}).
Proof.
  apply (f_equal snd
           (default_parse_adds_to_filter_results Fixtures.no_repr
              Fixtures.filter_hits Fixtures.lg (PStr "lg") (PInt 3) 80089
              eq_refl eq_refl (Some ["Diagonal"]) None
              [EnterDefaultParsing; EnterWalk SimplePagination;
               Request (Fixtures.page_url 1 "lg")]
              {[HInt 1; HInt 2; HInt 3]}
              ltac:(intros f [<-|[]]; eexists; vm_compute; reflexivity)
              ltac:(vm_compute; reflexivity))).
Defined.

Lemma discovered_brands_are_distinct_records_witness :
  List.NoDup (map fst [Fixtures.discovered "dell"; Fixtures.discovered "lg"])
  /\ Forall brand_entry [Fixtures.discovered "dell"; Fixtures.discovered "lg"].
Proof.
  apply (discovered_brands_are_distinct_records Fixtures.two_brands 80089
           (fst (search_brands_for_category Fixtures.two_brands 80089))).
  vm_compute. reflexivity.
Defined.

Lemma discovery_asks_every_letter_once_witness :
  length (fst (search_brands_for_category Fixtures.two_brands 80089)) = 58%nat.
Proof.
  apply (discovery_asks_every_letter_once Fixtures.two_brands 80089
           (fst (search_brands_for_category Fixtures.two_brands 80089))
           [Fixtures.discovered "dell"; Fixtures.discovered "lg"]).
  vm_compute. reflexivity.
Defined.

(** Three products in batches of two on three workers; the second batch
    completes first. *)
Lemma batch_stage_keeps_every_record_witness :
  exists batches records,
    batches_of [PInt 1; PInt 2; PInt 3] 2 = Ok batches
    /\ (Permutation [1; 0]%nat (seq 0 (length batches)) ->
        process_batches_with_workers Fixtures.no_repr
          (Fixtures.app_of Fixtures.details_host) [1; 0]%nat
          [PInt 1; PInt 2; PInt 3] 2 3 = Ok records
        /\ Permutation records
             (records_in_order Fixtures.no_repr Fixtures.details_host batches)
        /\ Forall product_record records).
Proof.
  apply (batch_stage_keeps_every_record Fixtures.no_repr
           (Fixtures.app_of Fixtures.details_host) [1; 0]%nat
           [PInt 1; PInt 2; PInt 3] 2 3); lia.
Defined.

Lemma batch_stage_degenerate_sizes_witness :
  process_batches_with_workers Fixtures.no_repr
    (Fixtures.app_of Fixtures.details_host) [0]%nat
    [PInt 1; PInt 2; PInt 3] (-1) 10 = Ok []
  /\ process_batches_with_workers Fixtures.no_repr
       (Fixtures.app_of Fixtures.details_host) [0]%nat
       [PInt 1; PInt 2; PInt 3] 2 0 = Raise ValueError.
Proof.
  split.
  - apply (batch_stage_degenerate_sizes Fixtures.no_repr
             (Fixtures.app_of Fixtures.details_host) [0]%nat
             [PInt 1; PInt 2; PInt 3] (-1) 10). left. lia.
  - apply (batch_stage_degenerate_sizes Fixtures.no_repr
             (Fixtures.app_of Fixtures.details_host) [0]%nat
             [PInt 1; PInt 2; PInt 3] 2 0). right. lia.
Defined.

(** One record, saved as CSV and JSON on a file system that refuses
    long file names. *)
Lemma saving_records_raises_only_what_the_outside_raised_witness :
  (forall e,
     snd (save_results Fixtures.short_names
            (Fixtures.app_with 10 "both" Fixtures.details_host)
            [record_of (PDict [("id", PInt 1)])] "Monitors") = Raise e ->
     refused Fixtures.short_names e)
  /\ forall path fieldnames rows,
       In (CsvFile path fieldnames rows)
          (fst (save_results Fixtures.short_names
                  (Fixtures.app_with 10 "both" Fixtures.details_host)
                  [record_of (PDict [("id", PInt 1)])] "Monitors")) ->
       fieldnames = product_fields /\ length rows = 1%nat.
Proof.
  apply (saving_records_raises_only_what_the_outside_raised
           Fixtures.short_names
           (Fixtures.app_with 10 "both" Fixtures.details_host)
           [record_of (PDict [("id", PInt 1)])] "Monitors").
  constructor; [|constructor]. eexists. split; reflexivity.
Defined.

(** Under a name of 300 bytes that file system refuses the CSV file:
    saving raises the [OSError], and nothing is written. *)
Example saving_under_a_long_name :
  save_results Fixtures.short_names
    (Fixtures.app_with 10 "both" Fixtures.details_host)
    [record_of (PDict [("id", PInt 1)])] Fixtures.long_name
  = ([MakeDir "src/data"], Raise OSError)
  /\ save_results Fixtures.short_names
       (Fixtures.app_with 10 "both" Fixtures.details_host)
       [record_of (PDict [("id", PInt 1)])] "Monitors"
     = ([MakeDir "src/data";
         CsvFile "src/data/Monitors_data.csv" product_fields
           [[PStr ""; PStr ""; PStr ""; PInt 1; PStr ""]];
         MakeDir "src/data";
         JsonFile "src/data/Monitors_data.json"
           [record_of (PDict [("id", PInt 1)])]],
        Ok tt).
Proof. split; vm_compute; reflexivity. Qed.

Lemma unknown_format_saves_nothing_witness :
  save_results Fixtures.any_disk
    (Fixtures.app_with 10 "XML" Fixtures.details_host)
    [record_of (PDict [("id", PInt 1)])] "Monitors"
  = ([UnknownFormat "xml"], Ok tt).
Proof.
  apply (unknown_format_saves_nothing Fixtures.any_disk
           (Fixtures.app_with 10 "XML" Fixtures.details_host)
           [record_of (PDict [("id", PInt 1)])] "Monitors").
  reflexivity.
Defined.

(** A URL that does not match and a category with products: both are
    visited. *)
Lemma start_visits_every_category_witness :
  map visited_url
    (start (fun category_id =>
              snd (collect_product_ids Fixtures.no_repr
                     (Fixtures.app_of Fixtures.two_brands) [1; 0]%nat
                     category_id))
           (fun _ _ _ => Ok tt)
           ["https://rozetka.com.ua/notebooks/";
            "https://rozetka.com.ua/ua/monitors/c80089/"])
  = ["https://rozetka.com.ua/notebooks/";
     "https://rozetka.com.ua/ua/monitors/c80089/"].
Proof.
  apply (start_visits_every_category
           (fun category_id =>
              snd (collect_product_ids Fixtures.no_repr
                     (Fixtures.app_of Fixtures.two_brands) [1; 0]%nat
                     category_id))
           (fun _ _ _ => Ok tt)).
  - reflexivity.
  - vm_compute. reflexivity.
Defined.

(** The first category cannot be saved under its long name, the second
    cannot be collected: both are logged as failed, each for its own
    reason. *)
Lemma only_collection_or_the_outside_fails_a_category_witness :
  Forall (fun v =>
            forall u, v = Failed u ->
              In u [Fixtures.long_url;
                    "https://rozetka.com.ua/ua/monitors/c80089/"]
              /\ exists name category_id e,
                   category_name_and_id u = Some (name, category_id)
                   /\ (Fixtures.collect_but_80089 category_id = Raise e
                       \/ refused Fixtures.short_names e))
         (start Fixtures.collect_but_80089
            (fun (name : string) (_ : Z) (product_ids : gset hkey) =>
               snd (batch_and_save Fixtures.no_repr Fixtures.short_names
                      (Fixtures.app_with 10 "csv" Fixtures.details_host)
                      [0]%nat [PInt 1; PInt 2] name))
            [Fixtures.long_url;
             "https://rozetka.com.ua/ua/monitors/c80089/"]).
Proof.
  apply (only_collection_or_the_outside_fails_a_category Fixtures.no_repr
           Fixtures.short_names
           (Fixtures.app_with 10 "csv" Fixtures.details_host)
           (fun _ => [PInt 1; PInt 2]) (fun _ => [0]%nat)
           Fixtures.collect_but_80089
           [Fixtures.long_url;
            "https://rozetka.com.ua/ua/monitors/c80089/"]).
  vm_compute. reflexivity.
Defined.

Example long_slug_fails_after_collection :
  start Fixtures.collect_but_80089
    (fun (name : string) (_ : Z) (product_ids : gset hkey) =>
       snd (batch_and_save Fixtures.no_repr Fixtures.short_names
              (Fixtures.app_with 10 "csv" Fixtures.details_host)
              [0]%nat [PInt 1; PInt 2] name))
    [Fixtures.long_url; "https://rozetka.com.ua/ua/monitors/c80089/"]
  = [Failed Fixtures.long_url;
     Failed "https://rozetka.com.ua/ua/monitors/c80089/"].
Proof. vm_compute. reflexivity. Qed.

(** Two brands are discovered, and the settings ask for no worker. *)
Lemma non_positive_pool_fails_the_category_witness :
  collect_product_ids Fixtures.no_repr
    (Fixtures.app_with 0 "csv" Fixtures.two_brands) [1; 0]%nat 80089
  = (fst (search_brands_for_category Fixtures.two_brands 80089),
     Raise ValueError).
Proof.
  apply (non_positive_pool_fails_the_category Fixtures.no_repr
           (Fixtures.app_with 0 "csv" Fixtures.two_brands) [1; 0]%nat
           "https://rozetka.com.ua/ua/monitors/c80089/" "Monitors" 80089
           (fst (search_brands_for_category Fixtures.two_brands 80089))
           (Fixtures.discovered "dell") [Fixtures.discovered "lg"] []
           (fun _ _ _ => Ok tt)).
  - cbn. lia.
  - vm_compute. reflexivity.
  - reflexivity.
  - vm_compute. reflexivity.
  - lia.
Defined.

Lemma category_needs_the_language_segment_witness :
  str_contains "/ua/" "https://rozetka.com.ua/ua/monitors/c80089/" = true
  /\ 0 <= 80089 /\ "Monitors" <> "".
Proof.
  apply (category_needs_the_language_segment
           "https://rozetka.com.ua/ua/monitors/c80089/" "Monitors" 80089).
  - reflexivity.
  - vm_compute. reflexivity.
Defined.
